(** * Status/year aggregation of the Enel spreadsheet reports

    Shallow embedding of [process_enel_legalizacao_data]
    (src/api/enel_spreadsheets.py) and of the status separation of
    [parse_status_data] (src/api/spreadsheet_files.py, identical in
    src/api/google_sheets.py).

    Conventions of the model:
    - a Python [str] is the list of its code points ([pystr]);
    - a Python [dict] is an association list kept in insertion order, as
      CPython dicts iterate;
    - Python exceptions are the [Err] branch of the result type [res];
    - Python floats are the primitive binary64 floats of [PrimFloat];
    - the builtins [str.lower] and [int(str)] are parameters of the
      development (Section variables), so that the aggregation theorems hold
      whatever the exact Unicode tables are; concrete ASCII/Latin-1 instances
      are given for evaluation on examples. *)

From Stdlib Require Import ZArith List Bool Lia String Ascii.
From Stdlib Require Import Floats.
Import ListNotations.
Open Scope Z_scope.
Set Warnings "-register-all".


(** ** Python strings *)

Definition pystr := list Z.

(** Rocq string literal (ASCII only) to code points. *)
Fixpoint zs (s : string) : pystr :=
  match s with
  | EmptyString => []
  | String a t => Z.of_nat (nat_of_ascii a) :: zs t
  end.

(** [str.isspace] on one code point (the characters [str.split()] and
    [str.strip()] treat as whitespace). *)
Definition py_isspace (c : Z) : bool :=
  ((9 <=? c) && (c <=? 13)) || ((28 <=? c) && (c <=? 32))
  || (c =? 133) || (c =? 160) || (c =? 5760)
  || ((8192 <=? c) && (c <=? 8202))
  || (c =? 8232) || (c =? 8233) || (c =? 8239) || (c =? 8287)
  || (c =? 12288).

Fixpoint lstrip (s : pystr) : pystr :=
  match s with
  | [] => []
  | c :: t => if py_isspace c then lstrip t else s
  end.

(** [s.strip()] *)
Definition strip (s : pystr) : pystr := rev (lstrip (rev (lstrip s))).

(** [s.split()] : maximal runs of non-whitespace; [cur] is the current
    word, reversed. *)
Fixpoint split_ws_aux (s : pystr) (cur : pystr) : list pystr :=
  match s with
  | [] => match cur with [] => [] | _ => [rev cur] end
  | c :: t =>
      if py_isspace c then
        match cur with
        | [] => split_ws_aux t []
        | _ => rev cur :: split_ws_aux t []
        end
      else split_ws_aux t (c :: cur)
  end.

Definition split_ws (s : pystr) : list pystr := split_ws_aux s [].

(** [sep.join(ws)] *)
Fixpoint join (sep : pystr) (ws : list pystr) : pystr :=
  match ws with
  | [] => []
  | [w] => w
  | w :: t => w ++ sep ++ join sep t
  end.

Fixpoint str_eqb (a b : pystr) : bool :=
  match a, b with
  | [], [] => true
  | x :: a', y :: b' => (x =? y) && str_eqb a' b'
  | _, _ => false
  end.

Fixpoint prefixb (p s : pystr) : bool :=
  match p, s with
  | [], _ => true
  | x :: p', y :: s' => (x =? y) && prefixb p' s'
  | _ :: _, [] => false
  end.

(** [p in s] for strings *)
Fixpoint containsb (p s : pystr) : bool :=
  prefixb p s || match s with [] => false | _ :: s' => containsb p s' end.

(** [not s] for a string: the empty string is falsy. *)
Definition is_empty (s : pystr) : bool :=
  match s with [] => true | _ => false end.

(** ** Exceptions *)

Inductive pyexn := IndexError | KeyError | ValueError (msg : pystr).

Inductive res (A : Type) := Ok (a : A) | Err (e : pyexn).
Arguments Ok {A} a.
Arguments Err {A} e.

Definition bind {A B} (m : res A) (f : A -> res B) : res B :=
  match m with Ok a => f a | Err e => Err e end.

Notation "'let*' x ':=' m 'in' f" := (bind m (fun x => f))
  (at level 200, x name, m at level 100, f at level 200).

(** [xs[i]] for a Python list *)
Definition py_index {A} (xs : list A) (i : nat) : res A :=
  match nth_error xs i with Some a => Ok a | None => Err IndexError end.

(** ** Dicts with [int] keys (the per-year counters) *)

Definition ydict := list (Z * Z).

Fixpoint yd_mem (k : Z) (d : ydict) : bool :=
  match d with [] => false | (k', _) :: t => (k =? k') || yd_mem k t end.

(** [d[k] = v]: in place when present, appended otherwise *)
Fixpoint yd_set (d : ydict) (k v : Z) : ydict :=
  match d with
  | [] => [(k, v)]
  | (k', v') :: t => if k =? k' then (k', v) :: t else (k', v') :: yd_set t k v
  end.

(** [d[k]] *)
Fixpoint yd_get (d : ydict) (k : Z) : res Z :=
  match d with
  | [] => Err KeyError
  | (k', v) :: t => if k =? k' then Ok v else yd_get t k
  end.

(** [d[k] += n] *)
Definition yd_add (d : ydict) (k n : Z) : res ydict :=
  let* v := yd_get d k in Ok (yd_set d k (v + n)).

(** [{y: 0 for y in years}] *)
Definition zero_years (years : list Z) : ydict :=
  fold_left (fun d y => yd_set d y 0) years [].

(** [sum(d.values())] *)
Definition yd_sum (d : ydict) : Z := fold_right (fun kv acc => snd kv + acc) 0 d.

(** [d.copy()] is the same association list. *)

(** ** Python values returned to the caller (JSON-like tree) *)

Inductive pyval :=
| PInt (z : Z)
| PFloat (f : float)
| PStr (s : pystr)
| PList (l : list pyval)
| PDict (kvs : list (pyval * pyval)).

(** Equality of dict keys; the dicts of this program have [str] or [int]
    keys only. *)
Definition key_eqb (a b : pyval) : bool :=
  match a, b with
  | PInt x, PInt y => x =? y
  | PStr x, PStr y => str_eqb x y
  | _, _ => false
  end.

Fixpoint assoc_get (kvs : list (pyval * pyval)) (k : pyval) : option pyval :=
  match kvs with
  | [] => None
  | (k', v) :: t => if key_eqb k k' then Some v else assoc_get t k
  end.

(** [d[k]] on a returned value; [None] stands for the [KeyError] (or
    [TypeError] on a non-dict) that a consumer would get. *)
Definition py_get (v : pyval) (k : pyval) : option pyval :=
  match v with PDict kvs => assoc_get kvs k | _ => None end.

(** [v[k1][k2]...] *)
Fixpoint py_path (v : pyval) (ks : list string) : option pyval :=
  match ks with
  | [] => Some v
  | k :: t => match py_get v (PStr (zs k)) with
              | Some v' => py_path v' t
              | None => None
              end
  end.

Definition K (s : string) : pyval := PStr (zs s).

Definition ydict_to_py (d : ydict) : pyval :=
  PDict (map (fun kv => (PInt (fst kv), PInt (snd kv))) d).

(** [float(n)] for an [int] below 2^53 (all counts of this program are row
    counts), and the float literals of the source. *)
Definition float_of_Z (z : Z) : float := PrimFloat.of_uint63 (Uint63.of_Z z).
Definition f100 : float := 100.0%float.
Definition f0 : float := 0.0%float.

(** [(part / whole) * 100] *)
Definition pct (part whole : Z) : float :=
  PrimFloat.mul (PrimFloat.div (float_of_Z part) (float_of_Z whole)) f100.

(** ** Input data *)

(** The [data] dict: [data.get('headers', [])] and [data.get('values', [])];
    an absent key is the empty list. *)
Record sheet_data := {
  headers : list pystr;
  values : list (list pystr)
}.

(** The code point of 'ã' and 'í' (the source is UTF-8 text). *)
Definition c_atilde : Z := 227.
Definition c_iacute : Z := 237.

(** [f"Coluna '{name}' não encontrada"] *)
Definition not_found_msg (name : pystr) : pystr :=
  zs "Coluna '" ++ name ++ zs "' n" ++ [c_atilde] ++ zs "o encontrada".

(** ['concluído'] *)
Definition concluidos_normalized : pystr := zs "conclu" ++ [c_iacute] ++ zs "do".

(** ['ano Acionamento'] *)
Definition year_column_name : pystr := zs "ano Acionamento".

(** ** The aggregator *)

Section Aggregator.

(** [str.lower] *)
Variable lower : pystr -> pystr.
(** [int(s)] on a [str]: [None] when it raises [ValueError]. *)
Variable py_int : pystr -> option Z.

(** First index [i] with [headers[i].strip().lower() == target]. *)
Fixpoint find_column_from (target : pystr) (hs : list pystr) (i : nat) : option nat :=
  match hs with
  | [] => None
  | h :: t => if str_eqb (lower (strip h)) target then Some i
              else find_column_from target t (S i)
  end.

(** Lines 988-993: the status column, requested name trimmed and lowercased. *)
Definition find_status_column (status_column : pystr) (hs : list pystr) : option nat :=
  find_column_from (lower (strip status_column)) hs 0.

(** Lines 1011-1016: the year column, [year_column_name.lower()]. *)
Definition find_year_column (hs : list pystr) : option nat :=
  find_column_from (lower year_column_name) hs 0.

(** [' '.join(status_value.split()).lower()] *)
Definition normalize_status (status_value : pystr) : pystr :=
  lower (join [32] (split_ws status_value)).

Record status_info := {
  original : pystr;
  si_years : ydict;
  si_total : Z
}.

Definition status_counts := list (pystr * status_info).

Fixpoint sc_mem (k : pystr) (sc : status_counts) : bool :=
  match sc with [] => false | (k', _) :: t => str_eqb k k' || sc_mem k t end.

Fixpoint sc_get (sc : status_counts) (k : pystr) : res status_info :=
  match sc with
  | [] => Err KeyError
  | (k', v) :: t => if str_eqb k k' then Ok v else sc_get t k
  end.

Fixpoint sc_set (sc : status_counts) (k : pystr) (v : status_info) : status_counts :=
  match sc with
  | [] => [(k, v)]
  | (k', v') :: t => if str_eqb k k' then (k', v) :: t else (k', v') :: sc_set t k v
  end.

(** The loop state: [status_counts], [total_by_year], [total_all]. *)
Record acc := {
  counts : status_counts;
  total_by_year : ydict;
  total_all : Z
}.

Definition init_acc (years : list Z) : acc :=
  {| counts := []; total_by_year := zero_years years; total_all := 0 |}.

(** Lines 1039-1062: the guards of one row.  [None] is [continue]; otherwise
    the stripped status text and the parsed year. *)
Definition read_row (s y : nat) (years : list Z) (row : list pystr)
  : res (option (pystr * Z)) :=
  if (List.length row <=? Nat.max s y)%nat then Ok None else
  let* status_value :=
    (if (s <? List.length row)%nat then let* c := py_index row s in Ok (strip c)
     else Ok []) in
  if is_empty status_value then Ok None else
  let* year_value_str :=
    (if (y <? List.length row)%nat then let* c := py_index row y in Ok (strip c)
     else Ok []) in
  if is_empty year_value_str then Ok None else
  match py_int year_value_str with
  | None => Ok None
  | Some row_year =>
      if existsb (Z.eqb row_year) years then Ok (Some (status_value, row_year))
      else Ok None
  end.

(** Lines 1065-1078: count one row. *)
Definition count_row (years : list Z) (st : acc) (status_value : pystr) (row_year : Z)
  : res acc :=
  let sn := normalize_status status_value in
  let sc1 := if sc_mem sn (counts st) then counts st
             else sc_set (counts st) sn
                    {| original := status_value; si_years := zero_years years;
                       si_total := 0 |} in
  let* info := sc_get sc1 sn in
  let* ys := yd_add (si_years info) row_year 1 in
  let sc2 := sc_set sc1 sn {| original := original info; si_years := ys;
                              si_total := si_total info |} in
  let* tby := yd_add (total_by_year st) row_year 1 in
  let* info2 := sc_get sc2 sn in
  let sc3 := sc_set sc2 sn {| original := original info2; si_years := si_years info2;
                              si_total := si_total info2 + 1 |} in
  Ok {| counts := sc3; total_by_year := tby; total_all := total_all st + 1 |}.

Definition step (s y : nat) (years : list Z) (st : acc) (row : list pystr) : res acc :=
  let* e := read_row s y years row in
  match e with
  | None => Ok st
  | Some (status_value, row_year) => count_row years st status_value row_year
  end.

(** [for row in rows: ...] *)
Fixpoint count_rows (s y : nat) (years : list Z) (st : acc) (rows : list (list pystr))
  : res acc :=
  match rows with
  | [] => Ok st
  | row :: t => let* st' := step s y years st row in count_rows s y years st' t
  end.


(** ** Separation into "concluidos" and "em_andamento" (lines 1080-1113) *)

(** [{'years': ..., 'total': ..., 'percentage': ...}] *)
Record ycount := {
  yc_years : ydict;
  yc_total : Z;
  yc_percentage : float
}.

(** [{'name': ..., 'years': ..., 'total': ..., 'percentage': ...}] *)
Record subcat := {
  sub_name : pystr;
  sub_years : ydict;
  sub_total : Z;
  sub_percentage : float
}.

Definition zero_ycount (years : list Z) : ycount :=
  {| yc_years := zero_years years; yc_total := 0; yc_percentage := f0 |}.

(** [for year in years: dst[year] += src[year]] *)
Fixpoint add_years (years : list Z) (dst src : ydict) : res ydict :=
  match years with
  | [] => Ok dst
  | yr :: t =>
      let* v := yd_get src yr in
      let* d := yd_add dst yr v in
      add_years t d src
  end.

(** Lines 1085-1099: [for status_norm, status_info in status_counts.items()]. *)
Fixpoint separate (years : list Z) (sc : status_counts) (conc : ycount)
  (subs : list subcat) : res (ycount * list subcat) :=
  match sc with
  | [] => Ok (conc, subs)
  | (status_norm, info) :: t =>
      if containsb concluidos_normalized status_norm then
        let* ys := add_years years (yc_years conc) (si_years info) in
        separate years t
          {| yc_years := ys; yc_total := yc_total conc + si_total info;
             yc_percentage := yc_percentage conc |} subs
      else
        separate years t conc
          (subs ++ [{| sub_name := original info; sub_years := si_years info;
                       sub_total := si_total info; sub_percentage := f0 |}])
  end.

(** Lines 1102-1106: [em_andamento_total]. *)
Fixpoint sum_subcats (years : list Z) (subs : list subcat) (tot : ycount) : res ycount :=
  match subs with
  | [] => Ok tot
  | sub :: t =>
      let* ys := add_years years (yc_years tot) (sub_years sub) in
      sum_subcats years t
        {| yc_years := ys; yc_total := yc_total tot + sub_total sub;
           yc_percentage := yc_percentage tot |}
  end.

Definition set_yc_pct (c : ycount) (p : float) : ycount :=
  {| yc_years := yc_years c; yc_total := yc_total c; yc_percentage := p |}.

Definition set_sub_pct (c : subcat) (p : float) : subcat :=
  {| sub_name := sub_name c; sub_years := sub_years c; sub_total := sub_total c;
     sub_percentage := p |}.

(** Lines 1109-1113. *)
Definition percentages (tall : Z) (conc em : ycount) (subs : list subcat)
  : ycount * ycount * list subcat :=
  if 0 <? tall then
    (set_yc_pct conc (pct (yc_total conc) tall),
     set_yc_pct em (pct (yc_total em) tall),
     map (fun sub => set_sub_pct sub (pct (sub_total sub) tall)) subs)
  else (conc, em, subs).

(** ** The returned dicts *)

Definition ycount_to_py (c : ycount) : pyval :=
  PDict [(K "years", ydict_to_py (yc_years c)); (K "total", PInt (yc_total c));
         (K "percentage", PFloat (yc_percentage c))].

Definition subcat_to_py (c : subcat) : pyval :=
  PDict [(K "name", PStr (sub_name c)); (K "years", ydict_to_py (sub_years c));
         (K "total", PInt (sub_total c)); (K "percentage", PFloat (sub_percentage c))].

(** The literal returned for an empty dataset (lines 978-985), also the
    first three keys of the "column not found" results. *)
Definition empty_fields (years : list Z) : list (pyval * pyval) :=
  [(K "total_demandado",
     ycount_to_py {| yc_years := zero_years years; yc_total := 0; yc_percentage := f100 |});
   (K "concluidos", ycount_to_py (zero_ycount years));
   (K "em_andamento",
     PDict [(K "total", ycount_to_py (zero_ycount years)); (K "subcategorias", PList [])])].

Definition is_nil {A} (l : list A) : bool := match l with [] => true | _ => false end.

Definition process_enel_legalizacao_data (data : sheet_data) (status_column : pystr)
  (years : list Z) : res pyval :=
  let hs := headers data in
  let rows := values data in
  if is_nil hs || is_nil rows then Ok (PDict (empty_fields years)) else
  match find_status_column status_column hs with
  | None =>
      Ok (PDict (empty_fields years ++
                 [(K "warning", PStr (not_found_msg status_column));
                  (K "available_columns", PList (map PStr hs));
                  (K "requested_column", PStr status_column)]))
  | Some s =>
  match find_year_column hs with
  | None =>
      Ok (PDict (empty_fields years ++
                 [(K "warning", PStr (not_found_msg year_column_name));
                  (K "available_columns", PList (map PStr hs));
                  (K "requested_year_column", PStr year_column_name)]))
  | Some y =>
      let* st := count_rows s y years (init_acc years) rows in
      let* cs := separate years (counts st) (zero_ycount years) [] in
      let* em := sum_subcats years (snd cs) (zero_ycount years) in
      let '(conc, em', subs) := percentages (total_all st) (fst cs) em (snd cs) in
      Ok (PDict
        [(K "total_demandado",
           ycount_to_py {| yc_years := total_by_year st; yc_total := total_all st;
                           yc_percentage := f100 |});
         (K "concluidos", ycount_to_py conc);
         (K "em_andamento",
           PDict [(K "total", ycount_to_py em');
                  (K "subcategorias", PList (map subcat_to_py subs))]);
         (K "years", PList (map PInt years))])
  end
  end.

End Aggregator.

(** ** Concrete builtins, for evaluation on examples *)

(** [str.lower] on ASCII and Latin-1 letters ('A'-'Z', 'À'-'Þ' but '×'); other
    code points are left unchanged. *)
Definition lower_char (c : Z) : Z :=
  if ((65 <=? c) && (c <=? 90)) || ((192 <=? c) && (c <=? 222) && negb (c =? 215))
  then c + 32 else c.

Definition py_lower (s : pystr) : pystr := map lower_char s.

Definition is_digit (c : Z) : bool := (48 <=? c) && (c <=? 57).

(** Digits with single underscores between digits; [prev] says whether the
    previous character was a digit. *)
Fixpoint digits_val (s : pystr) (acc : Z) (prev : bool) : option Z :=
  match s with
  | [] => if prev then Some acc else None
  | c :: t =>
      if is_digit c then digits_val t (acc * 10 + (c - 48)) true
      else if (c =? 95) && prev then digits_val t acc false
      else None
  end.

(** [int(s)] on a [str] with ASCII digits: surrounding whitespace, an optional
    sign, digits. *)
Definition py_int_model (s : pystr) : option Z :=
  match strip s with
  | c :: t =>
      if c =? 43 then digits_val t 0 false
      else if c =? 45 then option_map Z.opp (digits_val t 0 false)
      else digits_val (c :: t) 0 false
  | [] => None
  end.

(** The aggregator with these builtins. *)
Definition process (data : sheet_data) (status_column : pystr) (years : list Z) : res pyval :=
  process_enel_legalizacao_data py_lower py_int_model data status_column years.

(** Python text ['Concluído'] and ['Em análise']. *)
Definition t_concluido : pystr := zs "Conclu" ++ [c_iacute] ++ zs "do".
Definition t_em_analise : pystr := zs "Em an" ++ [225] ++ zs "lise".

Definition scenario : sheet_data :=
  {| headers := [zs "Status"; zs "ano Acionamento"];
     values := [[t_concluido; zs "2024"]; [t_em_analise; zs "2024"];
                [t_concluido; zs "2025"]] |}.

(** [v[path]['total']] as an [int] *)
Definition total_at (v : pyval) (path : list string) : option Z :=
  match py_path v (path ++ ["total"%string]) with Some (PInt n) => Some n | _ => None end.

(** [v[path]['years'][yr]] *)
Definition year_at (v : pyval) (path : list string) (yr : Z) : option pyval :=
  match py_path v (path ++ ["years"%string]) with
  | Some d => py_get d (PInt yr)
  | None => None
  end.

Definition two_rows (st1 yr1 st2 yr2 : pystr) : sheet_data :=
  {| headers := [zs "Status"; zs "ano Acionamento"];
     values := [[st1; yr1]; [st2; yr2]] |}.

(** Keys of the first occurrences, in order, with the text of the first
    occurrence: the reference order against which the [status_counts]
    dict is compared (not in the source). *)
Definition first_occurrences (lower : pystr -> pystr) (E : list (pystr * Z))
  : list (pystr * pystr) :=
  fold_left (fun acc e =>
    let k := normalize_status lower (fst e) in
    if existsb (str_eqb k) (map fst acc) then acc else acc ++ [(k, fst e)]) E [].

(** Number of entries whose normalized status satisfies [P]. *)
Definition count_status (lower : pystr -> pystr) (P : pystr -> bool)
  (E : list (pystr * Z)) : nat :=
  List.length (filter (fun e => P (normalize_status lower (fst e))) E).

(** The rows [process_enel_legalizacao_data] counts: the result of the
    guards of lines 1039-1062 for each row, in order. *)
Fixpoint counted_rows (py_int : pystr -> option Z) (s y : nat) (years : list Z)
  (rows : list (list pystr)) : list (pystr * Z) :=
  match rows with
  | [] => []
  | row :: t =>
      match read_row py_int s y years row with
      | Ok (Some e) => e :: counted_rows py_int s y years t
      | _ => counted_rows py_int s y years t
      end
  end.

Definition is_concluded (k : pystr) : bool := containsb concluidos_normalized k.

(** ['name'] and ['total'] of each subcategory dict of a list. *)
Definition summarize_subcats (l : list pyval) : option (list (pystr * Z)) :=
  fold_right (fun e acc =>
    match py_get e (K "name"), py_get e (K "total"), acc with
    | Some (PStr n), Some (PInt t), Some ns => Some ((n, t) :: ns)
    | _, _, _ => None
    end) (Some []) l.

Arguments summarize_subcats : simpl never.

(** ['name'] and ['total'] of every entry of
    [v['em_andamento']['subcategorias']]. *)
Definition subcat_summary (v : pyval) : option (list (pystr * Z)) :=
  match py_path v ["em_andamento"; "subcategorias"]%string with
  | Some (PList l) => summarize_subcats l
  | _ => None
  end.

(** ** [parse_status_data] (src/api/spreadsheet_files.py, lines 102-271) *)

(** [headers.index(x)]: first index of an equal element; [None] is the
    [ValueError] it raises. *)
Fixpoint index_of (x : pystr) (l : list pystr) : option nat :=
  match l with
  | [] => None
  | h :: t => if str_eqb h x then Some O else option_map S (index_of x t)
  end.

(** Dicts with [str] keys, insertion-ordered. *)
Fixpoint smem {V} (k : pystr) (d : list (pystr * V)) : bool :=
  match d with [] => false | (k', _) :: t => str_eqb k k' || smem k t end.

Fixpoint sget {V} (d : list (pystr * V)) (k : pystr) : res V :=
  match d with
  | [] => Err KeyError
  | (k', v) :: t => if str_eqb k k' then Ok v else sget t k
  end.

Fixpoint sset {V} (d : list (pystr * V)) (k : pystr) (v : V) : list (pystr * V) :=
  match d with
  | [] => [(k, v)]
  | (k', v') :: t => if str_eqb k k' then (k', v) :: t else (k', v') :: sset t k v
  end.

(** [dict.get(k, default)] *)
Definition sget_default {V} (d : list (pystr * V)) (k : pystr) (default : V) : V :=
  match sget d k with Ok v => v | Err _ => default end.

(** One entry of [status_config['main_statuses']] or [['other_statuses']]. *)
Record status_entry := {
  sheet_value : pystr;
  display_name : pystr
}.

(** [status_config]; an absent key is the empty dict, [False] or the empty
    list. *)
Record status_config := {
  columns : list (pystr * pystr);
  include_blank : bool;
  main_statuses : list status_entry;
  other_statuses : list status_entry
}.

(** [s.replace(c, by)] for a one-character [c] *)
Definition replace_char (c : Z) (by_ : pystr) (s : pystr) : pystr :=
  flat_map (fun x => if x =? c then by_ else [x]) s.

(** [str(n)] for an [int] *)
Fixpoint digits_rev (fuel : nat) (n : Z) : pystr :=
  match fuel with
  | O => []
  | S f => if n <? 10 then [48 + n] else (48 + n mod 10) :: digits_rev f (n / 10)
  end.

Definition z_to_str (n : Z) : pystr :=
  if n <? 0 then 45 :: rev (digits_rev 64 (- n)) else rev (digits_rev 64 n).

(** [status_counts[status_value]] *)
Record tally := {
  t_years : ydict;
  t_total : Z;
  t_percentage : float
}.

Definition set_t_years (t : tally) (d : ydict) : tally :=
  {| t_years := d; t_total := t_total t; t_percentage := t_percentage t |}.
Definition set_t_total (t : tally) (n : Z) : tally :=
  {| t_years := t_years t; t_total := n; t_percentage := t_percentage t |}.
Definition set_t_percentage (t : tally) (f : float) : tally :=
  {| t_years := t_years t; t_total := t_total t; t_percentage := f |}.

(** [year_col_indices.get(year)]: [Some None] is a stored [None]. *)
Fixpoint yci_get (d : list (Z * option nat)) (k : Z) : option (option nat) :=
  match d with
  | [] => None
  | (k', v) :: t => if k =? k' then Some v else yci_get t k
  end.

Fixpoint yci_set (d : list (Z * option nat)) (k : Z) (v : option nat)
  : list (Z * option nat) :=
  match d with
  | [] => [(k, v)]
  | (k', v') :: t => if k =? k' then (k', v) :: t else (k', v') :: yci_set t k v
  end.

Section ParseStatus.

Variable py_int : pystr -> option Z.
(** [float(s)] on a [str]: [None] when it raises [ValueError]. *)
Variable py_float : pystr -> option float.

(** Lines 141-147 *)
Definition year_col_indices (hs : list pystr) (year_prefix : pystr) (years : list Z)
  : list (Z * option nat) :=
  fold_left (fun d yr => yci_set d yr (index_of (year_prefix ++ [32] ++ z_to_str yr) hs))
    years [].

(** Lines 187-197: the per-year cells of one row. *)
Fixpoint add_year_cells (yci : list (Z * option nat)) (row : list pystr) (sv : pystr)
  (sc : list (pystr * tally)) (ys : list Z) : res (list (pystr * tally)) :=
  match ys with
  | [] => Ok sc
  | yr :: t =>
      match yci_get yci yr with
      | Some (Some col_idx) =>
          if (col_idx <? List.length row)%nat && negb (is_empty (nth col_idx row [])) then
            let value_str :=
              replace_char 46 [] (replace_char 44 [] (strip (nth col_idx row []))) in
            match (if is_empty value_str then Some 0 else py_int value_str) with
            | None => add_year_cells yci row sv sc t
            | Some value =>
                let* e := sget sc sv in
                let* d := yd_add (t_years e) yr value in
                add_year_cells yci row sv (sset sc sv (set_t_years e d)) t
            end
          else add_year_cells yci row sv sc t
      | _ => add_year_cells yci row sv sc t
      end
  end.

(** Lines 199-205: the TOTAL cell of one row. *)
Definition total_cell (total_idx : option nat) (row : list pystr) (sv : pystr)
  (sc : list (pystr * tally)) : res (list (pystr * tally)) :=
  match total_idx with
  | Some ti =>
      if (ti <? List.length row)%nat && negb (is_empty (nth ti row [])) then
        let total_str :=
          replace_char 46 [] (replace_char 44 [] (strip (nth ti row []))) in
        match (if is_empty total_str then Some 0 else py_int total_str) with
        | None => Ok sc
        | Some n => let* e := sget sc sv in Ok (sset sc sv (set_t_total e n))
        end
      else Ok sc
  | None => Ok sc
  end.

(** Lines 207-214: the Percentual cell of one row. *)
Definition percentage_cell (pct_idx : option nat) (row : list pystr) (sv : pystr)
  (sc : list (pystr * tally)) : res (list (pystr * tally)) :=
  match pct_idx with
  | Some pi =>
      if (pi <? List.length row)%nat && negb (is_empty (nth pi row [])) then
        let pct_str := strip (replace_char 44 [46] (replace_char 37 [] (nth pi row []))) in
        match (if is_empty pct_str then Some f0 else py_float pct_str) with
        | None => Ok sc
        | Some f => let* e := sget sc sv in Ok (sset sc sv (set_t_percentage e f))
        end
      else Ok sc
  | None => Ok sc
  end.

(** Lines 169-214: one row. *)
Definition tally_row (years : list Z) (ib : bool) (idx : nat)
  (yci : list (Z * option nat)) (total_idx pct_idx : option nat)
  (sc : list (pystr * tally)) (row : list pystr) : res (list (pystr * tally)) :=
  if (List.length row <=? idx)%nat then Ok sc else
  let status_value := strip (nth idx row []) in
  if is_empty status_value && negb ib then Ok sc else
  let sc1 := if smem status_value sc then sc
             else sset sc status_value
                    {| t_years := zero_years years; t_total := 0; t_percentage := f0 |} in
  let* sc2 := add_year_cells yci row status_value sc1 years in
  let* sc3 := total_cell total_idx row status_value sc2 in
  percentage_cell pct_idx row status_value sc3.

Fixpoint tally_rows (years : list Z) (ib : bool) (idx : nat)
  (yci : list (Z * option nat)) (total_idx pct_idx : option nat)
  (sc : list (pystr * tally)) (rows : list (list pystr)) : res (list (pystr * tally)) :=
  match rows with
  | [] => Ok sc
  | row :: t =>
      let* sc' := tally_row years ib idx yci total_idx pct_idx sc row in
      tally_rows years ib idx yci total_idx pct_idx sc' t
  end.

(** [next((s for s in cfgs if s['sheet_value'] == v), None)] *)
Fixpoint find_entry (cfgs : list status_entry) (v : pystr) : option status_entry :=
  match cfgs with
  | [] => None
  | c :: t => if str_eqb (sheet_value c) v then Some c else find_entry t v
  end.

(** An entry of the returned lists. *)
Record status_row := {
  sr_name : pystr;
  sr_sheet_value : pystr;
  sr_years : ydict;
  sr_total : Z;
  sr_percentage : float
}.

Definition mk_status_row (cfgs : list status_entry) (sv : pystr) (t : tally) : status_row :=
  {| sr_name := match find_entry cfgs sv with Some c => display_name c | None => sv end;
     sr_sheet_value := sv; sr_years := t_years t; sr_total := t_total t;
     sr_percentage := t_percentage t |}.

(** Lines 223-253 *)
Fixpoint split_main_other (cfg : status_config) (sc : list (pystr * tally))
  (mains others : list status_row) : list status_row * list status_row :=
  match sc with
  | [] => (mains, others)
  | (sv, t) :: rest =>
      if existsb (str_eqb sv) (map sheet_value (main_statuses cfg)) then
        split_main_other cfg rest (mains ++ [mk_status_row (main_statuses cfg) sv t]) others
      else if existsb (str_eqb sv) (map sheet_value (other_statuses cfg)) then
        split_main_other cfg rest mains (others ++ [mk_status_row (other_statuses cfg) sv t])
      else split_main_other cfg rest mains others
  end.

(** [next((s for s in rows if s['sheet_value'] == v), None)] *)
Fixpoint find_row (rows : list status_row) (v : pystr) : option status_row :=
  match rows with
  | [] => None
  | r :: t => if str_eqb (sr_sheet_value r) v then Some r else find_row t v
  end.

(** Lines 256-266: [for config_status in cfgs: ... if found: append]. *)
Definition order_by_config (cfgs : list status_entry) (rows : list status_row)
  : list status_row :=
  flat_map (fun c => match find_row rows (sheet_value c) with
                     | Some r => [r]
                     | None => []
                     end) cfgs.

Definition status_row_to_py (r : status_row) : pyval :=
  PDict [(K "name", PStr (sr_name r)); (K "sheet_value", PStr (sr_sheet_value r));
         (K "years", ydict_to_py (sr_years r)); (K "total", PInt (sr_total r));
         (K "percentage", PFloat (sr_percentage r))].

Definition parse_status_data (data : sheet_data) (status_column : pystr)
  (years : list Z) (cfg : status_config) : res pyval :=
  let hs := headers data in
  let rows := values data in
  if is_nil hs || is_nil rows then
    Ok (PDict [(K "main_statuses", PList []); (K "other_statuses", PList [])])
  else
  match index_of status_column hs with
  | None => Err (ValueError (not_found_msg status_column))
  | Some idx =>
      let year_prefix := sget_default (columns cfg) (zs "year_prefix") (zs "Acionados em") in
      let yci := year_col_indices hs year_prefix years in
      let total_idx :=
        index_of (sget_default (columns cfg) (zs "total_column") (zs "TOTAL")) hs in
      let pct_idx :=
        index_of (sget_default (columns cfg) (zs "percentage_column") (zs "Percentual")) hs in
      let* sc := tally_rows years (include_blank cfg) idx yci total_idx pct_idx [] rows in
      let '(mains, others) := split_main_other cfg sc [] [] in
      Ok (PDict [(K "main_statuses",
                  PList (map status_row_to_py (order_by_config (main_statuses cfg) mains)));
                 (K "other_statuses",
                  PList (map status_row_to_py (order_by_config (other_statuses cfg) others)))])
  end.

End ParseStatus.

(** The status values the tally of [parse_status_data] takes from the rows
    (the guards of lines 170-177), in row order. *)
Definition tallied_values (idx : nat) (ib : bool) (rows : list (list pystr)) : list pystr :=
  flat_map (fun row : list pystr =>
    if (List.length row <=? idx)%nat then [] else
    let sv := strip (nth idx row []) in
    if is_empty sv && negb ib then [] else [sv]) rows.

(** The ['sheet_value'] of every entry of [v[key]]. *)
Definition sheet_values_at (v : pyval) (key : string) : option (list pystr) :=
  match py_get v (K key) with
  | Some (PList l) =>
      fold_right (fun e acc =>
        match py_get e (K "sheet_value"), acc with
        | Some (PStr x), Some xs => Some (x :: xs)
        | _, _ => None
        end) (Some []) l
  | _ => None
  end.

Arguments sheet_values_at : simpl never.

(** ** Example inputs *)

(** [float(s)] on a [str] of ASCII digits (enough for the examples). *)
Definition py_float_model (s : pystr) : option float :=
  option_map float_of_Z (py_int_model s).

(** Two rows, one concluded and one not, both of 2024. *)
Definition dup_data : sheet_data :=
  {| headers := [zs "Status"; zs "ano Acionamento"];
     values := [[t_concluido; zs "2024"]; [zs "Pendente"; zs "2024"]] |}.

Definition status_cfg_example : status_config :=
  {| columns := []; include_blank := false;
     main_statuses := [{| sheet_value := zs "A"; display_name := zs "Alpha" |};
                       {| sheet_value := zs "B"; display_name := zs "Beta" |}];
     other_statuses := [{| sheet_value := zs "C"; display_name := zs "Gamma" |};
                        {| sheet_value := zs "A"; display_name := zs "Alpha" |}] |}.

Definition status_data_example : sheet_data :=
  {| headers := [zs "Status"; zs "Acionados em 2024"; zs "TOTAL"];
     values := [[zs "B"; zs "1"; zs "1"]; [zs "A"; zs "2"; zs "2"];
                [zs "C"; zs "1"; zs "1"]; [zs "D"; zs "1"; zs "1"];
                [zs "A"; zs "1"; zs "1"]] |}.

(** * Notions used by the proofs *)

(** Every requested year is a key of the dict. *)
Definition has_keys (years : list Z) (d : ydict) : Prop :=
  forall yr, In yr years -> exists n, yd_get d yr = Ok n.

Definition sc_sum (P : pystr -> bool) (sc : status_counts) : Z :=
  fold_right (fun p acc => (if P (fst p) then si_total (snd p) else 0) + acc) 0 sc.

(** Key and displayed text of each entry. *)
Definition key_original (p : pystr * status_info) : pystr * pystr :=
  (fst p, original (snd p)).

(** Every per-year dict of the state has all requested years as keys. *)
Definition keys_ok (years : list Z) (st : acc) : Prop :=
  has_keys years (total_by_year st) /\
  (forall k info, In (k, info) (counts st) -> has_keys years (si_years info)).

(** The loop invariant: [E] is the list of rows counted so far. *)
Definition loop_inv (lower : pystr -> pystr) (years : list Z) (E : list (pystr * Z)) (st : acc) : Prop :=
  keys_ok years st /\
  total_all st = Z.of_nat (List.length E) /\
  (forall P, sc_sum P (counts st) = Z.of_nat (count_status lower P E)) /\
  map key_original (counts st) = first_occurrences lower E.

(** The subcategory built from a [status_counts] entry (lines 1093-1098). *)
Definition mk_sub (p : pystr * status_info) : subcat :=
  {| sub_name := original (snd p); sub_years := si_years (snd p);
     sub_total := si_total (snd p); sub_percentage := f0 |}.

Definition not_concluded (k : pystr) : bool := negb (is_concluded k).

Definition subs_total (subs : list subcat) : Z :=
  fold_right (fun c acc => sub_total c + acc) 0 subs.

Definition mem (x : pystr) (l : list pystr) : bool := existsb (str_eqb x) l.

(** [sum(src[y] for y in ys)], a missing key counting 0. *)
Definition get_sum (src : ydict) (ys : list Z) : Z :=
  fold_right (fun yr acc => match yd_get src yr with Ok n => n | Err _ => 0 end + acc) 0 ys.

(** Every per-year dict of the loop state has exactly the requested years as
    keys, and its values add up to the matching total. *)
Definition sums_ok (years : list Z) (st : acc) : Prop :=
  map fst (total_by_year st) = years /\ yd_sum (total_by_year st) = total_all st /\
  (forall k info, In (k, info) (counts st) ->
     map fst (si_years info) = years /\ yd_sum (si_years info) = si_total info).

(** A bucket or subcategory whose per-year dict has exactly the requested
    years as keys and adds up to its total. *)
Definition yc_ok (years : list Z) (c : ycount) : Prop :=
  map fst (yc_years c) = years /\ yd_sum (yc_years c) = yc_total c.

Definition sub_ok (years : list Z) (c : subcat) : Prop :=
  map fst (sub_years c) = years /\ yd_sum (sub_years c) = sub_total c.

(** [sum(d.values())] on a returned dict of [int]s. *)
Definition years_sum (kvs : list (pyval * pyval)) : option Z :=
  fold_right (fun kv acc =>
    match snd kv, acc with
    | PInt n, Some a => Some (n + a)
    | _, _ => None
    end) (Some 0) kvs.

(** A returned bucket [b] with [sum(b['years'].values()) == b['total']]. *)
Definition bucket_balanced (b : pyval) : Prop :=
  exists kvs n, py_get b (K "years") = Some (PDict kvs) /\
    py_get b (K "total") = Some (PInt n) /\ years_sum kvs = Some n.

(** The three buckets and every subcategory of a returned dict are balanced. *)
Definition balanced_result (v : pyval) : Prop :=
  (exists b, py_path v ["total_demandado"]%string = Some b /\ bucket_balanced b) /\
  (exists b, py_path v ["concluidos"]%string = Some b /\ bucket_balanced b) /\
  (exists b, py_path v ["em_andamento"; "total"]%string = Some b /\ bucket_balanced b) /\
  (exists l, py_path v ["em_andamento"; "subcategorias"]%string = Some (PList l) /\
     Forall bucket_balanced l).

(** * Routes and the other parser *)

(** ** [allowed_file] (src/api/enel_spreadsheets.py, lines 31-33; the same
    function is in src/api/spreadsheets.py, lines 19-21) *)

Definition ALLOWED_EXTENSIONS : list pystr := [zs "xlsx"; zs "xls"; zs "csv"].

(** [s.rfind(c)] for a one-character [c] *)
Fixpoint rfind (c : Z) (s : pystr) : option nat :=
  match s with
  | [] => None
  | x :: t => match rfind c t with
              | Some i => Some (S i)
              | None => if x =? c then Some O else None
              end
  end.

(** [s.rsplit(c, 1)] for a one-character [c] *)
Definition rsplit1 (c : Z) (s : pystr) : list pystr :=
  match rfind c s with
  | Some i => [firstn i s; skipn (S i) s]
  | None => [s]
  end.

Section Routes.

Variable lower : pystr -> pystr.

Definition allowed_file (filename : pystr) : res bool :=
  if existsb (Z.eqb 46) filename then
    let* ext := py_index (rsplit1 46 filename) 1 in
    Ok (mem (lower ext) ALLOWED_EXTENSIONS)
  else Ok false.

End Routes.

(** ** The year list of [get_enel_spreadsheet_data]
    (src/api/enel_spreadsheets.py, lines 818-832) *)

(** [s.split(c)] for a one-character [c]; [cur] is the current piece,
    reversed. *)
Fixpoint split_on_aux (c : Z) (s : pystr) (cur : pystr) : list pystr :=
  match s with
  | [] => [rev cur]
  | x :: t => if x =? c then rev cur :: split_on_aux c t [] else split_on_aux c t (x :: cur)
  end.

Definition split_on (c : Z) (s : pystr) : list pystr := split_on_aux c s [].

(** [list(range(a, b))] *)
Definition py_range (a b : Z) : list Z :=
  map (fun i => a + Z.of_nat i) (seq 0 (Z.to_nat (b - a))).

(** [x or d] on an optional [int] ([None] and [0] are falsy) *)
Definition int_or (x : option Z) (d : Z) : Z :=
  match x with Some n => if n =? 0 then d else n | None => d end.

Section Years.

Variable py_int : pystr -> option Z.

(** [[int(y.strip()) for y in pieces if y.strip()]]; [None] is the
    [ValueError] raised by the first piece that does not parse. *)
Fixpoint parse_pieces (pieces : list pystr) : option (list Z) :=
  match pieces with
  | [] => Some []
  | p :: t =>
      if is_empty (strip p) then parse_pieces t else
      match py_int (strip p) with
      | None => None
      | Some n => option_map (cons n) (parse_pieces t)
      end
  end.

(** [years_param] is [request.args.get('years', '')]; [start_arg] and
    [end_arg] are [request.args.get(..., type=int)] ([None] when absent or
    not an [int]); [now_year] is [datetime.now().year]. *)
Definition request_years (years_param : pystr) (start_arg end_arg : option Z)
  (now_year : Z) : list Z :=
  let years :=
    if negb (is_empty years_param) then
      match parse_pieces (split_on 44 years_param) with Some ys => ys | None => [] end
    else py_range (int_or start_arg 2024) (int_or end_arg now_year + 1) in
  if is_nil years then [2024; 2025] else years.

End Years.

(** ** File names of the uploaded spreadsheets (lines 20-28, 74 and 628) *)

Definition ENEL_REQUIRED_SPREADSHEETS : list pystr :=
  [zs "Base Ceara Alvar" ++ [225] ++ zs "s de funcionamento";
   zs "CTEEP ATUALIZADA - BASE MR 2025";
   zs "ENEL - Legaliza" ++ [231; 227] ++ zs "o CE";
   zs "LEGALIZA" ++ [199; 195] ++ zs "O RJ_28-04";
   zs "Legaliza" ++ [231; 227] ++ zs "o SP";
   zs "Regulariza" ++ [231; 245] ++ zs "es SP"].

(** [name.replace(' ', '_').replace('/', '_').replace('\\', '_')
    .replace('á', 'a').replace('Á', 'A').replace('ã', 'a').replace('Ã', 'A')] *)
Definition safe_spreadsheet_id (name : pystr) : pystr :=
  replace_char 195 [65] (replace_char 227 [97] (replace_char 193 [65]
    (replace_char 225 [97] (replace_char 92 [95] (replace_char 47 [95]
      (replace_char 32 [95] name)))))).

(** ** [list_enel_spreadsheets] (lines 260-300) *)

(** A row of the [enel_spreadsheets] table as selected; [None] is SQL NULL. *)
Record db_row := {
  r_spreadsheet_name : pystr;
  r_file_name : pystr;
  r_sheet_name : option pystr;
  r_status_column : option pystr;
  r_uploaded_at : option pystr
}.

(** One element of the returned list ([None] is JSON [null]). *)
Record listed := {
  l_spreadsheet_name : pystr;
  l_file_name : option pystr;
  l_sheet_name : option pystr;
  l_status_column : option pystr;
  l_uploaded_at : option pystr;
  l_is_uploaded : bool
}.

(** [{row['spreadsheet_name']: dict(row) for row in rows}] *)
Definition uploaded_by_name (rows : list db_row) : list (pystr * db_row) :=
  fold_left (fun d r => sset d (r_spreadsheet_name r) r) rows [].

(** One element of the list (lines 279-296). *)
Definition listed_entry (up : list (pystr * db_row)) (name : pystr) : res listed :=
  if smem name up then
    let* r := sget up name in
    Ok {| l_spreadsheet_name := name; l_file_name := Some (r_file_name r);
          l_sheet_name := r_sheet_name r; l_status_column := r_status_column r;
          l_uploaded_at := r_uploaded_at r; l_is_uploaded := true |}
  else
    Ok {| l_spreadsheet_name := name; l_file_name := None; l_sheet_name := None;
          l_status_column := None; l_uploaded_at := None; l_is_uploaded := false |}.

(** [for spreadsheet_name in names: result.append(...)] *)
Fixpoint list_entries (up : list (pystr * db_row)) (names : list pystr) : res (list listed) :=
  match names with
  | [] => Ok []
  | n :: t =>
      let* e := listed_entry up n in
      let* tl := list_entries up t in
      Ok (e :: tl)
  end.

Definition list_enel_spreadsheets (rows : list db_row) : res (list listed) :=
  list_entries (uploaded_by_name rows) ENEL_REQUIRED_SPREADSHEETS.

(** The last selected row with the given name. *)
Definition last_row_named (rows : list db_row) (name : pystr) : option db_row :=
  fold_left (fun acc r => if str_eqb (r_spreadsheet_name r) name then Some r else acc)
    rows None.

(** ** [parse_status_data] of src/api/google_sheets.py (lines 147-312) *)

Section GoogleParseStatus.

Variable py_int : pystr -> option Z.
Variable py_float : pystr -> option float.

(** Lines 230-239: [value = int(row[col_idx])] *)
Fixpoint gs_add_year_cells (yci : list (Z * option nat)) (row : list pystr) (sv : pystr)
  (sc : list (pystr * tally)) (ys : list Z) : res (list (pystr * tally)) :=
  match ys with
  | [] => Ok sc
  | yr :: t =>
      match yci_get yci yr with
      | Some (Some col_idx) =>
          if (col_idx <? List.length row)%nat && negb (is_empty (nth col_idx row [])) then
            match py_int (nth col_idx row []) with
            | None => gs_add_year_cells yci row sv sc t
            | Some value =>
                let* e := sget sc sv in
                let* d := yd_add (t_years e) yr value in
                gs_add_year_cells yci row sv (sset sc sv (set_t_years e d)) t
            end
          else gs_add_year_cells yci row sv sc t
      | _ => gs_add_year_cells yci row sv sc t
      end
  end.

(** Lines 241-246: [int(row[total_col_idx])] *)
Definition gs_total_cell (total_idx : option nat) (row : list pystr) (sv : pystr)
  (sc : list (pystr * tally)) : res (list (pystr * tally)) :=
  match total_idx with
  | Some ti =>
      if (ti <? List.length row)%nat && negb (is_empty (nth ti row [])) then
        match py_int (nth ti row []) with
        | None => Ok sc
        | Some n => let* e := sget sc sv in Ok (sset sc sv (set_t_total e n))
        end
      else Ok sc
  | None => Ok sc
  end.

(** Lines 248-255: [float(pct_str)], with no test for an empty [pct_str] *)
Definition gs_percentage_cell (pct_idx : option nat) (row : list pystr) (sv : pystr)
  (sc : list (pystr * tally)) : res (list (pystr * tally)) :=
  match pct_idx with
  | Some pi =>
      if (pi <? List.length row)%nat && negb (is_empty (nth pi row [])) then
        let pct_str := strip (replace_char 44 [46] (replace_char 37 [] (nth pi row []))) in
        match py_float pct_str with
        | None => Ok sc
        | Some f => let* e := sget sc sv in Ok (sset sc sv (set_t_percentage e f))
        end
      else Ok sc
  | None => Ok sc
  end.

Definition gs_tally_row (years : list Z) (ib : bool) (idx : nat)
  (yci : list (Z * option nat)) (total_idx pct_idx : option nat)
  (sc : list (pystr * tally)) (row : list pystr) : res (list (pystr * tally)) :=
  if (List.length row <=? idx)%nat then Ok sc else
  let status_value := strip (nth idx row []) in
  if is_empty status_value && negb ib then Ok sc else
  let sc1 := if smem status_value sc then sc
             else sset sc status_value
                    {| t_years := zero_years years; t_total := 0; t_percentage := f0 |} in
  let* sc2 := gs_add_year_cells yci row status_value sc1 years in
  let* sc3 := gs_total_cell total_idx row status_value sc2 in
  gs_percentage_cell pct_idx row status_value sc3.

Fixpoint gs_tally_rows (years : list Z) (ib : bool) (idx : nat)
  (yci : list (Z * option nat)) (total_idx pct_idx : option nat)
  (sc : list (pystr * tally)) (rows : list (list pystr)) : res (list (pystr * tally)) :=
  match rows with
  | [] => Ok sc
  | row :: t =>
      let* sc' := gs_tally_row years ib idx yci total_idx pct_idx sc row in
      gs_tally_rows years ib idx yci total_idx pct_idx sc' t
  end.

Definition gs_parse_status_data (data : sheet_data) (status_column : pystr)
  (years : list Z) (cfg : status_config) : res pyval :=
  let hs := headers data in
  let rows := values data in
  if is_nil hs || is_nil rows then
    Ok (PDict [(K "main_statuses", PList []); (K "other_statuses", PList [])])
  else
  match index_of status_column hs with
  | None => Err (ValueError (not_found_msg status_column))
  | Some idx =>
      let year_prefix := sget_default (columns cfg) (zs "year_prefix") (zs "Acionados em") in
      let yci := year_col_indices hs year_prefix years in
      let total_idx :=
        index_of (sget_default (columns cfg) (zs "total_column") (zs "TOTAL")) hs in
      let pct_idx :=
        index_of (sget_default (columns cfg) (zs "percentage_column") (zs "Percentual")) hs in
      let* sc := gs_tally_rows years (include_blank cfg) idx yci total_idx pct_idx [] rows in
      let '(mains, others) := split_main_other cfg sc [] [] in
      Ok (PDict [(K "main_statuses",
                  PList (map status_row_to_py (order_by_config (main_statuses cfg) mains)));
                 (K "other_statuses",
                  PList (map status_row_to_py (order_by_config (other_statuses cfg) others)))])
  end.

End GoogleParseStatus.

(** A number cell that the file reader's clean-up leaves unchanged. *)
Definition plain_int_cell (c : pystr) : Prop :=
  replace_char 46 [] (replace_char 44 [] (strip c)) = c.

(** A percentage cell whose clean-up is not empty. *)
Definition pct_cell_nonblank (c : pystr) : Prop :=
  is_empty (strip (replace_char 44 [46] (replace_char 37 [] c))) = false.

Definition pct_col (cfg : status_config) (hs : list pystr) : option nat :=
  index_of (sget_default (columns cfg) (zs "percentage_column") (zs "Percentual")) hs.

(** ** The processing part of [get_enel_spreadsheet_data] (lines 888-954) *)

(** ['Relatório Status detalhado acionamento'] *)
Definition licenca_status_column : pystr :=
  zs "Relat" ++ [243] ++ zs "rio Status detalhado acionamento".

(** ['não encontrada'] *)
Definition nao_encontrada : pystr := zs "n" ++ [c_atilde] ++ zs "o encontrada".

(** [d[k] = x] on a dict: an existing key keeps its place, a new one is
    appended. *)
Fixpoint assoc_set (kvs : list (pyval * pyval)) (k x : pyval) : list (pyval * pyval) :=
  match kvs with
  | [] => [(k, x)]
  | (k', v) :: t => if key_eqb k k' then (k', x) :: t else (k', v) :: assoc_set t k x
  end.

(** The aggregator returns a dict on every input, so only the dict case
    occurs. *)
Definition py_dict_set (v : pyval) (k x : pyval) : pyval :=
  match v with PDict kvs => PDict (assoc_set kvs k x) | _ => v end.

Section Route.

Variable lower : pystr -> pystr.
Variable py_int : pystr -> option Z.

(** The [processed_data] of lines 888-954; [Err] is the exception that
    reaches the outer [except Exception] (a 500 response). *)
Definition enel_processed_data (sheet : sheet_data) (status_column : pystr)
  (years : list Z) : res pyval :=
  match process_enel_legalizacao_data lower py_int sheet status_column years with
  | Ok pd =>
      match process_enel_legalizacao_data lower py_int sheet licenca_status_column years with
      | Ok ls => Ok (py_dict_set pd (K "licenca_sanitaria") ls)
      | Err _ => Ok (py_dict_set pd (K "licenca_sanitaria") (PDict (empty_fields years)))
      end
  | Err (ValueError msg) =>
      if containsb nao_encontrada msg then
        Ok (PDict (empty_fields years ++
                   [(K "warning", PStr (not_found_msg status_column));
                    (K "available_columns", PList (map PStr (headers sheet)));
                    (K "requested_column", PStr status_column)]))
      else Err (ValueError msg)
  | Err e => Err e
  end.

End Route.

(** ** The checks and the target file name of [upload_enel_spreadsheet]
    (lines 44-81) *)

(** The 400 responses of lines 44-64. *)
Inductive upload_rejection :=
| NoFilePart | NoFileSelected | FormatNotSupported | NoSpreadsheetName
| InvalidSpreadsheetName.

Inductive upload_outcome :=
| UploadRejected (why : upload_rejection)
| UploadTo (safe_filename : pystr).

Section Upload.

Variable lower : pystr -> pystr.
(** [werkzeug.utils.secure_filename] *)
Variable secure_filename : pystr -> pystr.
(** [Path(p).suffix] *)
Variable path_suffix : pystr -> pystr.

(** [has_file] is ['file' in request.files], [filename] is
    [file.filename], [form_name] is [request.form.get('spreadsheet_name')]. *)
Definition upload_plan (has_file : bool) (filename : pystr) (form_name : option pystr)
  : res upload_outcome :=
  if negb has_file then Ok (UploadRejected NoFilePart) else
  if is_empty filename then Ok (UploadRejected NoFileSelected) else
  let* ok := allowed_file lower filename in
  if negb ok then Ok (UploadRejected FormatNotSupported) else
  let spreadsheet_name := strip (match form_name with Some s => s | None => [] end) in
  if is_empty spreadsheet_name then Ok (UploadRejected NoSpreadsheetName) else
  if negb (mem spreadsheet_name ENEL_REQUIRED_SPREADSHEETS)
  then Ok (UploadRejected InvalidSpreadsheetName) else
  let original_filename := secure_filename filename in
  let file_ext := if existsb (Z.eqb 46) original_filename then path_suffix original_filename
                  else zs ".xlsx" in
  Ok (UploadTo (zs "ENEL_" ++ safe_spreadsheet_id spreadsheet_name ++ file_ext)).

End Upload.

(** The stripped form value an upload is filed under. *)
Definition form_spreadsheet_name (form_name : option pystr) : pystr :=
  strip (match form_name with Some s => s | None => [] end).

(** [Path(p).suffix] for the examples: the text from the last '.' on. *)
Definition suffix_model (s : pystr) : pystr :=
  match rfind 46 s with Some i => 46 :: skipn (S i) s | None => [] end.

(** * Notions used by the proofs of the routes and parsers *)

(** The number a year or TOTAL cell of [row] contributes in
    [parse_status_data] (lines 190-194 and 200-203): [None] when the column
    is absent, the cell is missing or empty, or [int()] raises. *)
Definition int_cell (py_int : pystr -> option Z) (col : option nat) (row : list pystr)
  : option Z :=
  match col with
  | Some ci =>
      if (ci <? List.length row)%nat && negb (is_empty (nth ci row [])) then
        let s := replace_char 46 [] (replace_char 44 [] (strip (nth ci row []))) in
        if is_empty s then Some 0 else py_int s
      else None
  | None => None
  end.

(** The status value a row is tallied under (lines 170-177), if any. *)
Definition row_status (idx : nat) (ib : bool) (row : list pystr) : option pystr :=
  if (List.length row <=? idx)%nat then None else
  let sv := strip (nth idx row []) in
  if is_empty sv && negb ib then None else Some sv.

(** The sum, over the rows tallied under [sv], of their cells in column
    [col] (a cell that does not parse counting 0). *)
Definition status_year_sum (py_int : pystr -> option Z) (idx : nat) (ib : bool)
  (col : option nat) (sv : pystr) (rows : list (list pystr)) : Z :=
  fold_right (fun row acc =>
    match row_status idx ib row with
    | Some s => if str_eqb s sv then
                  match int_cell py_int col row with Some n => n | None => 0 end
                else 0
    | None => 0
    end + acc) 0 rows.

(** The TOTAL cell of the last row tallied under [sv] whose cell parses,
    0 if there is none. *)
Definition status_last_total (py_int : pystr -> option Z) (idx : nat) (ib : bool)
  (col : option nat) (sv : pystr) (rows : list (list pystr)) : Z :=
  fold_left (fun acc row =>
    match row_status idx ib row with
    | Some s => if str_eqb s sv then
                  match int_cell py_int col row with Some n => n | None => acc end
                else acc
    | None => acc
    end) rows 0.

(** The column [parse_status_data] reads for [year] (lines 139-147). *)
Definition year_col (cfg : status_config) (hs : list pystr) (yr : Z) : option nat :=
  index_of (sget_default (columns cfg) (zs "year_prefix") (zs "Acionados em")
            ++ [32] ++ z_to_str yr) hs.

(** The TOTAL column (lines 150-156). *)
Definition total_col (cfg : status_config) (hs : list pystr) : option nat :=
  index_of (sget_default (columns cfg) (zs "total_column") (zs "TOTAL")) hs.

(** [v[key]] lists an entry for [sv] whose [total] is [status_last_total]
    and whose [years[yr]] is [status_year_sum] for every requested year. *)
Definition status_figures (py_int : pystr -> option Z) (idx : nat) (ib : bool)
  (cfg : status_config) (hs : list pystr) (years : list Z) (rows : list (list pystr))
  (v : pyval) (key : string) (sv : pystr) : Prop :=
  exists l e, py_get v (K key) = Some (PList l) /\ In e l /\
    py_get e (K "sheet_value") = Some (PStr sv) /\
    py_get e (K "total") = Some (PInt (status_last_total py_int idx ib (total_col cfg hs) sv rows)) /\
    forall yr, In yr years ->
      match py_get e (K "years") with Some d => py_get d (PInt yr) | None => None end =
      Some (PInt (status_year_sum py_int idx ib (year_col cfg hs yr) sv rows)).

Definition tally_ok (years : list Z) (sc : list (pystr * tally)) : Prop :=
  forall k t, In (k, t) sc -> has_keys years (t_years t).

Definition year_value (py_int : pystr -> option Z) (yci : list (Z * option nat)) (yr : Z)
  (row : list pystr) : Z :=
  match int_cell py_int (match yci_get yci yr with Some c => c | None => None end) row with
  | Some n => n | None => 0 end.

Definition ycol (yci : list (Z * option nat)) (yr : Z) : option nat :=
  match yci_get yci yr with Some c => c | None => None end.

Definition tally_inv py_int idx ib yci ti (years : list Z) R (sc : list (pystr * tally)) k
  : Prop :=
  match sget sc k with
  | Ok t => (forall yr, In yr years ->
               yd_get (t_years t) yr = Ok (status_year_sum py_int idx ib (ycol yci yr) k R)) /\
            t_total t = status_last_total py_int idx ib ti k R
  | Err _ => (forall yr, In yr years -> status_year_sum py_int idx ib (ycol yci yr) k R = 0) /\
             status_last_total py_int idx ib ti k R = 0
  end.

Definition opt_res {A} (o : option A) : res A :=
  match o with Some a => Ok a | None => Err KeyError end.

Definition dot_suffix (e : pystr) : Prop := e = [] \/ exists t, e = 46 :: t.

(** * Proofs *)

(** ** Strings and dicts *)

Lemma str_eqb_eq (a b : pystr) : str_eqb a b = true <-> a = b.
Proof.
  revert b; induction a as [|x a IH]; intros [|z b]; simpl; try (split; congruence).
  rewrite andb_true_iff, Z.eqb_eq, IH. split; [intros [-> ->]; reflexivity|].
  intros H; injection H; auto.
Qed.

Lemma str_eqb_refl (a : pystr) : str_eqb a a = true.
Proof. apply str_eqb_eq; reflexivity. Qed.

Lemma str_eqb_neq (a b : pystr) : str_eqb a b = false <-> a <> b.
Proof.
  rewrite <- str_eqb_eq. destruct (str_eqb a b); split; congruence.
Qed.

Lemma yd_get_set (d : ydict) (k v k' : Z) :
  yd_get (yd_set d k v) k' = if k' =? k then Ok v else yd_get d k'.
Proof.
  induction d as [|[k0 v0] t IH]; simpl.
  - destruct (k' =? k); reflexivity.
  - destruct (k =? k0) eqn:E0; simpl.
    + apply Z.eqb_eq in E0; subst k0. destruct (k' =? k); reflexivity.
    + rewrite IH. destruct (k' =? k0) eqn:E1, (k' =? k) eqn:E2; try reflexivity.
      apply Z.eqb_eq in E1, E2; subst. rewrite Z.eqb_refl in E0; discriminate.
Qed.


Lemma has_keys_set years d k v : has_keys years d -> has_keys years (yd_set d k v).
Proof.
  intros H yr Hin. rewrite yd_get_set. destruct (yr =? k); eauto.
Qed.

Lemma zero_years_fold (ys : list Z) (d : ydict) (k : Z) :
  yd_get (fold_left (fun d y => yd_set d y 0) ys d) k =
  if existsb (Z.eqb k) ys then Ok 0 else yd_get d k.
Proof.
  revert d; induction ys as [|y0 ys IH]; intros d; simpl; [reflexivity|].
  rewrite IH, yd_get_set. destruct (k =? y0), (existsb (Z.eqb k) ys); reflexivity.
Qed.

Lemma zero_years_get (years : list Z) (yr : Z) :
  In yr years -> yd_get (zero_years years) yr = Ok 0.
Proof.
  intros Hin. unfold zero_years. rewrite zero_years_fold.
  replace (existsb (Z.eqb yr) years) with true; [reflexivity|].
  symmetry; apply existsb_exists. exists yr; split; [assumption | apply Z.eqb_refl].
Qed.

Lemma has_keys_zero years : has_keys years (zero_years years).
Proof. intros yr Hin. eexists; apply zero_years_get; assumption. Qed.

Lemma add_years_ok (years ys : list Z) (dst src : ydict) :
  incl ys years -> has_keys years dst -> has_keys years src ->
  exists d, add_years ys dst src = Ok d /\ has_keys years d.
Proof.
  revert dst; induction ys as [|yr ys IH]; intros dst Hincl Hd Hs; simpl.
  - eauto.
  - destruct (Hs yr (Hincl yr (or_introl eq_refl))) as [v Hv]. rewrite Hv; simpl.
    destruct (Hd yr (Hincl yr (or_introl eq_refl))) as [w Hw].
    unfold yd_add. rewrite Hw; simpl.
    apply IH; [intros z Hz; apply Hincl; right; assumption | apply has_keys_set; assumption | assumption].
Qed.

(** ** The [status_counts] dict *)



Lemma sc_mem_false_get sc k : sc_mem k sc = false -> sc_get sc k = Err KeyError.
Proof.
  induction sc as [|[k' v'] t IH]; simpl; [reflexivity|].
  intros H; apply orb_false_iff in H as [H1 H2]. rewrite H1. auto.
Qed.

Lemma sc_mem_true_get sc k : sc_mem k sc = true -> exists v, sc_get sc k = Ok v.
Proof.
  induction sc as [|[k' v'] t IH]; simpl; [discriminate|].
  destruct (str_eqb k k'); simpl; eauto.
Qed.

Lemma sc_get_In sc k v : sc_get sc k = Ok v -> In (k, v) sc.
Proof.
  induction sc as [|[k' v'] t IH]; simpl; [discriminate|].
  destruct (str_eqb k k') eqn:E.
  - apply str_eqb_eq in E; subst k'. intros H; injection H as ->; left; reflexivity.
  - intros H; right; auto.
Qed.

Lemma sc_set_absent sc k v : sc_mem k sc = false -> sc_set sc k v = sc ++ [(k, v)].
Proof.
  induction sc as [|[k' v'] t IH]; simpl; [reflexivity|].
  intros H; apply orb_false_iff in H as [H1 H2]. rewrite H1, IH; auto.
Qed.

Lemma sc_get_set_same sc k v : sc_get (sc_set sc k v) k = Ok v.
Proof.
  induction sc as [|[k' v'] t IH]; simpl.
  - rewrite str_eqb_refl; reflexivity.
  - destruct (str_eqb k k') eqn:E; simpl; rewrite E; auto.
Qed.

Lemma sc_set_set sc k v w : sc_set (sc_set sc k v) k w = sc_set sc k w.
Proof.
  induction sc as [|[k' v'] t IH]; simpl.
  - rewrite str_eqb_refl; reflexivity.
  - destruct (str_eqb k k') eqn:E; simpl; rewrite E; [reflexivity|]. rewrite IH; reflexivity.
Qed.

Lemma sc_set_In sc k v p : In p (sc_set sc k v) -> p = (k, v) \/ In p sc.
Proof.
  induction sc as [|[k' v'] t IH]; simpl.
  - intuition.
  - destruct (str_eqb k k') eqn:E; simpl.
    + apply str_eqb_eq in E; subst k'. intuition.
    + intros [H|H]; [right; left; assumption|]. destruct (IH H); intuition.
Qed.

Lemma sc_set_key_original sc k old v :
  sc_get sc k = Ok old -> original v = original old ->
  map key_original (sc_set sc k v) = map key_original sc.
Proof.
  induction sc as [|[k' v'] t IH]; simpl; [discriminate|].
  destruct (str_eqb k k') eqn:E; simpl.
  - intros H Ho; injection H as <-. unfold key_original; simpl. rewrite Ho; reflexivity.
  - intros H Ho. rewrite (IH H Ho). reflexivity.
Qed.

Lemma sc_sum_set_present P sc k old v :
  sc_get sc k = Ok old ->
  sc_sum P (sc_set sc k v) =
  sc_sum P sc + (if P k then si_total v - si_total old else 0).
Proof.
  induction sc as [|[k' v'] t IH]; simpl; [discriminate|].
  destruct (str_eqb k k') eqn:E; simpl.
  - apply str_eqb_eq in E; subst k'. intros H; injection H as <-.
    destruct (P k); lia.
  - intros H. rewrite (IH H). destruct (P k), (P k'); lia.
Qed.

Lemma sc_sum_app P sc k v :
  sc_sum P (sc ++ [(k, v)]) = sc_sum P sc + (if P k then si_total v else 0).
Proof.
  induction sc as [|[k' v'] t IH]; simpl.
  - destruct (P k); lia.
  - rewrite IH; lia.
Qed.

(** ** One counted row *)

Section RowLoop.

Variable lower : pystr -> pystr.
Variable py_int : pystr -> option Z.
Variable years : list Z.


Lemma count_row_ok st sv yr :
  In yr years -> keys_ok years st ->
  exists st', count_row lower years st sv yr = Ok st' /\ keys_ok years st' /\
    total_all st' = total_all st + 1 /\
    (forall P, sc_sum P (counts st') =
               sc_sum P (counts st) + (if P (normalize_status lower sv) then 1 else 0)) /\
    map key_original (counts st') =
      (if sc_mem (normalize_status lower sv) (counts st) then map key_original (counts st)
       else map key_original (counts st) ++ [(normalize_status lower sv, sv)]).
Proof.
  intros Hyr [Htby Hinfo]. unfold count_row.
  set (k := normalize_status lower sv).
  destruct (Htby yr Hyr) as [nt Hnt].
  destruct (sc_mem k (counts st)) eqn:Hmem.
  - destruct (sc_mem_true_get _ _ Hmem) as [info Hget].
    pose proof (sc_get_In _ _ _ Hget) as Hin.
    destruct (Hinfo _ _ Hin yr Hyr) as [n Hn].
    rewrite Hget; simpl. unfold yd_add at 1. rewrite Hn; simpl.
    unfold yd_add. rewrite Hnt; simpl.
    rewrite sc_get_set_same; simpl. rewrite sc_set_set.
    eexists; split; [reflexivity|]. simpl.
    split; [split|split; [reflexivity|split]].
    + apply has_keys_set; assumption.
    + intros k' info' H'. apply sc_set_In in H' as [H'|H'].
      * injection H' as -> ->; simpl. apply has_keys_set. eapply Hinfo; eassumption.
      * eapply Hinfo; eassumption.
    + intros P. rewrite (sc_sum_set_present P _ _ _ _ Hget); simpl.
      destruct (P k); lia.
    + apply (sc_set_key_original _ _ _ _ Hget); reflexivity.
  - rewrite sc_get_set_same; simpl.
    unfold yd_add at 1. rewrite (zero_years_get _ _ Hyr); simpl.
    unfold yd_add. rewrite Hnt; simpl.
    rewrite sc_get_set_same; simpl. rewrite !sc_set_set, (sc_set_absent _ _ _ Hmem).
    eexists; split; [reflexivity|]. simpl.
    split; [split|split; [reflexivity|split]].
    + apply has_keys_set; assumption.
    + intros k' info' H'. apply in_app_or in H' as [H'|[H'|[]]].
      * eapply Hinfo; eassumption.
      * injection H' as <- <-; simpl. apply has_keys_set, has_keys_zero.
    + intros P. rewrite sc_sum_app; simpl. reflexivity.
    + rewrite map_app; reflexivity.
Qed.

End RowLoop.

(** ** The row loop *)

Section Rows.

Variable lower : pystr -> pystr.
Variable py_int : pystr -> option Z.
Variable years : list Z.
Variables s y : nat.

(** The guards of one row never raise: both cells are read only after the
    length check. *)
Lemma read_row_ok row :
  exists o, read_row py_int s y years row = Ok o /\
    (forall sv yr, o = Some (sv, yr) -> In yr years).
Proof.
  unfold read_row.
  destruct (Nat.leb (List.length row) (Nat.max s y)) eqn:Hlen.
  - exists None; split; [reflexivity | discriminate].
  - apply Nat.leb_gt in Hlen.
    assert (Hs : (s < List.length row)%nat) by lia.
    assert (Hy : (y < List.length row)%nat) by lia.
    apply Nat.ltb_lt in Hs as Hs'. apply Nat.ltb_lt in Hy as Hy'.
    rewrite Hs', Hy'.
    destruct (nth_error row s) as [cs|] eqn:Ecs;
      [| apply nth_error_None in Ecs; lia].
    destruct (nth_error row y) as [cy|] eqn:Ecy;
      [| apply nth_error_None in Ecy; lia].
    unfold py_index; rewrite Ecs; simpl.
    destruct (is_empty (strip cs)); [exists None; split; [reflexivity | discriminate]|].
    rewrite Ecy; simpl.
    destruct (is_empty (strip cy)); [exists None; split; [reflexivity | discriminate]|].
    destruct (py_int (strip cy)) as [yr|]; [|exists None; split; [reflexivity | discriminate]].
    destruct (existsb (Z.eqb yr) years) eqn:Hex.
    + eexists; split; [reflexivity|]. intros sv yr' H; injection H as _ <-.
      apply existsb_exists in Hex as [z [Hz Hz']]. apply Z.eqb_eq in Hz'; subst; assumption.
    + exists None; split; [reflexivity | discriminate].
Qed.

(** A row too short for both columns is skipped. *)
Lemma read_row_short row :
  (List.length row <= Nat.max s y)%nat -> read_row py_int s y years row = Ok None.
Proof.
  intros H. unfold read_row. apply Nat.leb_le in H. rewrite H. reflexivity.
Qed.

Lemma sc_mem_keys k sc :
  sc_mem k sc = existsb (str_eqb k) (map fst (map key_original sc)).
Proof. induction sc as [|[k' v'] t IH]; simpl; [reflexivity|]. rewrite IH; reflexivity. Qed.

Lemma first_occurrences_snoc E e :
  first_occurrences lower (E ++ [e]) =
  let acc := first_occurrences lower E in
  let k := normalize_status lower (fst e) in
  if existsb (str_eqb k) (map fst acc) then acc else acc ++ [(k, fst e)].
Proof. unfold first_occurrences. rewrite fold_left_app. reflexivity. Qed.

Lemma count_status_snoc P E e :
  count_status lower P (E ++ [e]) =
  (count_status lower P E + if P (normalize_status lower (fst e)) then 1 else 0)%nat.
Proof.
  unfold count_status. rewrite filter_app, length_app. simpl.
  destruct (P (normalize_status lower (fst e))); reflexivity.
Qed.


Lemma loop_inv_init : loop_inv lower years [] (init_acc years).
Proof.
  split; [split|split; [reflexivity|split; [reflexivity|reflexivity]]].
  - apply has_keys_zero.
  - intros k info [].
Qed.

Lemma count_rows_inv rows E st :
  loop_inv lower years E st ->
  exists st', count_rows lower py_int s y years st rows = Ok st' /\
    loop_inv lower years (E ++ counted_rows py_int s y years rows) st'.
Proof.
  revert E st; induction rows as [|row rows IH]; intros E st Hinv; simpl.
  - exists st; rewrite app_nil_r; auto.
  - destruct (read_row_ok row) as [o [Hr Hyr]].
    unfold step at 1. rewrite Hr; simpl.
    destruct o as [[sv yr]|].
    + destruct Hinv as (Hk & Ht & Hs & Hf).
      destruct (count_row_ok lower years st sv yr (Hyr sv yr eq_refl) Hk)
        as (st1 & Hc & Hk1 & Ht1 & Hs1 & Hf1).
      rewrite Hc; simpl.
      destruct (IH (E ++ [(sv, yr)]) st1) as [st' [Hst' Hinv']].
      * split; [assumption|split; [|split]].
        -- rewrite Ht1, Ht, length_app; simpl. lia.
        -- intros P. rewrite Hs1, Hs, count_status_snoc; simpl.
           destruct (P (normalize_status lower sv)); lia.
        -- rewrite Hf1, first_occurrences_snoc, <- Hf, sc_mem_keys; simpl.
           destruct (existsb _ _); reflexivity.
      * exists st'; split; [assumption|]. rewrite <- app_assoc in Hinv'. exact Hinv'.
    + apply IH; assumption.
Qed.

End Rows.

(** ** Separation and the em_andamento total *)




Lemma separate_ok years sc conc subs :
  has_keys years (yc_years conc) ->
  (forall k info, In (k, info) sc -> has_keys years (si_years info)) ->
  exists conc',
    separate years sc conc subs =
      Ok (conc', subs ++ map mk_sub (filter (fun p => not_concluded (fst p)) sc)) /\
    yc_total conc' = yc_total conc + sc_sum is_concluded sc /\
    has_keys years (yc_years conc').
Proof.
  revert conc subs; induction sc as [|[k info] t IH]; intros conc subs Hc Hi; simpl.
  - exists conc. rewrite app_nil_r. split; [reflexivity|split; [lia|assumption]].
  - change (containsb concluidos_normalized k) with (is_concluded k).
    cbn [fst]. replace (not_concluded k) with (negb (is_concluded k)) by reflexivity.
    destruct (is_concluded k) eqn:Ek; simpl.
    + destruct (add_years_ok years years (yc_years conc) (si_years info)
                  (incl_refl _) Hc (Hi k info (or_introl eq_refl))) as [d [Hd Hdk]].
      rewrite Hd; simpl.
      destruct (IH {| yc_years := d; yc_total := yc_total conc + si_total info;
                      yc_percentage := yc_percentage conc |} subs Hdk
                   (fun k' i' H => Hi k' i' (or_intror H)))
        as [conc' [Hs [Ht Hk]]].
      exists conc'. split; [exact Hs|split; [|exact Hk]]. simpl in Ht. rewrite Ht. lia.
    + destruct (IH conc (subs ++ [mk_sub (k, info)]) Hc
                  (fun k' i' H => Hi k' i' (or_intror H))) as [conc' [Hs [Ht Hk]]].
      exists conc'.
      change [{| sub_name := original info; sub_years := si_years info;
                 sub_total := si_total info; sub_percentage := f0 |}]
        with [mk_sub (k, info)].
      rewrite Hs, <- app_assoc. split; [reflexivity|split; [lia|exact Hk]].
Qed.

Lemma sum_subcats_ok years subs tot :
  has_keys years (yc_years tot) ->
  (forall c, In c subs -> has_keys years (sub_years c)) ->
  exists tot', sum_subcats years subs tot = Ok tot' /\
    yc_total tot' = yc_total tot + subs_total subs.
Proof.
  revert tot; induction subs as [|c t IH]; intros tot Ht Hc; simpl.
  - exists tot; split; [reflexivity | lia].
  - destruct (add_years_ok years years (yc_years tot) (sub_years c)
                (incl_refl _) Ht (Hc c (or_introl eq_refl))) as [d [Hd Hdk]].
    rewrite Hd; simpl.
    destruct (IH {| yc_years := d; yc_total := yc_total tot + sub_total c;
                    yc_percentage := yc_percentage tot |} Hdk
                 (fun c' H => Hc c' (or_intror H))) as [tot' [Hs Ht']].
    exists tot'; split; [exact Hs|]. simpl in Ht'. lia.
Qed.

Lemma subs_total_mk_sub sc :
  subs_total (map mk_sub (filter (fun p => not_concluded (fst p)) sc)) =
  sc_sum not_concluded sc.
Proof.
  induction sc as [|[k info] t IH]; simpl; [reflexivity|].
  destruct (not_concluded k); simpl; rewrite IH; reflexivity.
Qed.

Lemma sc_sum_all_split sc :
  sc_sum is_concluded sc + sc_sum not_concluded sc = sc_sum (fun _ => true) sc.
Proof.
  induction sc as [|[k info] t IH]; simpl; [reflexivity|].
  replace (not_concluded k) with (negb (is_concluded k)) by reflexivity.
  destruct (is_concluded k); simpl; lia.
Qed.

(** With distinct keys, the [str_eqb k]-sum is the total of the entry [k]. *)
Lemma sc_sum_single sc k info :
  NoDup (map fst sc) -> In (k, info) sc -> sc_sum (str_eqb k) sc = si_total info.
Proof.
  induction sc as [|[k' info'] t IH]; simpl; [intros _ []|].
  intros Hnd Hin. inversion Hnd as [|? ? Hnot Hnd']; subst.
  assert (Hz : forall k0, ~ In k0 (map fst t) -> sc_sum (str_eqb k0) t = 0).
  { intros k0 Hk0. clear -Hk0. induction t as [|[k1 i1] t IHt]; simpl; [reflexivity|].
    simpl in Hk0. destruct (str_eqb k0 k1) eqn:E.
    - apply str_eqb_eq in E; subst; tauto.
    - rewrite IHt; [lia | tauto]. }
  destruct Hin as [Hin|Hin].
  - injection Hin as -> ->. rewrite str_eqb_refl, Hz by assumption. lia.
  - destruct (str_eqb k k') eqn:E.
    + apply str_eqb_eq in E; subst k'. exfalso; apply Hnot.
      apply (in_map fst) in Hin; exact Hin.
    + rewrite IH by assumption. lia.
Qed.

Lemma first_occurrences_nodup lower E : NoDup (map fst (first_occurrences lower E)).
Proof.
  unfold first_occurrences.
  assert (H : forall acc, NoDup (map fst acc) ->
    NoDup (map fst (fold_left (fun acc e =>
      let k := normalize_status lower (fst e) in
      if existsb (str_eqb k) (map fst acc) then acc else acc ++ [(k, fst e)]) E acc))).
  { induction E as [|e E IH]; intros acc Hacc; simpl; [assumption|].
    apply IH. destruct (existsb _ _) eqn:Hex; [assumption|].
    rewrite map_app; simpl. apply NoDup_app; [assumption | constructor; [intros []|constructor]|].
    intros x Hx [Hx'|[]]; subst x.
    assert (Hf : existsb (str_eqb (normalize_status lower (fst e))) (map fst acc) = true).
    { apply existsb_exists. eexists; split; [exact Hx | apply str_eqb_refl]. }
    congruence. }
  apply H. constructor.
Qed.

(** ** The whole aggregation, on the main path *)

Lemma subcat_summary_list l :
  summarize_subcats (map subcat_to_py l) = Some (map (fun c => (sub_name c, sub_total c)) l).
Proof.
  induction l as [|c l IH]; [reflexivity|].
  unfold summarize_subcats in *; simpl. rewrite IH. reflexivity.
Qed.

Lemma filter_key_original (f : pystr -> bool) sc :
  filter (fun q => f (fst q)) (map key_original sc) =
  map key_original (filter (fun p => f (fst p)) sc).
Proof.
  induction sc as [|p sc IH]; simpl; [reflexivity|].
  destruct (f (fst p)); simpl; rewrite IH; reflexivity.
Qed.

Lemma count_status_true lower E : count_status lower (fun _ => true) E = List.length E.
Proof. unfold count_status. rewrite filter_true. reflexivity. Qed.

Lemma process_counted lower py_int data status_column years s y :
  headers data <> [] -> values data <> [] ->
  find_status_column lower status_column (headers data) = Some s ->
  find_year_column lower (headers data) = Some y ->
  exists v, process_enel_legalizacao_data lower py_int data status_column years = Ok v /\
   let E := counted_rows py_int s y years (values data) in
   total_at v ["total_demandado"]%string = Some (Z.of_nat (List.length E)) /\
   total_at v ["concluidos"]%string = Some (Z.of_nat (count_status lower is_concluded E)) /\
   total_at v ["em_andamento"; "total"]%string =
     Some (Z.of_nat (count_status lower not_concluded E)) /\
   subcat_summary v =
     Some (map (fun q => (snd q, Z.of_nat (count_status lower (str_eqb (fst q)) E)))
               (filter (fun q => not_concluded (fst q)) (first_occurrences lower E))) /\
   py_path v ["cancelados"]%string = None.
Proof.
  intros Hh Hr Hs Hy. unfold process_enel_legalizacao_data.
  destruct (headers data) as [|h hs] eqn:Eh; [congruence|].
  destruct (values data) as [|r rs] eqn:Er; [congruence|]. cbn [is_nil orb].
  remember (counted_rows py_int s y years (r :: rs)) as E eqn:HE.
  rewrite Hs, Hy.
  destruct (count_rows_inv lower py_int years s y (r :: rs) [] (init_acc years)
              (loop_inv_init lower years)) as [st [Hc Hinv]].
  rewrite Hc; simpl. rewrite app_nil_l, <- HE in Hinv.
  destruct Hinv as ([Htby Hinfo] & Ht & Hsum & Hfo).
  destruct (separate_ok years (counts st) (zero_ycount years) [] (has_keys_zero years) Hinfo)
    as [conc [Hsep [Hct Hck]]].
  rewrite Hsep; simpl.
  remember (map mk_sub (filter (fun p => not_concluded (fst p)) (counts st))) as subs eqn:Hsubs.
  assert (Hsk : forall c, In c subs -> has_keys years (sub_years c)).
  { intros c Hin. rewrite Hsubs in Hin. apply in_map_iff in Hin as [[k info] [<- Hin]].
    apply filter_In in Hin as [Hin _]. exact (Hinfo k info Hin). }
  destruct (sum_subcats_ok years subs (zero_ycount years) (has_keys_zero years) Hsk)
    as [em [Hem Hemt]].
  rewrite Hem; simpl.
  assert (Hnd : NoDup (map fst (counts st))).
  { replace (map fst (counts st)) with (map fst (map key_original (counts st)))
      by (rewrite map_map; reflexivity).
    rewrite Hfo. apply first_occurrences_nodup. }
  assert (Hsummary :
    map (fun c => (sub_name c, sub_total c)) subs =
    map (fun q => (snd q, Z.of_nat (count_status lower (str_eqb (fst q)) E)))
        (filter (fun q => not_concluded (fst q)) (first_occurrences lower E))).
  { rewrite <- Hfo, filter_key_original, Hsubs, !map_map.
    apply map_ext_in. intros [k info] Hin. apply filter_In in Hin as [Hin _].
    unfold mk_sub, key_original; simpl. f_equal.
    rewrite <- Hsum. symmetry. apply sc_sum_single; assumption. }
  assert (Hconc : yc_total conc = Z.of_nat (count_status lower is_concluded E))
    by (rewrite Hct, Hsum; reflexivity).
  assert (Hemtot : yc_total em = Z.of_nat (count_status lower not_concluded E))
    by (rewrite Hemt, Hsubs, subs_total_mk_sub, Hsum; reflexivity).
  unfold percentages. destruct (0 <? total_all st).
  - eexists; split; [reflexivity|]. cbv zeta.
    unfold total_at; simpl. rewrite Ht, Hconc, Hemtot. split; [reflexivity|split; [reflexivity|split; [reflexivity|]]].
    split; [|reflexivity].
    unfold subcat_summary; simpl.
    rewrite subcat_summary_list, map_map. simpl. rewrite <- Hsummary. reflexivity.
  - eexists; split; [reflexivity|]. cbv zeta.
    unfold total_at; simpl. rewrite Ht, Hconc, Hemtot. split; [reflexivity|split; [reflexivity|split; [reflexivity|]]].
    split; [|reflexivity].
    unfold subcat_summary; simpl.
    rewrite subcat_summary_list. rewrite <- Hsummary. reflexivity.
Qed.

(** ** The status separation of [parse_status_data] *)


Lemma smem_keys {V} k (d : list (pystr * V)) : smem k d = mem k (map fst d).
Proof. induction d as [|[k' v'] t IH]; simpl; [reflexivity|]. rewrite IH; reflexivity. Qed.

Lemma sset_keys_present {V} (d : list (pystr * V)) k v w :
  sget d k = Ok v -> map fst (sset d k w) = map fst d.
Proof.
  induction d as [|[k' v'] t IH]; simpl; [discriminate|].
  destruct (str_eqb k k'); simpl; [reflexivity|]. intros H; rewrite (IH H); reflexivity.
Qed.

Lemma sset_keys_absent {V} (d : list (pystr * V)) k w :
  smem k d = false -> map fst (sset d k w) = map fst d ++ [k].
Proof.
  induction d as [|[k' v'] t IH]; simpl; [reflexivity|].
  intros H; apply orb_false_iff in H as [H1 H2]. rewrite H1; simpl. rewrite IH; auto.
Qed.

Lemma add_year_cells_keys py_int yci row sv sc ys sc' :
  add_year_cells py_int yci row sv sc ys = Ok sc' -> map fst sc' = map fst sc.
Proof.
  revert sc; induction ys as [|yr t IH]; intros sc H; simpl in H.
  - injection H as <-; reflexivity.
  - destruct (yci_get yci yr) as [[ci|]|]; try (apply IH; assumption).
    destruct (_ && _); [|apply IH; assumption].
    destruct (if is_empty _ then Some 0 else py_int _) as [value|]; [|apply IH; assumption].
    destruct (sget sc sv) as [e|] eqn:He; simpl in H; [|discriminate].
    destruct (yd_add (t_years e) yr value) as [d|]; simpl in H; [|discriminate].
    rewrite (IH _ H). apply (sset_keys_present _ _ _ _ He).
Qed.

Lemma total_cell_keys py_int ti row sv sc sc' :
  total_cell py_int ti row sv sc = Ok sc' -> map fst sc' = map fst sc.
Proof.
  unfold total_cell. destruct ti as [t|]; [|intros H; injection H as <-; reflexivity].
  destruct (_ && _); [|intros H; injection H as <-; reflexivity].
  destruct (if is_empty _ then Some 0 else py_int _) as [n|];
    [|intros H; injection H as <-; reflexivity].
  destruct (sget sc sv) as [e|] eqn:He; simpl; [|discriminate].
  intros H; injection H as <-. apply (sset_keys_present _ _ _ _ He).
Qed.

Lemma percentage_cell_keys py_float pi row sv sc sc' :
  percentage_cell py_float pi row sv sc = Ok sc' -> map fst sc' = map fst sc.
Proof.
  unfold percentage_cell. destruct pi as [q|]; [|intros H; injection H as <-; reflexivity].
  destruct (_ && _); [|intros H; injection H as <-; reflexivity].
  destruct (if is_empty _ then Some f0 else py_float _) as [f|];
    [|intros H; injection H as <-; reflexivity].
  destruct (sget sc sv) as [e|] eqn:He; simpl; [|discriminate].
  intros H; injection H as <-. apply (sset_keys_present _ _ _ _ He).
Qed.

Lemma tally_row_keys py_int py_float years ib idx yci ti pi sc row sc' :
  tally_row py_int py_float years ib idx yci ti pi sc row = Ok sc' ->
  forall x, mem x (map fst sc') =
            mem x (map fst sc) || mem x (tallied_values idx ib [row]).
Proof.
  unfold tally_row, tallied_values; simpl.
  destruct (Datatypes.length row <=? idx)%nat.
  - intros H; injection H as <-. intros x; unfold mem; simpl. rewrite orb_false_r; reflexivity.
  - destruct (is_empty (strip (nth idx row [])) && negb ib).
    + intros H; injection H as <-. intros x; unfold mem; simpl. rewrite orb_false_r; reflexivity.
    + set (sv := strip (nth idx row [])).
      set (sc1 := if smem sv sc then sc else sset sc sv _).
      intros H x.
      assert (H1 : mem x (map fst sc1) = mem x (map fst sc) || mem x [sv]).
      { unfold sc1. destruct (smem sv sc) eqn:Hm.
        - unfold mem at 3; simpl. rewrite orb_false_r.
          destruct (str_eqb x sv) eqn:E; [|symmetry; apply orb_false_r].
          apply str_eqb_eq in E; subst x. rewrite <- smem_keys, Hm; reflexivity.
        - rewrite (sset_keys_absent _ _ _ Hm). unfold mem. rewrite existsb_app. reflexivity. }
      rewrite app_nil_r, <- H1.
      destruct (add_year_cells py_int yci row sv sc1 years) as [sc2|] eqn:H2;
        simpl in H; [|discriminate].
      destruct (total_cell py_int ti row sv sc2) as [sc3|] eqn:H3; simpl in H; [|discriminate].
      rewrite (percentage_cell_keys _ _ _ _ _ _ H), (total_cell_keys _ _ _ _ _ _ H3),
        (add_year_cells_keys _ _ _ _ _ _ _ H2).
      reflexivity.
Qed.

Lemma tally_rows_keys py_int py_float years ib idx yci ti pi rows sc sc' :
  tally_rows py_int py_float years ib idx yci ti pi sc rows = Ok sc' ->
  forall x, mem x (map fst sc') =
            mem x (map fst sc) || mem x (tallied_values idx ib rows).
Proof.
  revert sc; induction rows as [|row rows IH]; intros sc H x; simpl in H.
  - injection H as <-. unfold mem; simpl. rewrite orb_false_r; reflexivity.
  - destruct (tally_row py_int py_float years ib idx yci ti pi sc row) as [sc1|] eqn:H1;
      simpl in H; [|discriminate].
    rewrite (IH _ H), (tally_row_keys _ _ _ _ _ _ _ _ _ _ _ H1).
    replace (tallied_values idx ib (row :: rows))
      with (tallied_values idx ib [row] ++ tallied_values idx ib rows)
      by (unfold tallied_values; simpl; rewrite app_nil_r; reflexivity).
    unfold mem at 4 5. rewrite existsb_app, orb_assoc. reflexivity.
Qed.

Lemma mem_In x l : mem x l = true <-> In x l.
Proof.
  unfold mem. rewrite existsb_exists. split.
  - intros [y [Hy E]]. apply str_eqb_eq in E; subst; assumption.
  - intros H; exists x; split; [assumption | apply str_eqb_refl].
Qed.

Lemma mem_filter x (p : pystr -> bool) l : mem x (filter p l) = mem x l && p x.
Proof.
  induction l as [|h t IH]; simpl; [reflexivity|].
  destruct (str_eqb x h) eqn:E.
  - apply str_eqb_eq in E; subst h. unfold mem in *.
    destruct (p x) eqn:Ep; simpl; rewrite ?str_eqb_refl; [reflexivity|].
    rewrite IH, !andb_false_r; reflexivity.
  - destruct (p h); unfold mem; simpl; rewrite ?E; simpl; exact IH.
Qed.

Lemma split_main_other_values cfg sc m0 o0 :
  let r := split_main_other cfg sc m0 o0 in
  let MV := map sheet_value (main_statuses cfg) in
  let OV := map sheet_value (other_statuses cfg) in
  map sr_sheet_value (fst r) =
    map sr_sheet_value m0 ++ filter (fun k => mem k MV) (map fst sc) /\
  map sr_sheet_value (snd r) =
    map sr_sheet_value o0 ++ filter (fun k => negb (mem k MV) && mem k OV) (map fst sc).
Proof.
  revert m0 o0; induction sc as [|[sv t] rest IH]; intros m0 o0; simpl.
  - rewrite !app_nil_r; split; reflexivity.
  - change (existsb (str_eqb sv) (map sheet_value (main_statuses cfg)))
      with (mem sv (map sheet_value (main_statuses cfg))).
    change (existsb (str_eqb sv) (map sheet_value (other_statuses cfg)))
      with (mem sv (map sheet_value (other_statuses cfg))).
    destruct (mem sv (map sheet_value (main_statuses cfg))) eqn:E1; simpl.
    + destruct (IH (m0 ++ [mk_status_row (main_statuses cfg) sv t]) o0) as [H1 H2].
      rewrite H1, H2, map_app, <- app_assoc; split; reflexivity.
    + destruct (mem sv (map sheet_value (other_statuses cfg))) eqn:E2.
      * destruct (IH m0 (o0 ++ [mk_status_row (other_statuses cfg) sv t])) as [H1 H2].
        rewrite H1, H2, map_app, <- app_assoc; split; reflexivity.
      * apply IH.
Qed.

Lemma find_row_spec rows v :
  match find_row rows v with
  | Some r => sr_sheet_value r = v /\ mem v (map sr_sheet_value rows) = true
  | None => mem v (map sr_sheet_value rows) = false
  end.
Proof.
  induction rows as [|r t IH]; simpl; [reflexivity|].
  destruct (str_eqb (sr_sheet_value r) v) eqn:E.
  - apply str_eqb_eq in E. split; [assumption|]. subst v.
    unfold mem; simpl; rewrite str_eqb_refl; reflexivity.
  - assert (E' : str_eqb v (sr_sheet_value r) = false).
    { apply str_eqb_neq. apply str_eqb_neq in E. congruence. }
    destruct (find_row t v); unfold mem in *; simpl; rewrite E'; simpl; [|exact IH].
    destruct IH as [IH1 IH2]; split; assumption.
Qed.

Lemma order_by_config_values cfgs rows :
  map sr_sheet_value (order_by_config cfgs rows) =
  filter (fun x => mem x (map sr_sheet_value rows)) (map sheet_value cfgs).
Proof.
  unfold order_by_config.
  induction cfgs as [|c t IH]; simpl; [reflexivity|].
  pose proof (find_row_spec rows (sheet_value c)) as Hf.
  destruct (find_row rows (sheet_value c)) as [r|].
  - destruct Hf as [Hr Hm]. rewrite Hm; simpl. rewrite Hr, IH; reflexivity.
  - rewrite Hf; simpl. exact IH.
Qed.

Lemma sheet_values_render L1 L2 :
  let v := PDict [(K "main_statuses", PList (map status_row_to_py L1));
                  (K "other_statuses", PList (map status_row_to_py L2))] in
  sheet_values_at v "main_statuses" = Some (map sr_sheet_value L1) /\
  sheet_values_at v "other_statuses" = Some (map sr_sheet_value L2).
Proof.
  unfold sheet_values_at; simpl.
  split; [induction L1 as [|r t IH] | induction L2 as [|r t IH]]; simpl;
    try reflexivity; rewrite IH; reflexivity.
Qed.

(** C10: in the result of [parse_status_data], the [sheet_value]s of
    [main_statuses] are the configured main values, in configuration order,
    that occur among the tallied status values; those of [other_statuses]
    are the configured other values, in configuration order, that occur among
    the tallied values and are not configured main values; a tallied value in
    neither configured set appears in neither list. *)
Theorem parse_status_data_follows_config py_int py_float data status_column years cfg v idx :
  parse_status_data py_int py_float data status_column years cfg = Ok v ->
  index_of status_column (headers data) = Some idx ->
  let T := tallied_values idx (include_blank cfg) (values data) in
  let MV := map sheet_value (main_statuses cfg) in
  let OV := map sheet_value (other_statuses cfg) in
  sheet_values_at v "main_statuses" = Some (filter (fun x => mem x T) MV) /\
  sheet_values_at v "other_statuses" =
    Some (filter (fun x => mem x T && negb (mem x MV)) OV) /\
  (forall x xs, mem x MV = false -> mem x OV = false ->
     sheet_values_at v "main_statuses" = Some xs \/
     sheet_values_at v "other_statuses" = Some xs ->
     mem x xs = false).
Proof.
  intros H Hidx T MV OV.
  assert (Hmain : sheet_values_at v "main_statuses" = Some (filter (fun x => mem x T) MV) /\
                  sheet_values_at v "other_statuses" =
                    Some (filter (fun x => mem x T && negb (mem x MV)) OV)).
  { unfold parse_status_data in H; cbv zeta in H. rewrite Hidx in H.
    destruct (is_nil (headers data) || is_nil (values data)) eqn:Hn.
    - injection H as <-.
      assert (Hv : values data = []).
      { destruct (headers data) eqn:Hh; [discriminate Hidx|].
        destruct (values data); [reflexivity | discriminate Hn]. }
      assert (HT : T = []) by (unfold T; rewrite Hv; reflexivity).
      clearbody T MV OV. subst T.
      assert (Hf : forall l, filter (fun _ : pystr => false) l = []).
      { intros l; induction l; [reflexivity | exact IHl]. }
      split; unfold sheet_values_at; simpl; rewrite Hf; reflexivity.
    - destruct (tally_rows py_int py_float years (include_blank cfg) idx _ _ _ [] (values data))
        as [sc|] eqn:Hsc; simpl in H; [|discriminate].
      pose proof (tally_rows_keys _ _ _ _ _ _ _ _ _ _ _ Hsc) as Hk.
      pose proof (split_main_other_values cfg sc [] []) as [Hm Ho].
      destruct (split_main_other cfg sc [] []) as [mains others]; simpl in Hm, Ho.
      injection H as <-.
      destruct (sheet_values_render (order_by_config (main_statuses cfg) mains)
                  (order_by_config (other_statuses cfg) others)) as [R1 R2].
      rewrite R1, R2, !order_by_config_values, Hm, Ho.
      split; f_equal; apply filter_ext_in; intros x Hx; rewrite mem_filter, Hk.
      + apply mem_In in Hx. fold MV. rewrite Hx. unfold mem at 1; simpl.
        rewrite andb_true_r. reflexivity.
      + apply mem_In in Hx. fold MV OV. rewrite Hx. unfold mem at 1; simpl.
        rewrite andb_true_r. reflexivity. }
  destruct Hmain as [H1 H2]. split; [exact H1|]. split; [exact H2|].
  intros x xs HM HO [E|E].
  - rewrite H1 in E; injection E as <-. rewrite mem_filter, HM; reflexivity.
  - rewrite H2 in E; injection E as <-. rewrite mem_filter, HO; reflexivity.
Qed.

(** ** The aggregator's branches *)

Lemma ydict_to_py_get d yr :
  py_get (ydict_to_py d) (PInt yr) =
  match yd_get d yr with Ok n => Some (PInt n) | Err _ => None end.
Proof.
  induction d as [|[k v] t IH]; simpl; [reflexivity|].
  destruct (yr =? k); [reflexivity | exact IH].
Qed.

Lemma assoc_get_app l1 l2 k :
  assoc_get (l1 ++ l2) k =
  match assoc_get l1 k with Some v => Some v | None => assoc_get l2 k end.
Proof.
  induction l1 as [|[k' v'] t IH]; simpl; [reflexivity|].
  destruct (key_eqb k k'); [reflexivity | exact IH].
Qed.

Lemma is_nil_false {A} (l : list A) : is_nil l = false -> l <> [].
Proof. destruct l; [discriminate | intros _; discriminate]. Qed.

Lemma process_branches lower py_int data status_column years :
  exists v, process_enel_legalizacao_data lower py_int data status_column years = Ok v /\
  ((exists extra, v = PDict (empty_fields years ++ extra) /\
                  assoc_get extra (K "cancelados") = None) \/
   (exists s y, headers data <> [] /\ values data <> [] /\
      find_status_column lower status_column (headers data) = Some s /\
      find_year_column lower (headers data) = Some y)).
Proof.
  destruct (is_nil (headers data) || is_nil (values data)) eqn:Hn.
  - eexists; split.
    + unfold process_enel_legalizacao_data; cbv zeta; rewrite Hn; reflexivity.
    + left; exists []; rewrite app_nil_r; split; reflexivity.
  - apply orb_false_iff in Hn as [Hh Hv].
    destruct (find_status_column lower status_column (headers data)) as [s|] eqn:Hs.
    + destruct (find_year_column lower (headers data)) as [y|] eqn:Hy.
      * destruct (process_counted lower py_int data status_column years s y
                    (is_nil_false _ Hh) (is_nil_false _ Hv) Hs Hy) as [v [Hp _]].
        exists v; split; [exact Hp|]. right; exists s, y.
        split; [apply is_nil_false; exact Hh|]. split; [apply is_nil_false; exact Hv|].
        split; reflexivity.
      * eexists; split.
        -- unfold process_enel_legalizacao_data; cbv zeta; rewrite Hh, Hv, Hs, Hy; reflexivity.
        -- left; eexists; split; reflexivity.
    + eexists; split.
      * unfold process_enel_legalizacao_data; cbv zeta; rewrite Hh, Hv, Hs; reflexivity.
      * left; eexists; split; reflexivity.
Qed.

Lemma count_status_split lower E :
  Z.of_nat (count_status lower is_concluded E) +
  Z.of_nat (count_status lower not_concluded E) = Z.of_nat (List.length E).
Proof.
  unfold count_status, not_concluded.
  induction E as [|e E IH]; [reflexivity|]. cbn [filter].
  destruct (is_concluded (normalize_status lower (fst e))); cbn [List.length negb]; lia.
Qed.

Lemma find_column_from_some lower target hs i n :
  find_column_from lower target hs i = Some n <->
  (i <= n)%nat /\
  (exists h, nth_error hs (n - i) = Some h /\ lower (strip h) = target) /\
  (forall j h, (j < n - i)%nat -> nth_error hs j = Some h -> lower (strip h) <> target).
Proof.
  revert i; induction hs as [|h t IH]; intros i; simpl.
  - split; [discriminate|]. intros [_ [[h [Hn _]] _]]. destruct (n - i)%nat; discriminate.
  - destruct (str_eqb (lower (strip h)) target) eqn:E.
    + apply str_eqb_eq in E. split.
      * intros H; injection H as <-. rewrite Nat.sub_diag. split; [lia|].
        split; [exists h; split; [reflexivity | exact E]|]. intros j h' Hj; lia.
      * intros [Hle [[h' [Hn Heq]] Hmin]]. f_equal.
        destruct (n - i)%nat as [|k] eqn:Hd; [lia|].
        exfalso; apply (Hmin O h); [lia | reflexivity | exact E].
    + apply str_eqb_neq in E. rewrite IH. split.
      * intros [Hle [[h' [Hn Heq]] Hmin]]. split; [lia|].
        replace (n - i)%nat with (S (n - S i)) by lia. simpl.
        split; [exists h'; split; assumption|].
        intros [|j] h'' Hj Hnth; simpl in Hnth.
        -- injection Hnth as <-. exact E.
        -- apply (Hmin j h''); [lia | exact Hnth].
      * intros [Hle [[h' [Hn Heq]] Hmin]].
        destruct (n - i)%nat as [|k] eqn:Hd.
        -- simpl in Hn; injection Hn as <-. contradiction.
        -- split; [lia|]. replace (n - S i)%nat with k by lia. simpl in Hn.
           split; [exists h'; split; assumption|].
           intros j h'' Hj Hnth. apply (Hmin (S j) h''); [lia | exact Hnth].
Qed.

Lemma find_column_from_none lower target hs i :
  find_column_from lower target hs i = None <->
  (forall h, In h hs -> lower (strip h) <> target).
Proof.
  revert i; induction hs as [|h t IH]; intros i; simpl.
  - split; [intros _ h []| reflexivity].
  - destruct (str_eqb (lower (strip h)) target) eqn:E.
    + apply str_eqb_eq in E. split; [discriminate|].
      intros H; exfalso; apply (H h); [left; reflexivity | exact E].
    + apply str_eqb_neq in E. rewrite IH. split.
      * intros H h' [<-|Hin]; [exact E | apply H; exact Hin].
      * intros H h' Hin; apply H; right; exact Hin.
Qed.

(** ** First occurrences *)

Lemma existsb_key_iff k (acc : list (pystr * pystr)) :
  existsb (str_eqb k) (map fst acc) = true <-> exists q, In q acc /\ fst q = k.
Proof.
  rewrite existsb_exists. split.
  - intros [x [Hx E]]. apply str_eqb_eq in E; subst x.
    apply in_map_iff in Hx as [q [Hq Hin]]. exists q; split; assumption.
  - intros [q [Hin Hq]]. exists (fst q); split; [apply in_map; exact Hin|].
    rewrite Hq; apply str_eqb_refl.
Qed.

Lemma fo_keys lower E q :
  In q (first_occurrences lower E) ->
  exists e, In e E /\ fst q = normalize_status lower (fst e).
Proof.
  induction E as [|e0 E IH] using rev_ind; [intros []|].
  rewrite first_occurrences_snoc; cbv zeta.
  destruct (existsb _ _) eqn:Ex; intros Hq.
  - destruct (IH Hq) as [e [He Hk]]. exists e; split; [apply in_or_app; left|]; assumption.
  - apply in_app_or in Hq as [Hq | [<- | []]].
    + destruct (IH Hq) as [e [He Hk]]. exists e; split; [apply in_or_app; left|]; assumption.
    + exists e0; split; [apply in_or_app; right; left|]; reflexivity.
Qed.

Lemma fo_complete lower E e :
  In e E -> exists q, In q (first_occurrences lower E) /\ fst q = normalize_status lower (fst e).
Proof.
  induction E as [|e0 E IH] using rev_ind; [intros []|].
  rewrite first_occurrences_snoc; cbv zeta. intros He.
  destruct (existsb (str_eqb (normalize_status lower (fst e0)))
              (map fst (first_occurrences lower E))) eqn:Ex.
  - apply in_app_or in He as [He | [<- | []]]; [apply IH; exact He|].
    apply existsb_key_iff; exact Ex.
  - apply in_app_or in He as [He | [<- | []]].
    + destruct (IH He) as [q [Hq Hk]]. exists q; split; [apply in_or_app; left|]; assumption.
    + eexists; split; [apply in_or_app; right; left; reflexivity | reflexivity].
Qed.

Lemma fo_first lower E q :
  In q (first_occurrences lower E) ->
  exists E1 e E2, E = E1 ++ e :: E2 /\ fst q = normalize_status lower (fst e) /\
    snd q = fst e /\ (forall e', In e' E1 -> normalize_status lower (fst e') <> fst q).
Proof.
  induction E as [|e0 E IH] using rev_ind; [intros []|].
  assert (Hold : In q (first_occurrences lower E) ->
    exists E1 e E2, E ++ [e0] = E1 ++ e :: E2 /\ fst q = normalize_status lower (fst e) /\
      snd q = fst e /\ (forall e', In e' E1 -> normalize_status lower (fst e') <> fst q)).
  { intros Hq. destruct (IH Hq) as [E1 [e [E2 [-> H]]]].
    exists E1, e, (E2 ++ [e0]). split; [rewrite <- app_assoc; reflexivity | exact H]. }
  rewrite first_occurrences_snoc; cbv zeta.
  destruct (existsb (str_eqb (normalize_status lower (fst e0)))
              (map fst (first_occurrences lower E))) eqn:Ex; [exact Hold|].
  intros Hq. apply in_app_or in Hq as [Hq | [<- | []]]; [apply Hold; exact Hq|].
  exists E, e0, []. split; [reflexivity|]. split; [reflexivity|]. split; [reflexivity|].
  intros e' He' Hk. simpl in Hk.
  destruct (fo_complete lower E e' He') as [q' [Hq' Hk']].
  assert (Ht : existsb (str_eqb (normalize_status lower (fst e0)))
                 (map fst (first_occurrences lower E)) = true).
  { apply existsb_key_iff. exists q'; split; [exact Hq'|]. congruence. }
  congruence.
Qed.

Lemma fo_new lower E e :
  (forall e', In e' E -> normalize_status lower (fst e') <> normalize_status lower (fst e)) ->
  first_occurrences lower (E ++ [e]) =
  first_occurrences lower E ++ [(normalize_status lower (fst e), fst e)].
Proof.
  intros H. rewrite first_occurrences_snoc; cbv zeta.
  destruct (existsb _ _) eqn:Ex; [|reflexivity].
  apply existsb_key_iff in Ex as [q [Hq Hk]].
  destruct (fo_keys lower E q Hq) as [e' [He' Hk']].
  exfalso; apply (H e' He'); congruence.
Qed.

Lemma fo_prefix lower E F :
  exists R, first_occurrences lower (E ++ F) = first_occurrences lower E ++ R.
Proof.
  induction F as [|f F IH] using rev_ind.
  - exists []; rewrite !app_nil_r; reflexivity.
  - destruct IH as [R HR]. rewrite app_assoc, first_occurrences_snoc, HR; cbv zeta.
    destruct (existsb _ _).
    + exists R; reflexivity.
    + eexists; rewrite <- app_assoc; reflexivity.
Qed.

Lemma nodup_map_filter {A B} (f : A -> B) (p : A -> bool) l :
  NoDup (map f l) -> NoDup (map f (filter p l)).
Proof.
  induction l as [|a l IH]; simpl; intros H; [constructor|].
  inversion H as [|x xs Hn Hd]; subst.
  destruct (p a); simpl; [|apply IH; exact Hd].
  constructor; [|apply IH; exact Hd].
  intros Hin; apply Hn. apply in_map_iff in Hin as [b [Hb Hin]].
  apply filter_In in Hin as [Hin _]. rewrite <- Hb; apply in_map; exact Hin.
Qed.

Lemma summary_names (l : list (pystr * pystr)) (c : pystr * pystr -> Z) :
  map fst (map (fun q => (snd q, c q)) l) = map snd l.
Proof. rewrite map_map; reflexivity. Qed.

(** ** One row *)

Lemma py_index_lt {A} (xs : list A) i d : (i < List.length xs)%nat -> py_index xs i = Ok (nth i xs d).
Proof. intros H. unfold py_index. rewrite (nth_error_nth' xs d H). reflexivity. Qed.

Lemma is_empty_false (x : pystr) : is_empty x = false <-> x <> [].
Proof. destruct x; simpl; split; congruence. Qed.

Lemma read_row_some py_int s y years row sv yr :
  read_row py_int s y years row = Ok (Some (sv, yr)) <->
  (Nat.max s y < List.length row)%nat /\
  sv = strip (nth s row []) /\ sv <> [] /\
  strip (nth y row []) <> [] /\
  py_int (strip (nth y row [])) = Some yr /\ In yr years.
Proof.
  unfold read_row.
  destruct (List.length row <=? Nat.max s y)%nat eqn:L.
  { apply Nat.leb_le in L. split; [discriminate | intros [H _]; lia]. }
  apply Nat.leb_gt in L.
  rewrite (proj2 (Nat.ltb_lt s _)) by lia. rewrite (proj2 (Nat.ltb_lt y _)) by lia.
  rewrite (py_index_lt row s []) by lia. rewrite (py_index_lt row y []) by lia.
  cbn [bind].
  destruct (is_empty (strip (nth s row []))) eqn:Es.
  { split; [discriminate|]. intros [_ [-> [Hne _]]].
    apply is_empty_false in Hne; congruence. }
  destruct (is_empty (strip (nth y row []))) eqn:Ey.
  { split; [discriminate|]. intros [_ [_ [_ [Hne _]]]].
    apply is_empty_false in Hne; congruence. }
  apply is_empty_false in Es, Ey.
  destruct (py_int (strip (nth y row []))) as [z|] eqn:Ez.
  - destruct (existsb (Z.eqb z) years) eqn:Ex.
    + split.
      * intros H; injection H as <- <-. repeat split; try assumption; try lia.
        apply existsb_exists in Ex as [w [Hw Ew]]. apply Z.eqb_eq in Ew; subst; assumption.
      * intros [_ [-> [_ [_ [Hz Hin]]]]]. injection Hz as ->. reflexivity.
    + split; [discriminate|]. intros [_ [_ [_ [_ [Hz Hin]]]]]. injection Hz as ->.
      assert (Ht : existsb (Z.eqb yr) years = true).
      { apply existsb_exists; exists yr; split; [exact Hin | apply Z.eqb_refl]. }
      congruence.
  - split; [discriminate|]. intros [_ [_ [_ [_ [Hz _]]]]]. congruence.
Qed.

(** ** Per-year sums *)

Lemma yd_sum_app d1 d2 : yd_sum (d1 ++ d2) = yd_sum d1 + yd_sum d2.
Proof. induction d1 as [|[k v] t IH]; simpl; [reflexivity|]. rewrite IH; lia. Qed.

Lemma yd_get_in d k : In k (map fst d) -> exists n, yd_get d k = Ok n.
Proof.
  induction d as [|[k' v] t IH]; simpl; [intros []|]. intros H.
  destruct (k =? k') eqn:E; [eexists; reflexivity|].
  apply IH. destruct H as [H|H]; [|exact H]. subst; rewrite Z.eqb_refl in E; discriminate.
Qed.

Lemma yd_set_get d k v w :
  yd_get d k = Ok v ->
  map fst (yd_set d k w) = map fst d /\ yd_sum (yd_set d k w) = yd_sum d - v + w.
Proof.
  induction d as [|[k' v'] t IH]; simpl; [discriminate|].
  destruct (k =? k') eqn:E.
  - intros H; injection H as <-. simpl. split; [reflexivity | lia].
  - intros H. destruct (IH H) as [H1 H2]. simpl. rewrite H1, H2. split; [reflexivity | lia].
Qed.

Lemma yd_add_sum d k n d' :
  yd_add d k n = Ok d' -> map fst d' = map fst d /\ yd_sum d' = yd_sum d + n.
Proof.
  unfold yd_add. destruct (yd_get d k) as [v|] eqn:G; simpl; [|discriminate].
  intros H; injection H as <-. destruct (yd_set_get d k v (v + n) G) as [H1 H2].
  split; [exact H1 | lia].
Qed.

Lemma yd_set_absent d k v : ~ In k (map fst d) -> yd_set d k v = d ++ [(k, v)].
Proof.
  induction d as [|[k' v'] t IH]; simpl; [reflexivity|]. intros H.
  destruct (k =? k') eqn:E.
  - apply Z.eqb_eq in E; subst. exfalso; apply H; left; reflexivity.
  - rewrite IH; [reflexivity|]. intros Hin; apply H; right; exact Hin.
Qed.

Lemma zero_years_sums years :
  NoDup years -> map fst (zero_years years) = years /\ yd_sum (zero_years years) = 0.
Proof.
  intros Hnd. unfold zero_years.
  assert (G : forall ys d, NoDup ys -> (forall yr, In yr ys -> ~ In yr (map fst d)) ->
            map fst (fold_left (fun d y => yd_set d y 0) ys d) = map fst d ++ ys /\
            yd_sum (fold_left (fun d y => yd_set d y 0) ys d) = yd_sum d).
  { induction ys as [|yr ys IH]; intros d Hn Hd; simpl.
    - rewrite app_nil_r; split; reflexivity.
    - inversion Hn as [|? ? Hni Hnd']; subst.
      rewrite (yd_set_absent d yr 0) by (apply Hd; left; reflexivity).
      destruct (IH (d ++ [(yr, 0)]) Hnd') as [H1 H2].
      + intros z Hz. rewrite map_app; simpl. intros Hin. apply in_app_or in Hin as [Hin|[<-|[]]].
        * apply (Hd z); [right; exact Hz | exact Hin].
        * contradiction.
      + rewrite H1, H2, map_app, <- app_assoc, yd_sum_app. simpl. split; [reflexivity | lia]. }
  destruct (G years [] Hnd) as [H1 H2]; [intros yr _ []|]. split; assumption.
Qed.

Lemma add_years_sums ys dst src d' :
  add_years ys dst src = Ok d' ->
  map fst d' = map fst dst /\ yd_sum d' = yd_sum dst + get_sum src ys.
Proof.
  revert dst; induction ys as [|yr ys IH]; intros dst; simpl.
  - intros H; injection H as <-. split; [reflexivity | lia].
  - destruct (yd_get src yr) as [v|] eqn:G; simpl; [|discriminate].
    destruct (yd_add dst yr v) as [d|] eqn:A; simpl; [|discriminate].
    intros H. destruct (yd_add_sum _ _ _ _ A) as [A1 A2].
    destruct (IH d H) as [H1 H2]. rewrite H1, A1, H2, A2. split; [reflexivity | lia].
Qed.

Lemma get_sum_cons_other k v t ys :
  ~ In k ys -> get_sum ((k, v) :: t) ys = get_sum t ys.
Proof.
  induction ys as [|yr ys IH]; simpl; [reflexivity|]. intros H.
  destruct (yr =? k) eqn:E.
  - apply Z.eqb_eq in E; subst. exfalso; apply H; left; reflexivity.
  - rewrite IH; [reflexivity|]. intros Hin; apply H; right; exact Hin.
Qed.

Lemma get_sum_keys src : NoDup (map fst src) -> get_sum src (map fst src) = yd_sum src.
Proof.
  induction src as [|[k v] t IH]; simpl; [reflexivity|]. intros Hn.
  inversion Hn as [|? ? Hni Hnd]; subst.
  rewrite Z.eqb_refl, get_sum_cons_other by exact Hni. rewrite IH by exact Hnd. reflexivity.
Qed.

Lemma add_years_balanced years dst src d' :
  NoDup years -> map fst src = years ->
  add_years years dst src = Ok d' ->
  map fst d' = map fst dst /\ yd_sum d' = yd_sum dst + yd_sum src.
Proof.
  intros Hnd Hk H. destruct (add_years_sums _ _ _ _ H) as [H1 H2].
  split; [exact H1|]. rewrite H2, <- Hk, get_sum_keys; [reflexivity|]. rewrite Hk; exact Hnd.
Qed.

Lemma years_sum_ydict d :
  years_sum (map (fun kv => (PInt (fst kv), PInt (snd kv))) d) = Some (yd_sum d).
Proof. induction d as [|[k v] t IH]; simpl; [reflexivity|]. rewrite IH; reflexivity. Qed.

Lemma ycount_balanced c : yd_sum (yc_years c) = yc_total c -> bucket_balanced (ycount_to_py c).
Proof.
  intros H. exists (map (fun kv => (PInt (fst kv), PInt (snd kv))) (yc_years c)), (yc_total c).
  split; [reflexivity|]. split; [reflexivity|]. rewrite years_sum_ydict, H; reflexivity.
Qed.

Lemma subcat_balanced c : yd_sum (sub_years c) = sub_total c -> bucket_balanced (subcat_to_py c).
Proof.
  intros H. exists (map (fun kv => (PInt (fst kv), PInt (snd kv))) (sub_years c)), (sub_total c).
  split; [reflexivity|]. split; [reflexivity|]. rewrite years_sum_ydict, H; reflexivity.
Qed.

Section Sums.

Variable lower : pystr -> pystr.
Variable years : list Z.
Hypothesis years_nodup : NoDup years.

Lemma count_row_sums st sv yr st' :
  sums_ok years st -> count_row lower years st sv yr = Ok st' -> sums_ok years st'.
Proof.
  intros [Htk [Hts Hinfo]]. unfold count_row; cbv zeta.
  set (k := normalize_status lower sv).
  destruct (sc_mem k (counts st)) eqn:Hm.
  - destruct (sc_get (counts st) k) as [info|] eqn:Hg; cbn [bind]; [|discriminate].
    destruct (yd_add (si_years info) yr 1) as [ys|] eqn:Hy; cbn [bind]; [|discriminate].
    destruct (yd_add (total_by_year st) yr 1) as [tby|] eqn:Ht; cbn [bind]; [|discriminate].
    rewrite sc_get_set_same; cbn [bind]. intros H; injection H as <-.
    rewrite sc_set_set. destruct (yd_add_sum _ _ _ _ Ht) as [T1 T2].
    destruct (yd_add_sum _ _ _ _ Hy) as [Y1 Y2].
    destruct (Hinfo k info (sc_get_In _ _ _ Hg)) as [I1 I2].
    split; [simpl; rewrite T1; exact Htk|]. split; [simpl; rewrite T2, Hts; reflexivity|].
    intros k' info' Hin. simpl in Hin. apply sc_set_In in Hin as [Hin|Hin].
    + injection Hin as -> ->; simpl. rewrite Y1, Y2, I1, I2. split; [reflexivity | lia].
    + exact (Hinfo k' info' Hin).
  - rewrite sc_get_set_same; cbn [bind si_years original si_total].
    destruct (yd_add (zero_years years) yr 1) as [ys|] eqn:Hy; cbn [bind]; [|discriminate].
    destruct (yd_add (total_by_year st) yr 1) as [tby|] eqn:Ht; cbn [bind]; [|discriminate].
    rewrite sc_get_set_same; cbn [bind]. intros H; injection H as <-.
    rewrite !sc_set_set. destruct (yd_add_sum _ _ _ _ Ht) as [T1 T2].
    destruct (yd_add_sum _ _ _ _ Hy) as [Y1 Y2].
    destruct (zero_years_sums years years_nodup) as [Z1 Z2].
    split; [simpl; rewrite T1; exact Htk|]. split; [simpl; rewrite T2, Hts; reflexivity|].
    intros k' info' Hin. simpl in Hin. apply sc_set_In in Hin as [Hin|Hin].
    + injection Hin as -> ->; simpl. rewrite Y1, Y2, Z1, Z2. split; reflexivity.
    + exact (Hinfo k' info' Hin).
Qed.

Lemma count_rows_sums py_int s y rows st st' :
  sums_ok years st -> count_rows lower py_int s y years st rows = Ok st' -> sums_ok years st'.
Proof.
  revert st; induction rows as [|row rows IH]; intros st Hst; simpl.
  - intros H; injection H as <-; exact Hst.
  - unfold step.
    destruct (read_row py_int s y years row) as [[[sv yr]|]|e]; cbn [bind].
    + destruct (count_row lower years st sv yr) as [st1|] eqn:Hc; cbn [bind]; [|discriminate].
      apply IH. exact (count_row_sums st sv yr st1 Hst Hc).
    + apply IH; exact Hst.
    + discriminate.
Qed.

Lemma separate_sums sc conc subs conc' subs' :
  yc_ok years conc -> Forall (sub_ok years) subs ->
  (forall k info, In (k, info) sc ->
     map fst (si_years info) = years /\ yd_sum (si_years info) = si_total info) ->
  separate years sc conc subs = Ok (conc', subs') ->
  yc_ok years conc' /\ Forall (sub_ok years) subs'.
Proof.
  revert conc subs; induction sc as [|[k info] t IH]; intros conc subs Hc Hs Hi; simpl.
  - intros H; injection H as <- <-. split; assumption.
  - destruct (Hi k info (or_introl eq_refl)) as [I1 I2].
    destruct (containsb concluidos_normalized k).
    + destruct (add_years years (yc_years conc) (si_years info)) as [d|] eqn:Ha;
        cbn [bind]; [|discriminate].
      destruct (add_years_balanced _ _ _ _ years_nodup I1 Ha) as [A1 A2].
      apply IH; [| exact Hs | intros k' i' H; exact (Hi k' i' (or_intror H))].
      destruct Hc as [C1 C2]. split; simpl; [rewrite A1; exact C1 | rewrite A2, C2, I2; reflexivity].
    + apply IH; [exact Hc | | intros k' i' H; exact (Hi k' i' (or_intror H))].
      apply Forall_app; split; [exact Hs|]. constructor; [|constructor].
      split; simpl; assumption.
Qed.

Lemma sum_subcats_sums subs tot tot' :
  yc_ok years tot -> Forall (sub_ok years) subs -> sum_subcats years subs tot = Ok tot' -> yc_ok years tot'.
Proof.
  revert tot; induction subs as [|c t IH]; intros tot Ht Hs; simpl.
  - intros H; injection H as <-; exact Ht.
  - apply Forall_cons_iff in Hs as [[S1 S2] Hs'].
    destruct (add_years years (yc_years tot) (sub_years c)) as [d|] eqn:Ha;
      cbn [bind]; [|discriminate].
    destruct (add_years_balanced _ _ _ _ years_nodup S1 Ha) as [A1 A2].
    apply IH; [|exact Hs'].
    destruct Ht as [T1 T2]. split; simpl; [rewrite A1; exact T1 | rewrite A2, T2, S2; reflexivity].
Qed.

End Sums.

Lemma init_acc_sums years : NoDup years -> sums_ok years (init_acc years).
Proof.
  intros Hnd. destruct (zero_years_sums years Hnd) as [Z1 Z2].
  split; [exact Z1|]. split; [exact Z2|]. intros k info [].
Qed.

Lemma zero_ycount_ok years : NoDup years -> yc_ok years (zero_ycount years).
Proof. intros Hnd. exact (zero_years_sums years Hnd). Qed.

Lemma empty_fields_balanced years extra :
  NoDup years -> balanced_result (PDict (empty_fields years ++ extra)).
Proof.
  intros Hnd. destruct (zero_years_sums years Hnd) as [_ Z2].
  split; [|split; [|split]]; eexists; (split; [reflexivity|]).
  1-3: apply ycount_balanced; exact Z2.
  constructor.
Qed.

Lemma percentages_ok years tall conc em subs conc' em' subs' :
  yc_ok years conc -> yc_ok years em -> Forall (sub_ok years) subs ->
  percentages tall conc em subs = (conc', em', subs') ->
  yc_ok years conc' /\ yc_ok years em' /\ Forall (sub_ok years) subs'.
Proof.
  intros Hc He Hs. unfold percentages. destruct (0 <? tall).
  - intros H; injection H as <- <- <-. split; [exact Hc|]. split; [exact He|].
    apply Forall_map. eapply Forall_impl; [|exact Hs]. intros c Hc'; exact Hc'.
  - intros H; injection H as <- <- <-. auto.
Qed.

(** ** Lemmas on the routes and parsers *)

Lemma sget_In {V} (d : list (pystr * V)) k v : sget d k = Ok v -> In (k, v) d.
Proof.
  induction d as [|[k' v'] t IH]; simpl; [discriminate|].
  destruct (str_eqb k k') eqn:E.
  - apply str_eqb_eq in E; subst. intros H; injection H as <-; left; reflexivity.
  - intros H; right; exact (IH H).
Qed.

Lemma sset_In {V} (d : list (pystr * V)) k v p : In p (sset d k v) -> snd p = v \/ In p d.
Proof.
  induction d as [|[k' v'] t IH]; simpl.
  - intros [<-|[]]; left; reflexivity.
  - destruct (str_eqb k k').
    + intros [<-|H]; [left; reflexivity | right; right; exact H].
    + intros [<-|H]; [right; left; reflexivity|]. destruct (IH H); auto.
Qed.

Lemma sget_sset_same {V} (d : list (pystr * V)) k v : sget (sset d k v) k = Ok v.
Proof.
  induction d as [|[k' v'] t IH]; simpl; [rewrite str_eqb_refl; reflexivity|].
  destruct (str_eqb k k') eqn:E; simpl; rewrite E; [reflexivity | exact IH].
Qed.

Lemma sget_sset_other {V} (d : list (pystr * V)) k k' v :
  str_eqb k' k = false -> sget (sset d k v) k' = sget d k'.
Proof.
  intros Hne. induction d as [|[k0 v0] t IH]; simpl.
  - rewrite Hne; reflexivity.
  - destruct (str_eqb k k0) eqn:E; simpl.
    + apply str_eqb_eq in E; subst k0. rewrite Hne; reflexivity.
    + rewrite IH; reflexivity.
Qed.

Lemma smem_sget {V} (d : list (pystr * V)) k : smem k d = true -> exists v, sget d k = Ok v.
Proof.
  induction d as [|[k' v'] t IH]; simpl; [discriminate|].
  destruct (str_eqb k k'); simpl; eauto.
Qed.

Lemma tally_ok_sset years sc k t :
  tally_ok years sc -> has_keys years (t_years t) -> tally_ok years (sset sc k t).
Proof.
  intros H Ht k' t' Hin. destruct (sset_In _ _ _ _ Hin) as [E|E]; simpl in E.
  - subst; exact Ht.
  - exact (H _ _ E).
Qed.

Lemma add_year_cells_ok py_int years yci row sv sc ys :
  incl ys years -> tally_ok years sc -> (exists e, sget sc sv = Ok e) ->
  exists sc', add_year_cells py_int yci row sv sc ys = Ok sc' /\ tally_ok years sc' /\
              exists e, sget sc' sv = Ok e.
Proof.
  revert sc; induction ys as [|yr ys IH]; intros sc Hincl Hok He; simpl; [eauto|].
  assert (Hi : incl ys years) by (intros z Hz; apply Hincl; right; exact Hz).
  destruct (yci_get yci yr) as [[ci|]|]; try (apply IH; assumption).
  destruct (_ && _); [|apply IH; assumption].
  destruct (if is_empty _ then Some 0 else py_int _) as [value|]; [|apply IH; assumption].
  destruct He as [e He]. rewrite He; cbn [bind].
  destruct (Hok sv e (sget_In _ _ _ He) yr (Hincl yr (or_introl eq_refl))) as [w Hw].
  unfold yd_add; rewrite Hw; cbn [bind].
  apply IH; [exact Hi | |].
  - apply tally_ok_sset; [exact Hok|]. simpl. apply has_keys_set. exact (Hok sv e (sget_In _ _ _ He)).
  - eexists; apply sget_sset_same.
Qed.

Lemma total_cell_ok py_int years ti row sv sc :
  tally_ok years sc -> (exists e, sget sc sv = Ok e) ->
  exists sc', total_cell py_int ti row sv sc = Ok sc' /\ tally_ok years sc' /\
              exists e, sget sc' sv = Ok e.
Proof.
  intros Hok [e He]. unfold total_cell.
  destruct ti as [t|]; [|eauto].
  destruct (_ && _); [|eauto].
  destruct (if is_empty _ then Some 0 else py_int _) as [n|]; [|eauto].
  rewrite He; cbn [bind]. eexists; split; [reflexivity|]. split.
  - apply tally_ok_sset; [exact Hok|]. exact (Hok sv e (sget_In _ _ _ He)).
  - eexists; apply sget_sset_same.
Qed.

Lemma percentage_cell_ok py_float years pi row sv sc :
  tally_ok years sc -> (exists e, sget sc sv = Ok e) ->
  exists sc', percentage_cell py_float pi row sv sc = Ok sc' /\ tally_ok years sc'.
Proof.
  intros Hok [e He]. unfold percentage_cell.
  destruct pi as [q|]; [|eauto].
  destruct (_ && _); [|eauto].
  destruct (if is_empty _ then Some f0 else py_float _) as [f|]; [|eauto].
  rewrite He; cbn [bind]. eexists; split; [reflexivity|].
  apply tally_ok_sset; [exact Hok|]. exact (Hok sv e (sget_In _ _ _ He)).
Qed.

Lemma tally_row_ok py_int py_float years ib idx yci ti pi sc row :
  tally_ok years sc ->
  exists sc', tally_row py_int py_float years ib idx yci ti pi sc row = Ok sc' /\
              tally_ok years sc'.
Proof.
  intros Hok. unfold tally_row.
  destruct (List.length row <=? idx)%nat; [eauto|]. cbv zeta.
  destruct (is_empty (strip (nth idx row [])) && negb ib); [eauto|].
  set (sv := strip (nth idx row [])).
  set (sc1 := if smem sv sc then sc else sset sc sv _).
  assert (H1 : tally_ok years sc1 /\ exists e, sget sc1 sv = Ok e).
  { unfold sc1. destruct (smem sv sc) eqn:Hm.
    - split; [exact Hok | apply smem_sget; exact Hm].
    - split; [|eexists; apply sget_sset_same].
      apply tally_ok_sset; [exact Hok | apply has_keys_zero]. }
  destruct H1 as [Hok1 He1].
  destruct (add_year_cells_ok py_int years yci row sv sc1 years (incl_refl _) Hok1 He1)
    as [sc2 [H2 [Hok2 He2]]].
  rewrite H2; cbn [bind].
  destruct (total_cell_ok py_int years ti row sv sc2 Hok2 He2) as [sc3 [H3 [Hok3 He3]]].
  rewrite H3; cbn [bind].
  exact (percentage_cell_ok py_float years pi row sv sc3 Hok3 He3).
Qed.

Lemma tally_rows_ok py_int py_float years ib idx yci ti pi rows sc :
  tally_ok years sc ->
  exists sc', tally_rows py_int py_float years ib idx yci ti pi sc rows = Ok sc'.
Proof.
  revert sc; induction rows as [|row rows IH]; intros sc Hok; simpl; [eauto|].
  destruct (tally_row_ok py_int py_float years ib idx yci ti pi sc row Hok) as [sc1 [H1 Hok1]].
  rewrite H1; cbn [bind]. exact (IH sc1 Hok1).
Qed.

Lemma index_of_In x l n : index_of x l = Some n -> In x l.
Proof.
  revert n; induction l as [|h t IH]; intros n; simpl; [discriminate|].
  destruct (str_eqb h x) eqn:E.
  - apply str_eqb_eq in E; subst. intros _; left; reflexivity.
  - destruct (index_of x t) as [m|] eqn:Ei; simpl; [|discriminate].
    intros _; right; exact (IH m eq_refl).
Qed.

Lemma index_of_None x l : index_of x l = None <-> ~ In x l.
Proof.
  split.
  - induction l as [|h t IH]; simpl; [tauto|].
    destruct (str_eqb h x) eqn:E; [discriminate|].
    apply str_eqb_neq in E.
    destruct (index_of x t); simpl; [discriminate|].
    intros _ [C|C]; [contradiction | exact (IH eq_refl C)].
  - intros H. destruct (index_of x l) as [n|] eqn:Ei; [|reflexivity].
    exfalso; exact (H (index_of_In _ _ _ Ei)).
Qed.

Lemma sset_sget_same {V} (d : list (pystr * V)) k v : sget d k = Ok v -> sset d k v = d.
Proof.
  induction d as [|[k' v'] t IH]; simpl; [discriminate|].
  destruct (str_eqb k k') eqn:E.
  - intros H; injection H as <-; reflexivity.
  - intros H; rewrite (IH H); reflexivity.
Qed.

Lemma sset_sset {V} (d : list (pystr * V)) k v w : sset (sset d k v) k w = sset d k w.
Proof.
  induction d as [|[k' v'] t IH]; simpl.
  - rewrite str_eqb_refl; reflexivity.
  - destruct (str_eqb k k') eqn:E; simpl; rewrite E; [reflexivity | rewrite IH; reflexivity].
Qed.

Lemma add_year_cells_step py_int yci row sv sc yr ys :
  add_year_cells py_int yci row sv sc (yr :: ys) =
  match int_cell py_int (match yci_get yci yr with Some c => c | None => None end) row with
  | Some value =>
      let* e0 := sget sc sv in
      let* d := yd_add (t_years e0) yr value in
      add_year_cells py_int yci row sv (sset sc sv (set_t_years e0 d)) ys
  | None => add_year_cells py_int yci row sv sc ys
  end.
Proof.
  simpl. unfold int_cell. destruct (yci_get yci yr) as [[ci|]|]; try reflexivity.
  destruct (_ && _); reflexivity.
Qed.

Lemma add_year_cells_spec py_int yci row sv sc ys e :
  NoDup ys -> sget sc sv = Ok e -> has_keys ys (t_years e) ->
  exists e', add_year_cells py_int yci row sv sc ys = Ok (sset sc sv e') /\
    t_total e' = t_total e /\
    (forall yr a, In yr ys -> yd_get (t_years e) yr = Ok a ->
       yd_get (t_years e') yr = Ok (a + year_value py_int yci yr row)) /\
    (forall yr, ~ In yr ys -> yd_get (t_years e') yr = yd_get (t_years e) yr).
Proof.
  revert sc e; induction ys as [|yr ys IH]; intros sc e Hnd He Hk.
  - exists e. simpl. rewrite (sset_sget_same _ _ _ He). split; [reflexivity|].
    split; [reflexivity|]. split; [intros ? ? []|]. reflexivity.
  - apply NoDup_cons_iff in Hnd as [Hni Hnd].
    assert (Hk' : has_keys ys (t_years e)) by (intros z Hz; apply Hk; right; exact Hz).
    rewrite add_year_cells_step.
    destruct (int_cell py_int (match yci_get yci yr with Some c => c | None => None end) row)
      as [value|] eqn:Hp.
    + rewrite He; cbn [bind].
      destruct (Hk yr (or_introl eq_refl)) as [a0 Ha0].
      unfold yd_add; rewrite Ha0; cbn [bind].
      set (e1 := set_t_years e (yd_set (t_years e) yr (a0 + value))).
      assert (He1 : sget (sset sc sv e1) sv = Ok e1) by apply sget_sset_same.
      assert (Hk1 : has_keys ys (t_years e1)) by (apply has_keys_set; exact Hk').
      destruct (IH (sset sc sv e1) e1 Hnd He1 Hk1) as [e' [H1 [H2 [H3 H4]]]].
      exists e'. rewrite sset_sset in H1. split; [exact H1|]. split; [exact H2|]. split.
      * intros yr0 a [<-|Hin] Ha.
        -- rewrite H4 by exact Hni. unfold e1; simpl. rewrite yd_get_set, Z.eqb_refl.
           rewrite Ha0 in Ha; injection Ha as <-. unfold year_value. rewrite Hp.
           reflexivity.
        -- apply H3; [exact Hin|]. unfold e1; simpl. rewrite yd_get_set.
           destruct (yr0 =? yr) eqn:E; [apply Z.eqb_eq in E; subst; contradiction | exact Ha].
      * intros yr0 Hn. rewrite H4 by (intros C; apply Hn; right; exact C).
        unfold e1; simpl. rewrite yd_get_set.
        destruct (yr0 =? yr) eqn:E;
          [apply Z.eqb_eq in E; subst; exfalso; apply Hn; left; reflexivity | reflexivity].
    + destruct (IH sc e Hnd He Hk') as [e' [H1 [H2 [H3 H4]]]].
      exists e'. split; [exact H1|]. split; [exact H2|]. split.
      * intros yr0 a [<-|Hin] Ha.
        -- rewrite H4 by exact Hni. rewrite Ha. unfold year_value. rewrite Hp. f_equal; lia.
        -- exact (H3 yr0 a Hin Ha).
      * intros yr0 Hn. apply H4. intros C; apply Hn; right; exact C.
Qed.

Lemma total_cell_spec py_int ti row sv sc e :
  sget sc sv = Ok e ->
  total_cell py_int ti row sv sc =
  Ok (match int_cell py_int ti row with
      | Some n => sset sc sv (set_t_total e n)
      | None => sc
      end).
Proof.
  intros He. unfold total_cell, int_cell. destruct ti as [t|]; [|reflexivity].
  destruct (_ && _); [|reflexivity]. cbv zeta.
  destruct (if is_empty _ then Some 0 else py_int _); [|reflexivity].
  rewrite He; reflexivity.
Qed.

Lemma percentage_cell_spec py_float pi row sv sc e :
  sget sc sv = Ok e ->
  exists f, percentage_cell py_float pi row sv sc = Ok (sset sc sv (set_t_percentage e f)).
Proof.
  intros He.
  assert (Hid : sset sc sv (set_t_percentage e (t_percentage e)) = sc).
  { apply sset_sget_same. destruct e; exact He. }
  unfold percentage_cell. destruct pi as [q|]; [|exists (t_percentage e); rewrite Hid; reflexivity].
  destruct (_ && _); [|exists (t_percentage e); rewrite Hid; reflexivity]. cbv zeta.
  destruct (if is_empty _ then Some f0 else py_float _) as [f|];
    [|exists (t_percentage e); rewrite Hid; reflexivity].
  rewrite He; cbn [bind]. exists f; reflexivity.
Qed.

Lemma status_year_sum_snoc py_int idx ib col k R row :
  status_year_sum py_int idx ib col k (R ++ [row]) =
  status_year_sum py_int idx ib col k R +
  match row_status idx ib row with
  | Some s => if str_eqb s k then match int_cell py_int col row with Some n => n | None => 0 end
              else 0
  | None => 0
  end.
Proof.
  unfold status_year_sum. induction R as [|r R IH]; cbn [app fold_right]; [lia|].
  rewrite IH. lia.
Qed.

Lemma status_last_total_snoc py_int idx ib col k R row :
  status_last_total py_int idx ib col k (R ++ [row]) =
  match row_status idx ib row with
  | Some s => if str_eqb s k then
                match int_cell py_int col row with
                | Some n => n | None => status_last_total py_int idx ib col k R end
              else status_last_total py_int idx ib col k R
  | None => status_last_total py_int idx ib col k R
  end.
Proof. unfold status_last_total. rewrite fold_left_app. reflexivity. Qed.

Lemma sget_Err_Ok {V} (d : list (pystr * V)) k : (forall v, sget d k <> Ok v) -> smem k d = false.
Proof.
  induction d as [|[k' v'] t IH]; simpl; [reflexivity|].
  destruct (str_eqb k k'); simpl; [intros H; exfalso; exact (H v' eq_refl)|]. exact IH.
Qed.

Lemma tally_row_inv py_int py_float years ib idx yci ti pi sc row sc' R k :
  NoDup years -> tally_ok years sc ->
  tally_row py_int py_float years ib idx yci ti pi sc row = Ok sc' ->
  tally_inv py_int idx ib yci ti years R sc k ->
  tally_inv py_int idx ib yci ti years (R ++ [row]) sc' k.
Proof.
  intros Hnd Hok H Hinv.
  unfold tally_inv in *.
  rewrite (status_last_total_snoc _ _ _ _ _ _ row).
  assert (Hsum : forall yr, status_year_sum py_int idx ib (ycol yci yr) k (R ++ [row]) =
     status_year_sum py_int idx ib (ycol yci yr) k R +
     match row_status idx ib row with
     | Some s => if str_eqb s k then year_value py_int yci yr row else 0
     | None => 0 end).
  { intros yr. rewrite status_year_sum_snoc. reflexivity. }
  unfold tally_row, row_status in *.
  destruct (List.length row <=? idx)%nat.
  { injection H as <-. destruct (sget sc k); destruct Hinv as [H1 H2];
      (split; [intros yr Hy; rewrite Hsum, Z.add_0_r; auto | exact H2]). }
  cbv zeta in *.
  destruct (is_empty (strip (nth idx row [])) && negb ib).
  { injection H as <-. destruct (sget sc k); destruct Hinv as [H1 H2];
      (split; [intros yr Hy; rewrite Hsum, Z.add_0_r; auto | exact H2]). }
  set (sv := strip (nth idx row [])) in *.
  set (z := {| t_years := zero_years years; t_total := 0; t_percentage := f0 |}) in *.
  set (sc1 := if smem sv sc then sc else sset sc sv z) in *.
  assert (E1 : exists e0, sget sc1 sv = Ok e0 /\ has_keys years (t_years e0) /\
     (sget sc sv = Ok e0 \/ (smem sv sc = false /\ e0 = z)) /\
     forall k', str_eqb k' sv = false -> sget sc1 k' = sget sc k').
  { unfold sc1. destruct (smem sv sc) eqn:Hm.
    - destruct (smem_sget _ _ Hm) as [e0 He0]. exists e0.
      split; [exact He0|]. split; [exact (Hok _ _ (sget_In _ _ _ He0))|].
      split; [left; exact He0 | reflexivity].
    - exists z. split; [apply sget_sset_same|]. split; [apply has_keys_zero|].
      split; [right; split; reflexivity|]. intros k' Hk'. apply sget_sset_other; exact Hk'. }
  destruct E1 as [e0 [He0 [Hk0 [Hold Hoth]]]].
  destruct (add_year_cells_spec py_int yci row sv sc1 years e0 Hnd He0 Hk0)
    as [e1 [A1 [A2 [A3 A4]]]].
  rewrite A1 in H; cbn [bind] in H.
  rewrite (total_cell_spec py_int ti row sv _ e1 (sget_sset_same _ _ _)) in H; cbn [bind] in H.
  set (e2 := match int_cell py_int ti row with Some n => set_t_total e1 n | None => e1 end).
  assert (He2 : sget (match int_cell py_int ti row with
                      | Some n => sset (sset sc1 sv e1) sv (set_t_total e1 n)
                      | None => sset sc1 sv e1 end) sv = Ok e2 /\
                (match int_cell py_int ti row with
                      | Some n => sset (sset sc1 sv e1) sv (set_t_total e1 n)
                      | None => sset sc1 sv e1 end) = sset sc1 sv e2).
  { unfold e2. destruct (int_cell py_int ti row).
    - rewrite sset_sset. split; [apply sget_sset_same | reflexivity].
    - split; [apply sget_sset_same | reflexivity]. }
  destruct He2 as [He2 Heq2].
  destruct (percentage_cell_spec py_float pi row sv _ e2 He2) as [f Hf].
  rewrite Hf in H. injection H as <-. rewrite Heq2, sset_sset.
  destruct (str_eqb sv k) eqn:Ek.
  - apply str_eqb_eq in Ek. rewrite <- Ek in *. rewrite sget_sset_same. cbn [t_years t_total set_t_percentage].
    unfold e2. replace (t_years (match int_cell py_int ti row with
                                  | Some n => set_t_total e1 n | None => e1 end))
      with (t_years e1) by (destruct (int_cell py_int ti row); reflexivity).
    destruct Hold as [Hold | [Hm ->]].
    + rewrite Hold in Hinv. destruct Hinv as [I1 I2]. split.
      * intros yr Hy. rewrite Hsum; try rewrite str_eqb_refl. apply A3; [exact Hy | apply I1; exact Hy].
      * try rewrite str_eqb_refl. rewrite <- I2. destruct (int_cell py_int ti row); simpl; [reflexivity|].
        exact A2.
    + assert (Hn : sget sc sv = Err KeyError).
      { clear -Hm. induction sc as [|[k' v'] t IH]; simpl in *; [reflexivity|].
        apply orb_false_iff in Hm as [Hm1 Hm2]. rewrite Hm1. exact (IH Hm2). }
      rewrite Hn in Hinv. destruct Hinv as [I1 I2]. split.
      * intros yr Hy. rewrite Hsum; try rewrite str_eqb_refl. rewrite I1 by exact Hy.
        apply A3; [exact Hy|]. apply zero_years_get; exact Hy.
      * try rewrite str_eqb_refl. rewrite I2. destruct (int_cell py_int ti row); simpl; [reflexivity|].
        rewrite A2; reflexivity.
  - assert (Ek' : str_eqb k sv = false).
    { apply str_eqb_neq. apply str_eqb_neq in Ek. auto. }
    rewrite sget_sset_other by exact Ek'. rewrite Hoth by exact Ek'.
    destruct (sget sc k); destruct Hinv as [I1 I2];
      (split; [intros yr Hy; rewrite Hsum; try rewrite Ek; cbv iota; rewrite Z.add_0_r; auto | exact I2]).
Qed.

Lemma tally_rows_inv py_int py_float years ib idx yci ti pi rows R sc sc' k :
  NoDup years -> tally_ok years sc ->
  tally_rows py_int py_float years ib idx yci ti pi sc rows = Ok sc' ->
  tally_inv py_int idx ib yci ti years R sc k ->
  tally_inv py_int idx ib yci ti years (R ++ rows) sc' k.
Proof.
  revert R sc; induction rows as [|row rows IH]; intros R sc Hnd Hok H Hinv; simpl in H.
  - injection H as <-. rewrite app_nil_r; exact Hinv.
  - destruct (tally_row_ok py_int py_float years ib idx yci ti pi sc row Hok) as [sc1 [H1 Hok1]].
    rewrite H1 in H; cbn [bind] in H.
    replace (R ++ row :: rows) with ((R ++ [row]) ++ rows) by (rewrite <- app_assoc; reflexivity).
    apply (IH _ sc1 Hnd Hok1 H). exact (tally_row_inv _ _ _ _ _ _ _ _ _ row sc1 R k Hnd Hok H1 Hinv).
Qed.

Lemma tally_inv_nil py_int idx ib yci ti years k : tally_inv py_int idx ib yci ti years [] [] k.
Proof. unfold tally_inv; simpl. split; [intros; reflexivity | reflexivity]. Qed.

Lemma find_row_app l1 l2 v :
  find_row (l1 ++ l2) v = match find_row l1 v with Some r => Some r | None => find_row l2 v end.
Proof.
  induction l1 as [|r t IH]; simpl; [reflexivity|].
  destruct (str_eqb (sr_sheet_value r) v); [reflexivity | exact IH].
Qed.

Lemma split_main_other_prefix cfg sc m0 o0 :
  (exists more, fst (split_main_other cfg sc m0 o0) = m0 ++ more) /\
  (exists more, snd (split_main_other cfg sc m0 o0) = o0 ++ more).
Proof.
  revert m0 o0; induction sc as [|[k t] rest IH]; intros m0 o0; simpl.
  - split; exists []; rewrite app_nil_r; reflexivity.
  - destruct (existsb (str_eqb k) (map sheet_value (main_statuses cfg))).
    + destruct (IH (m0 ++ [mk_status_row (main_statuses cfg) k t]) o0) as [[m Hm] Ho].
      split; [exists ([mk_status_row (main_statuses cfg) k t] ++ m);
              rewrite Hm, app_assoc; reflexivity | exact Ho].
    + destruct (existsb (str_eqb k) (map sheet_value (other_statuses cfg))).
      * destruct (IH m0 (o0 ++ [mk_status_row (other_statuses cfg) k t])) as [Hm [o Ho]].
        split; [exact Hm | exists ([mk_status_row (other_statuses cfg) k t] ++ o);
                           rewrite Ho, app_assoc; reflexivity].
      * apply IH.
Qed.

Lemma str_eqb_sym a b : str_eqb a b = str_eqb b a.
Proof.
  destruct (str_eqb a b) eqn:E.
  - apply str_eqb_eq in E; subst; symmetry; apply str_eqb_refl.
  - symmetry. apply str_eqb_neq. apply str_eqb_neq in E. auto.
Qed.

Lemma split_find cfg sc m0 o0 v t :
  sget sc v = Ok t ->
  (mem v (map sheet_value (main_statuses cfg)) = true -> find_row m0 v = None ->
   find_row (fst (split_main_other cfg sc m0 o0)) v =
     Some (mk_status_row (main_statuses cfg) v t)) /\
  (mem v (map sheet_value (main_statuses cfg)) = false ->
   mem v (map sheet_value (other_statuses cfg)) = true -> find_row o0 v = None ->
   find_row (snd (split_main_other cfg sc m0 o0)) v =
     Some (mk_status_row (other_statuses cfg) v t)).
Proof.
  revert m0 o0; induction sc as [|[k t0] rest IH]; intros m0 o0 Hg; simpl in Hg; [discriminate|].
  simpl.
  change (existsb (str_eqb k) (map sheet_value (main_statuses cfg)))
    with (mem k (map sheet_value (main_statuses cfg))).
  change (existsb (str_eqb k) (map sheet_value (other_statuses cfg)))
    with (mem k (map sheet_value (other_statuses cfg))).
  destruct (str_eqb v k) eqn:Ek.
  - apply str_eqb_eq in Ek; subst k. injection Hg as ->. split.
    + intros Hm Hf. rewrite Hm. destruct (split_main_other_prefix cfg rest
        (m0 ++ [mk_status_row (main_statuses cfg) v t]) o0) as [[m Hmm] _].
      rewrite Hmm, <- app_assoc, find_row_app, Hf. simpl. rewrite str_eqb_refl. reflexivity.
    + intros Hm Ho Hf. rewrite Hm, Ho. destruct (split_main_other_prefix cfg rest
        m0 (o0 ++ [mk_status_row (other_statuses cfg) v t])) as [_ [o Hoo]].
      rewrite Hoo, <- app_assoc, find_row_app, Hf. simpl. rewrite str_eqb_refl. reflexivity.
  - assert (Ek' : str_eqb k v = false) by (rewrite str_eqb_sym; exact Ek).
    destruct (mem k (map sheet_value (main_statuses cfg))).
    + destruct (IH (m0 ++ [mk_status_row (main_statuses cfg) k t0]) o0 Hg) as [I1 I2].
      split.
      * intros Hm Hf. apply I1; [exact Hm|]. rewrite find_row_app, Hf; simpl. rewrite Ek'. reflexivity.
      * exact I2.
    + destruct (mem k (map sheet_value (other_statuses cfg))).
      * destruct (IH m0 (o0 ++ [mk_status_row (other_statuses cfg) k t0]) Hg) as [I1 I2].
        split; [exact I1|]. intros Hm Ho Hf. apply I2; [exact Hm | exact Ho|].
        rewrite find_row_app, Hf; simpl. rewrite Ek'. reflexivity.
      * exact (IH m0 o0 Hg).
Qed.

Lemma order_by_config_In cfgs rows c r :
  In c cfgs -> find_row rows (sheet_value c) = Some r -> In r (order_by_config cfgs rows).
Proof.
  intros Hc Hf. unfold order_by_config. apply in_flat_map. exists c. split; [exact Hc|].
  rewrite Hf; left; reflexivity.
Qed.

Lemma yci_get_set d k v k' :
  yci_get (yci_set d k v) k' = if k' =? k then Some v else yci_get d k'.
Proof.
  induction d as [|[k0 v0] t IH]; simpl.
  - destruct (k' =? k); reflexivity.
  - destruct (k =? k0) eqn:E0; simpl.
    + apply Z.eqb_eq in E0; subst k0. destruct (k' =? k); reflexivity.
    + rewrite IH. destruct (k' =? k0) eqn:E1, (k' =? k) eqn:E2; try reflexivity.
      apply Z.eqb_eq in E1, E2; subst. rewrite Z.eqb_refl in E0; discriminate.
Qed.

Lemma year_col_indices_get hs prefix years yr :
  In yr years ->
  yci_get (year_col_indices hs prefix years) yr =
  Some (index_of (prefix ++ [32] ++ z_to_str yr) hs).
Proof.
  unfold year_col_indices.
  assert (G : forall ys d, yci_get (fold_left (fun d y =>
             yci_set d y (index_of (prefix ++ [32] ++ z_to_str y) hs)) ys d) yr =
           if existsb (Z.eqb yr) ys then Some (index_of (prefix ++ [32] ++ z_to_str yr) hs)
           else yci_get d yr).
  { induction ys as [|y ys IH]; intros d; simpl; [reflexivity|].
    rewrite IH, yci_get_set. destruct (yr =? y) eqn:E; simpl; [|reflexivity].
    apply Z.eqb_eq in E; subst. destruct (existsb (Z.eqb y) ys); reflexivity. }
  intros Hin. rewrite G. replace (existsb (Z.eqb yr) years) with true; [reflexivity|].
  symmetry; apply existsb_exists. exists yr; split; [exact Hin | apply Z.eqb_refl].
Qed.

Lemma mem_keys_sget {V} (d : list (pystr * V)) k : mem k (map fst d) = true -> exists v, sget d k = Ok v.
Proof. rewrite <- smem_keys. apply smem_sget. Qed.

Lemma status_row_figures cfgs sv t n (years : list Z) f :
  t_total t = n ->
  (forall yr, In yr years -> yd_get (t_years t) yr = Ok (f yr)) ->
  let e := status_row_to_py (mk_status_row cfgs sv t) in
  py_get e (K "sheet_value") = Some (PStr sv) /\
  py_get e (K "total") = Some (PInt n) /\
  forall yr, In yr years ->
    match py_get e (K "years") with Some d => py_get d (PInt yr) | None => None end =
    Some (PInt (f yr)).
Proof.
  intros Ht Hy e. split; [reflexivity|]. split; [rewrite <- Ht; reflexivity|].
  intros yr Hin.
  change (py_get e (K "years")) with (Some (ydict_to_py (t_years t))).
  cbv beta iota. rewrite ydict_to_py_get, (Hy yr Hin). reflexivity.
Qed.

Lemma rfind_None c s : ~ In c s -> rfind c s = None.
Proof.
  induction s as [|x t IH]; simpl; [reflexivity|]. intros H.
  rewrite IH by (intros C; apply H; right; exact C).
  destruct (x =? c) eqn:E; [apply Z.eqb_eq in E; subst; exfalso; apply H; left; reflexivity|].
  reflexivity.
Qed.

Lemma rfind_Some c s i :
  rfind c s = Some i -> s = firstn i s ++ [c] ++ skipn (S i) s /\ ~ In c (skipn (S i) s).
Proof.
  revert i; induction s as [|x t IH]; intros i; simpl; [discriminate|].
  destruct (rfind c t) as [j|] eqn:Ej.
  - intros H; injection H as <-. destruct (IH j eq_refl) as [H1 H2]. simpl.
    split; [rewrite H1 at 1; reflexivity | exact H2].
  - destruct (x =? c) eqn:E; [|discriminate]. intros H; injection H as <-.
    apply Z.eqb_eq in E; subst. simpl. split; [reflexivity|].
    intros C. assert (G : forall s, rfind c s = None -> ~ In c s).
    { clear. induction s as [|y s IH]; simpl; [auto|].
      destruct (rfind c s); [discriminate|]. destruct (y =? c) eqn:E; [discriminate|].
      intros _ [->|C]; [rewrite Z.eqb_refl in E; discriminate | exact (IH eq_refl C)]. }
    exact (G t Ej C).
Qed.

Lemma rfind_app c base ext : ~ In c ext -> rfind c (base ++ [c] ++ ext) = Some (List.length base).
Proof.
  intros H. induction base as [|x b IH]; simpl.
  - rewrite rfind_None by exact H. rewrite Z.eqb_refl; reflexivity.
  - simpl in IH. rewrite IH. reflexivity.
Qed.

Lemma replace_char_In c by_ s x : In x (replace_char c by_ s) -> (x <> c /\ In x s) \/ In x by_.
Proof.
  unfold replace_char. intros H. apply in_flat_map in H as [y [Hy Hx]].
  destruct (y =? c) eqn:E; [right; exact Hx|].
  destruct Hx as [<-|[]]. left. split; [apply Z.eqb_neq; exact E | exact Hy].
Qed.

Lemma replace_char_length c d s : List.length (replace_char c [d] s) = List.length s.
Proof.
  unfold replace_char. induction s as [|y t IH]; simpl; [reflexivity|].
  destruct (y =? c); simpl; rewrite IH; reflexivity.
Qed.

Lemma py_range_In a b y : In y (py_range a b) <-> a <= y < b.
Proof.
  unfold py_range. rewrite in_map_iff. split.
  - intros [i [<- Hi]]. apply in_seq in Hi. lia.
  - intros H. exists (Z.to_nat (y - a)). split; [lia|]. apply in_seq. lia.
Qed.

Lemma py_range_NoDup a b : NoDup (py_range a b).
Proof.
  unfold py_range. apply NoDup_map_NoDup_ForallPairs; [|apply seq_NoDup].
  intros x y _ _ E. lia.
Qed.

Lemma py_range_nil a b : b <= a -> py_range a b = [].
Proof. intros H. unfold py_range. replace (Z.to_nat (b - a)) with O by lia. reflexivity. Qed.

Lemma smem_false_sget {V} (d : list (pystr * V)) k : smem k d = false -> sget d k = Err KeyError.
Proof.
  induction d as [|[k' v'] t IH]; simpl; [reflexivity|].
  destruct (str_eqb k k'); simpl; [discriminate | exact IH].
Qed.

Lemma sget_smem {V} (d : list (pystr * V)) k v : sget d k = Ok v -> smem k d = true.
Proof.
  induction d as [|[k' v'] t IH]; simpl; [discriminate|].
  destruct (str_eqb k k'); simpl; [reflexivity | exact IH].
Qed.

Lemma uploaded_by_name_get_gen rows d acc n :
  sget d n = opt_res acc ->
  sget (fold_left (fun d r => sset d (r_spreadsheet_name r) r) rows d) n =
  opt_res (fold_left (fun acc r => if str_eqb (r_spreadsheet_name r) n then Some r else acc) rows acc).
Proof.
  revert d acc; induction rows as [|r t IH]; intros d acc H; simpl; [exact H|].
  apply IH. destruct (str_eqb (r_spreadsheet_name r) n) eqn:E.
  - apply str_eqb_eq in E. rewrite E. apply sget_sset_same.
  - rewrite sget_sset_other; [exact H|]. rewrite str_eqb_sym. exact E.
Qed.

Lemma uploaded_by_name_get rows n :
  sget (uploaded_by_name rows) n = opt_res (last_row_named rows n).
Proof. apply uploaded_by_name_get_gen. reflexivity. Qed.

Lemma last_row_named_Some rows n r :
  last_row_named rows n = Some r -> In r rows /\ r_spreadsheet_name r = n.
Proof.
  unfold last_row_named.
  assert (G : forall acc, fold_left (fun acc r => if str_eqb (r_spreadsheet_name r) n then Some r else acc) rows acc = Some r ->
             acc = Some r \/ (In r rows /\ r_spreadsheet_name r = n)).
  { induction rows as [|x t IH]; intros acc H; simpl in H; [left; exact H|].
    destruct (IH _ H) as [H'|[H1 H2]]; [|right; split; [right; exact H1 | exact H2]].
    destruct (str_eqb (r_spreadsheet_name x) n) eqn:E; [|left; exact H'].
    injection H' as <-. apply str_eqb_eq in E. right; split; [left; reflexivity | exact E]. }
  intros H. destruct (G None H) as [C|C]; [discriminate | exact C].
Qed.

Lemma last_row_named_None rows n r :
  last_row_named rows n = None -> In r rows -> r_spreadsheet_name r <> n.
Proof.
  unfold last_row_named.
  assert (G : forall acc, fold_left (fun acc r => if str_eqb (r_spreadsheet_name r) n then Some r else acc) rows acc = None ->
             acc = None /\ forall r, In r rows -> r_spreadsheet_name r <> n).
  { induction rows as [|x t IH]; intros acc H; simpl in H; [split; [exact H | intros _ []]|].
    destruct (IH _ H) as [H1 H2].
    destruct (str_eqb (r_spreadsheet_name x) n) eqn:E; [discriminate|].
    split; [exact H1|]. intros r' [<-|Hr] C.
    - rewrite C, str_eqb_refl in E; discriminate.
    - exact (H2 r' Hr C). }
  intros H Hr. exact (proj2 (G None H) r Hr).
Qed.

Lemma gs_add_year_cells_agree py_int yci (row : list pystr) sv ys sc :
  (forall yr ci, In yr ys -> yci_get yci yr = Some (Some ci) -> plain_int_cell (nth ci row [])) ->
  gs_add_year_cells py_int yci row sv sc ys = add_year_cells py_int yci row sv sc ys.
Proof.
  revert sc; induction ys as [|yr ys IH]; intros sc Hc; [reflexivity|].
  cbn [gs_add_year_cells add_year_cells].
  assert (Hc' : forall yr' ci, In yr' ys -> yci_get yci yr' = Some (Some ci) ->
                plain_int_cell (nth ci row [])) by (intros; eapply Hc; [right|]; eauto).
  destruct (yci_get yci yr) as [[ci|]|] eqn:E; [|apply IH; exact Hc'|apply IH; exact Hc'].
  match goal with |- (if ?b then _ else _) = _ => destruct b eqn:G end;
    [|apply IH; exact Hc'].
  apply andb_prop in G as [_ G]. apply negb_true_iff in G.
  cbv zeta. pose proof (Hc yr ci (or_introl eq_refl) E) as P. unfold plain_int_cell in P.
  rewrite P, G.
  destruct (py_int (nth ci row [])) as [n|]; [|apply IH; exact Hc'].
  cbn [bind]. destruct (sget sc sv) as [e|x]; [|reflexivity]. cbn [bind].
  destruct (yd_add (t_years e) yr n) as [d|x]; [|reflexivity]. cbn [bind].
  apply IH; exact Hc'.
Qed.

Lemma gs_total_cell_agree py_int ti (row : list pystr) sv sc :
  (forall c, ti = Some c -> plain_int_cell (nth c row [])) ->
  gs_total_cell py_int ti row sv sc = total_cell py_int ti row sv sc.
Proof.
  intros Hc. unfold gs_total_cell, total_cell. destruct ti as [c|]; [|reflexivity].
  match goal with |- (if ?b then _ else _) = _ => destruct b eqn:G end; [|reflexivity].
  apply andb_prop in G as [_ G]. apply negb_true_iff in G.
  cbv zeta. pose proof (Hc c eq_refl) as P. unfold plain_int_cell in P. rewrite P, G.
  reflexivity.
Qed.

Lemma gs_percentage_cell_agree py_float pi (row : list pystr) sv sc :
  (forall c, pi = Some c -> is_empty (nth c row []) = false -> pct_cell_nonblank (nth c row [])) ->
  gs_percentage_cell py_float pi row sv sc = percentage_cell py_float pi row sv sc.
Proof.
  intros Hc. unfold gs_percentage_cell, percentage_cell. destruct pi as [c|]; [|reflexivity].
  match goal with |- (if ?b then _ else _) = _ => destruct b eqn:G end; [|reflexivity].
  apply andb_prop in G as [_ G]. apply negb_true_iff in G.
  cbv zeta. pose proof (Hc c eq_refl G) as P. unfold pct_cell_nonblank in P. rewrite P.
  reflexivity.
Qed.

Lemma gs_tally_row_agree py_int py_float years ib idx yci ti pi sc (row : list pystr) :
  (forall yr ci, In yr years -> yci_get yci yr = Some (Some ci) -> plain_int_cell (nth ci row [])) ->
  (forall c, ti = Some c -> plain_int_cell (nth c row [])) ->
  (forall c, pi = Some c -> is_empty (nth c row []) = false -> pct_cell_nonblank (nth c row [])) ->
  gs_tally_row py_int py_float years ib idx yci ti pi sc row =
  tally_row py_int py_float years ib idx yci ti pi sc row.
Proof.
  intros Hy Ht Hp. unfold gs_tally_row, tally_row.
  destruct (List.length row <=? idx)%nat; [reflexivity|]. cbv zeta.
  destruct (is_empty (strip (nth idx row [])) && negb ib); [reflexivity|].
  rewrite gs_add_year_cells_agree by exact Hy.
  destruct (add_year_cells _ _ _ _ _ _) as [sc2|x]; cbn [bind]; [|reflexivity].
  rewrite gs_total_cell_agree by exact Ht.
  destruct (total_cell _ _ _ _ _) as [sc3|x]; cbn [bind]; [|reflexivity].
  apply gs_percentage_cell_agree; exact Hp.
Qed.

Lemma gs_tally_rows_agree py_int py_float years ib idx yci ti pi rows sc :
  (forall row, In row rows -> forall yr ci, In yr years -> yci_get yci yr = Some (Some ci) ->
     plain_int_cell (nth ci row [])) ->
  (forall row, In row rows -> forall c, ti = Some c -> plain_int_cell (nth c row [])) ->
  (forall row, In row rows -> forall c, pi = Some c -> is_empty (nth c row []) = false ->
     pct_cell_nonblank (nth c row [])) ->
  gs_tally_rows py_int py_float years ib idx yci ti pi sc rows =
  tally_rows py_int py_float years ib idx yci ti pi sc rows.
Proof.
  revert sc; induction rows as [|row rows IH]; intros sc Hy Ht Hp; [reflexivity|].
  cbn [gs_tally_rows tally_rows].
  rewrite gs_tally_row_agree by (first [apply Hy | apply Ht | apply Hp]; left; reflexivity).
  destruct (tally_row _ _ _ _ _ _ _ _ _ _) as [sc'|x]; cbn [bind]; [|reflexivity].
  apply IH; intros r Hr; [apply Hy | apply Ht | apply Hp]; right; exact Hr.
Qed.

Lemma process_dict lower py_int data status_column years :
  exists kvs, process_enel_legalizacao_data lower py_int data status_column years = Ok (PDict kvs).
Proof.
  destruct (process_branches lower py_int data status_column years) as [v [Hp _]].
  revert Hp. unfold process_enel_legalizacao_data; cbv zeta.
  destruct (is_nil (headers data) || is_nil (values data)); [intros _; eexists; reflexivity|].
  destruct (find_status_column lower status_column (headers data)); [|intros _; eexists; reflexivity].
  destruct (find_year_column lower (headers data)); [|intros _; eexists; reflexivity].
  destruct (count_rows _ _ _ _ _ _ _) as [st|x]; cbn [bind]; [|discriminate].
  destruct (separate _ _ _ _) as [cs|x]; cbn [bind]; [|discriminate].
  destruct (sum_subcats _ _ _) as [em|x]; cbn [bind]; [|discriminate].
  destruct (percentages _ _ _ _) as [[? ?] ?]. intros _; eexists; reflexivity.
Qed.

Lemma key_eqb_trans k k0 k' : key_eqb k k0 = true -> key_eqb k' k0 = key_eqb k' k.
Proof.
  destruct k, k0; try discriminate; destruct k'; try reflexivity; cbn [key_eqb]; intros E.
  - apply Z.eqb_eq in E; subst; reflexivity.
  - apply str_eqb_eq in E; subst; reflexivity.
Qed.

Lemma assoc_get_set_other kvs k x k' :
  key_eqb k' k = false -> assoc_get (assoc_set kvs k x) k' = assoc_get kvs k'.
Proof.
  intros Hne. induction kvs as [|[k0 v0] t IH]; cbn [assoc_set assoc_get].
  - rewrite Hne; reflexivity.
  - destruct (key_eqb k k0) eqn:E; cbn [assoc_get].
    + rewrite (key_eqb_trans _ _ _ E), Hne. reflexivity.
    + rewrite IH; reflexivity.
Qed.

Lemma assoc_get_set_same kvs k x :
  key_eqb k k = true -> assoc_get (assoc_set kvs k x) k = Some x.
Proof.
  intros Hk. induction kvs as [|[k0 v0] t IH]; cbn [assoc_set assoc_get].
  - rewrite Hk; reflexivity.
  - destruct (key_eqb k k0) eqn:E; cbn [assoc_get]; rewrite ?E; [reflexivity | exact IH].
Qed.

Lemma py_path_dict_set kvs k x k1 ks :
  key_eqb (PStr (zs k1)) k = false ->
  py_path (py_dict_set (PDict kvs) k x) (k1 :: ks) = py_path (PDict kvs) (k1 :: ks).
Proof.
  intros Hne. cbn [py_dict_set py_path py_get]. rewrite assoc_get_set_other by exact Hne.
  reflexivity.
Qed.

Lemma balanced_dict_set kvs x :
  balanced_result (PDict kvs) ->
  balanced_result (py_dict_set (PDict kvs) (K "licenca_sanitaria") x).
Proof.
  unfold balanced_result. rewrite !py_path_dict_set by reflexivity. exact (fun H => H).
Qed.

Lemma safe_id_required_inj n1 n2 :
  In n1 ENEL_REQUIRED_SPREADSHEETS -> In n2 ENEL_REQUIRED_SPREADSHEETS ->
  safe_spreadsheet_id n1 = safe_spreadsheet_id n2 -> n1 = n2.
Proof.
  intros H1 H2 E. unfold ENEL_REQUIRED_SPREADSHEETS in H1, H2. simpl in H1, H2.
  repeat (destruct H1 as [<-|H1]); try contradiction;
  repeat (destruct H2 as [<-|H2]); try contradiction;
  try reflexivity; vm_compute in E; discriminate.
Qed.

Lemma safe_id_required_no_dot n :
  In n ENEL_REQUIRED_SPREADSHEETS -> ~ In 46 (safe_spreadsheet_id n).
Proof.
  intros H. assert (G : existsb (Z.eqb 46) (safe_spreadsheet_id n) = false).
  { unfold ENEL_REQUIRED_SPREADSHEETS in H. simpl in H.
    repeat (destruct H as [<-|H]; [vm_compute; reflexivity|]); contradiction. }
  intros C. assert (existsb (Z.eqb 46) (safe_spreadsheet_id n) = true)
    by (apply existsb_exists; exists 46; split; [exact C | reflexivity]).
  congruence.
Qed.

Lemma app_dot_suffix_cancel a b e1 e2 :
  ~ In 46 a -> ~ In 46 b -> dot_suffix e1 -> dot_suffix e2 -> a ++ e1 = b ++ e2 -> a = b.
Proof.
  revert b; induction a as [|x a IH]; intros b Ha Hb H1 H2 E; destruct b as [|y b].
  - reflexivity.
  - exfalso. cbn [app] in E. destruct H1 as [->|[t ->]]; [discriminate|].
    injection E as <- _. apply Hb; left; reflexivity.
  - exfalso. cbn [app] in E. destruct H2 as [->|[t ->]]; [discriminate|].
    injection E as Ex _. apply Ha; left; exact Ex.
  - cbn [app] in E. injection E as <- E. f_equal.
    apply IH; [intros C; apply Ha; right; exact C | intros C; apply Hb; right; exact C
              | exact H1 | exact H2 | exact E].
Qed.

Lemma upload_plan_accepted lower sf ps has_file filename form_name p :
  (forall s, dot_suffix (ps s)) ->
  upload_plan lower sf ps has_file filename form_name = Ok (UploadTo p) ->
  has_file = true /\ allowed_file lower filename = Ok true /\
  In (form_spreadsheet_name form_name) ENEL_REQUIRED_SPREADSHEETS /\
  exists e, dot_suffix e /\
    p = zs "ENEL_" ++ safe_spreadsheet_id (form_spreadsheet_name form_name) ++ e.
Proof.
  intros Hs H. unfold upload_plan in H. fold (form_spreadsheet_name form_name) in H.
  destruct has_file; cbn [negb] in H; [|discriminate].
  destruct (is_empty filename); [discriminate|].
  destruct (allowed_file lower filename) as [[|]|x]; cbn [bind negb] in H; try discriminate.
  destruct (is_empty (form_spreadsheet_name form_name)); [discriminate|].
  destruct (mem (form_spreadsheet_name form_name) ENEL_REQUIRED_SPREADSHEETS) eqn:Hm;
    cbn [negb] in H; [|discriminate].
  injection H as <-. split; [reflexivity|]. split; [reflexivity|].
  split; [apply mem_In; exact Hm|].
  eexists; split; [|reflexivity].
  destruct (existsb (Z.eqb 46) (sf filename)); [apply Hs | right; eexists; reflexivity].
Qed.

Lemma request_years_default_spec py_int years_param start_arg end_arg now_year :
  is_empty years_param = true ->
  let a := int_or start_arg 2024 in
  let b := int_or end_arg now_year in
  let ys := request_years py_int years_param start_arg end_arg now_year in
  NoDup ys /\
  (a <= b -> forall y, In y ys <-> a <= y <= b) /\
  (b < a -> ys = [2024; 2025]).
Proof.
  intros He a b ys. subst ys. unfold request_years. rewrite He; cbn [negb].
  fold a b. destruct (Z_lt_le_dec b a) as [Hlt|Hle].
  - rewrite py_range_nil by lia. cbn [is_nil].
    split; [|split; [lia | reflexivity]].
    constructor; [simpl; intros [H|[]]; discriminate|].
    constructor; [intros []|constructor].
  - assert (Hn : is_nil (py_range a (b + 1)) = false).
    { destruct (py_range a (b + 1)) eqn:E; [|reflexivity].
      assert (In a (py_range a (b + 1))) by (apply py_range_In; lia).
      rewrite E in H; destruct H. }
    rewrite Hn. split; [apply py_range_NoDup|]. split; [|lia].
    intros _ y. rewrite py_range_In. lia.
Qed.

Lemma process_balanced lower py_int data status_column years v :
  NoDup years ->
  process_enel_legalizacao_data lower py_int data status_column years = Ok v ->
  balanced_result v.
Proof.
  intros Hnd H. unfold process_enel_legalizacao_data in H; cbv zeta in H.
  destruct (is_nil (headers data) || is_nil (values data)).
  { injection H as <-. rewrite <- (app_nil_r (empty_fields years)).
    apply empty_fields_balanced; exact Hnd. }
  destruct (find_status_column lower status_column (headers data)) as [s|].
  2:{ injection H as <-. apply empty_fields_balanced; exact Hnd. }
  destruct (find_year_column lower (headers data)) as [y|].
  2:{ injection H as <-. apply empty_fields_balanced; exact Hnd. }
  destruct (count_rows lower py_int s y years (init_acc years) (values data)) as [st|] eqn:Hr;
    cbn [bind] in H; [|discriminate].
  destruct (separate years (counts st) (zero_ycount years) []) as [cs|] eqn:Hsep;
    cbn [bind] in H; [|discriminate].
  destruct (sum_subcats years (snd cs) (zero_ycount years)) as [em|] eqn:Hsum;
    cbn [bind] in H; [|discriminate].
  destruct (percentages (total_all st) (fst cs) em (snd cs)) as [[conc em'] subs] eqn:Hp.
  injection H as <-.
  destruct (count_rows_sums lower years Hnd py_int s y (values data) _ _
              (init_acc_sums years Hnd) Hr) as [T1 [T2 Ti]].
  destruct cs as [conc0 subs0]; cbn [fst snd] in *.
  destruct (separate_sums years Hnd (counts st) _ _ conc0 subs0
              (zero_ycount_ok years Hnd) (Forall_nil _) Ti Hsep) as [Hc Hs].
  pose proof (sum_subcats_sums years Hnd subs0 _ em (zero_ycount_ok years Hnd) Hs Hsum) as He.
  destruct (percentages_ok _ _ _ _ _ _ _ _ Hc He Hs Hp) as [[_ C2] [[_ E2] Hs']].
  split; [|split; [|split]]; eexists; (split; [reflexivity|]).
  - apply ycount_balanced; exact T2.
  - apply ycount_balanced; exact C2.
  - apply ycount_balanced; exact E2.
  - apply Forall_map. eapply Forall_impl; [|exact Hs'].
    intros c [_ S2]; apply subcat_balanced; exact S2.
Qed.

(** * The properties of the specification *)

(** C1 (amended): for every input, [process_enel_legalizacao_data] returns
    a dict whose [total_demandado.total] is [concluidos.total +
    em_andamento.total.total]; it has no [cancelados] bucket. *)
Theorem process_total_split lower py_int data status_column years :
  exists v, process_enel_legalizacao_data lower py_int data status_column years = Ok v /\
  py_path v ["cancelados"]%string = None /\
  exists td c e,
    total_at v ["total_demandado"]%string = Some td /\
    total_at v ["concluidos"]%string = Some c /\
    total_at v ["em_andamento"; "total"]%string = Some e /\
    td = c + e.
Proof.
  destruct (process_branches lower py_int data status_column years)
    as [v [Hp [[extra [-> Hx]] | [s [y [Hh [Hv [Hs Hy]]]]]]]].
  - exists (PDict (empty_fields years ++ extra)). split; [exact Hp|].
    split.
    { change (py_path (PDict (empty_fields years ++ extra)) ["cancelados"]%string) with
        (match assoc_get (empty_fields years ++ extra) (K "cancelados") with
         | Some v' => Some v' | None => None end).
      rewrite assoc_get_app.
      replace (assoc_get (empty_fields years) (K "cancelados")) with (@None pyval)
        by reflexivity.
      rewrite Hx; reflexivity. }
    exists 0, 0, 0. repeat split; reflexivity.
  - destruct (process_counted lower py_int data status_column years s y Hh Hv Hs Hy)
      as [v' [Hp' HE]].
    rewrite Hp in Hp'; injection Hp' as <-. cbv zeta in HE.
    destruct HE as [Ht [Hc [He [_ Hcan]]]].
    exists v. split; [exact Hp|]. split; [exact Hcan|].
    do 3 eexists. split; [exact Ht|]. split; [exact Hc|]. split; [exact He|].
    symmetry; apply count_status_split.
Qed.

(** X1: when the requested years are pairwise different, every returned
    bucket (total_demandado, concluidos, em_andamento.total) and every
    subcategory has per-year counts that add up to its total. *)
Theorem process_buckets_balanced lower py_int data status_column years v :
  NoDup years ->
  process_enel_legalizacao_data lower py_int data status_column years = Ok v ->
  balanced_result v.
Proof. exact (process_balanced lower py_int data status_column years v). Qed.

(** X2: [parse_status_data] (src/api/spreadsheet_files.py) fails exactly
    when there are headers and rows and the status column is not among the
    headers, and then with [ValueError] "Coluna '<status_column>' não
    encontrada"; otherwise it returns normally, whatever the row contents. *)
Theorem parse_status_data_error py_int py_float data status_column years cfg e :
  parse_status_data py_int py_float data status_column years cfg = Err e <->
  headers data <> [] /\ values data <> [] /\ ~ In status_column (headers data) /\
  e = ValueError (not_found_msg status_column).
Proof.
  unfold parse_status_data; cbv zeta.
  destruct (is_nil (headers data)) eqn:Hh.
  { split; [discriminate|]. intros [H _]. destruct (headers data); [contradiction H; reflexivity | discriminate]. }
  destruct (is_nil (values data)) eqn:Hv.
  { split; [discriminate|]. intros [_ [H _]]. destruct (values data); [contradiction H; reflexivity | discriminate]. }
  cbn [orb].
  destruct (index_of status_column (headers data)) as [idx|] eqn:Hi.
  - split.
    + destruct (tally_rows_ok py_int py_float years (include_blank cfg) idx
                  (year_col_indices (headers data)
                     (sget_default (columns cfg) (zs "year_prefix") (zs "Acionados em")) years)
                  (index_of (sget_default (columns cfg) (zs "total_column") (zs "TOTAL")) (headers data))
                  (index_of (sget_default (columns cfg) (zs "percentage_column") (zs "Percentual")) (headers data))
                  (values data) [] ltac:(intros k t [])) as [sc Hsc].
      rewrite Hsc; cbn [bind]. destruct (split_main_other cfg sc [] []); discriminate.
    + intros [_ [_ [H _]]]. exfalso; exact (H (index_of_In _ _ _ Hi)).
  - split.
    + intros He; injection He as <-. apply index_of_None in Hi.
      split; [apply is_nil_false; exact Hh|]. split; [apply is_nil_false; exact Hv|]. auto.
    + intros [_ [_ [_ ->]]]; reflexivity.
Qed.

(** X3: when the requested years are pairwise different, a status value
    tallied from the rows and configured as main (otherwise as other) has an
    entry in [main_statuses] (otherwise [other_statuses]) whose [total] is
    the TOTAL cell of the last of its rows with a parsable TOTAL cell (0 if
    none) and whose [years[yr]] is the sum of its cells in the column
    '<year_prefix> <yr>' (cells that do not parse count 0). *)
Theorem parse_status_data_figures py_int py_float data status_column years cfg v idx sv :
  NoDup years ->
  parse_status_data py_int py_float data status_column years cfg = Ok v ->
  index_of status_column (headers data) = Some idx ->
  In sv (tallied_values idx (include_blank cfg) (values data)) ->
  (In sv (map sheet_value (main_statuses cfg)) ->
     status_figures py_int idx (include_blank cfg) cfg (headers data) years (values data)
       v "main_statuses" sv) /\
  (~ In sv (map sheet_value (main_statuses cfg)) ->
   In sv (map sheet_value (other_statuses cfg)) ->
     status_figures py_int idx (include_blank cfg) cfg (headers data) years (values data)
       v "other_statuses" sv).
Proof.
  intros Hnd H Hidx Htv.
  unfold parse_status_data in H; cbv zeta in H. rewrite Hidx in H.
  destruct (is_nil (headers data) || is_nil (values data)) eqn:Hnil.
  { exfalso. apply orb_true_iff in Hnil as [Hn|Hn].
    - destruct (headers data); [discriminate Hidx | discriminate Hn].
    - destruct (values data); [exact Htv | discriminate Hn]. }
  set (yci := year_col_indices (headers data)
                (sget_default (columns cfg) (zs "year_prefix") (zs "Acionados em")) years) in H.
  set (ti := index_of (sget_default (columns cfg) (zs "total_column") (zs "TOTAL")) (headers data)) in H.
  set (pi := index_of (sget_default (columns cfg) (zs "percentage_column") (zs "Percentual")) (headers data)) in H.
  destruct (tally_rows py_int py_float years (include_blank cfg) idx yci ti pi [] (values data))
    as [sc|] eqn:Hsc; cbn [bind] in H; [|discriminate].
  destruct (split_main_other cfg sc [] []) as [mains others] eqn:Hsplit.
  injection H as <-.
  assert (Hk : mem sv (map fst sc) = true).
  { rewrite (tally_rows_keys _ _ _ _ _ _ _ _ _ _ _ Hsc). simpl.
    apply mem_In; exact Htv. }
  destruct (mem_keys_sget _ _ Hk) as [t Ht].
  pose proof (tally_rows_inv py_int py_float years (include_blank cfg) idx yci ti pi
                (values data) [] [] sc sv Hnd ltac:(intros k t' []) Hsc
                (tally_inv_nil _ _ _ _ _ _ _)) as Hinv.
  unfold tally_inv in Hinv. rewrite Ht in Hinv. destruct Hinv as [I1 I2].
  assert (Hyc : forall yr, In yr years -> ycol yci yr = year_col cfg (headers data) yr).
  { intros yr Hin. unfold ycol, yci. rewrite year_col_indices_get by exact Hin. reflexivity. }
  assert (I1' : forall yr, In yr years -> yd_get (t_years t) yr =
      Ok (status_year_sum py_int idx (include_blank cfg) (year_col cfg (headers data) yr) sv (values data))).
  { intros yr Hin. rewrite <- Hyc by exact Hin. exact (I1 yr Hin). }
  destruct (split_find cfg sc [] [] sv t Ht) as [F1 F2]. rewrite Hsplit in F1, F2.
  simpl in F1, F2.
  split.
  - intros Hm. apply in_map_iff in Hm as [c [Hc Hcin]].
    assert (Hm' : mem sv (map sheet_value (main_statuses cfg)) = true).
    { apply mem_In. apply in_map_iff. exists c; split; assumption. }
    specialize (F1 Hm' eq_refl).
    destruct (status_row_figures (main_statuses cfg) sv t _ years _ I2 I1') as [R1 [R2 R3]].
    exists (map status_row_to_py (order_by_config (main_statuses cfg) mains)),
           (status_row_to_py (mk_status_row (main_statuses cfg) sv t)).
    split; [reflexivity|]. split.
    { apply in_map. apply (order_by_config_In _ _ c); [exact Hcin|]. rewrite Hc; exact F1. }
    split; [exact R1|]. split; [exact R2 | exact R3].
  - intros Hnm Ho. apply in_map_iff in Ho as [c [Hc Hcin]].
    assert (Hm' : mem sv (map sheet_value (main_statuses cfg)) = false).
    { destruct (mem sv (map sheet_value (main_statuses cfg))) eqn:E; [|reflexivity].
      exfalso; apply Hnm; apply mem_In; exact E. }
    assert (Ho' : mem sv (map sheet_value (other_statuses cfg)) = true).
    { apply mem_In. apply in_map_iff. exists c; split; assumption. }
    specialize (F2 Hm' Ho' eq_refl).
    destruct (status_row_figures (other_statuses cfg) sv t _ years _ I2 I1') as [R1 [R2 R3]].
    exists (map status_row_to_py (order_by_config (other_statuses cfg) others)),
           (status_row_to_py (mk_status_row (other_statuses cfg) sv t)).
    split; [reflexivity|]. split.
    { apply in_map. apply (order_by_config_In _ _ c); [exact Hcin|]. rewrite Hc; exact F2. }
    split; [exact R1|]. split; [exact R2 | exact R3].
Qed.

(** X4: the [parse_status_data] of src/api/google_sheets.py returns the same
    as the one of src/api/spreadsheet_files.py when every year and TOTAL cell
    is unchanged by the file reader's clean-up (strip, drop ',' and '.') and
    every non-empty Percentual cell is not blank once '%' is removed. *)
Theorem gs_parse_status_data_agrees py_int py_float data status_column years cfg :
  (forall row yr ci, In row (values data) -> In yr years ->
     year_col cfg (headers data) yr = Some ci -> plain_int_cell (nth ci row [])) ->
  (forall row ci, In row (values data) -> total_col cfg (headers data) = Some ci ->
     plain_int_cell (nth ci row [])) ->
  (forall row ci, In row (values data) -> pct_col cfg (headers data) = Some ci ->
     is_empty (nth ci row []) = false -> pct_cell_nonblank (nth ci row [])) ->
  gs_parse_status_data py_int py_float data status_column years cfg =
  parse_status_data py_int py_float data status_column years cfg.
Proof.
  intros Hy Ht Hp. unfold gs_parse_status_data, parse_status_data. cbv zeta.
  destruct (is_nil (headers data) || is_nil (values data)); [reflexivity|].
  destruct (index_of status_column (headers data)) as [idx|]; [|reflexivity].
  rewrite gs_tally_rows_agree; [reflexivity| | |].
  - intros row Hr yr ci Hyr E. rewrite year_col_indices_get in E by exact Hyr.
    injection E as E. exact (Hy row yr ci Hr Hyr E).
  - intros row Hr c E. exact (Ht row c Hr E).
  - intros row Hr c E. exact (Hp row c Hr E).
Qed.

(** X5: [allowed_file] never raises, and accepts a file name exactly when it
    has a '.' and the text after its last '.', lowercased, is 'xlsx', 'xls'
    or 'csv'. *)
Theorem allowed_file_spec lower filename :
  (exists b, allowed_file lower filename = Ok b) /\
  (allowed_file lower filename = Ok true <->
   exists base ext, filename = base ++ [46] ++ ext /\ ~ In 46 ext /\
                    In (lower ext) ALLOWED_EXTENSIONS).
Proof.
  unfold allowed_file, rsplit1.
  destruct (existsb (Z.eqb 46) filename) eqn:Hd.
  - apply existsb_exists in Hd as [x [Hx Ex]]. apply Z.eqb_eq in Ex; subst x.
    destruct (rfind 46 filename) as [i|] eqn:Hr.
    2:{ exfalso. assert (G : forall s, rfind 46 s = None -> ~ In 46 s).
        { clear. induction s as [|y s IH]; simpl; [auto|].
          destruct (rfind 46 s); [discriminate|]. destruct (y =? 46) eqn:E; [discriminate|].
          intros _ [->|C]; [discriminate | exact (IH eq_refl C)]. }
        exact (G _ Hr Hx). }
    destruct (rfind_Some _ _ _ Hr) as [H1 H2].
    unfold py_index; cbn [nth_error bind]. split; [eexists; reflexivity|]. split.
    + intros H; injection H as Hm. exists (firstn i filename), (skipn (S i) filename).
      split; [exact H1|]. split; [exact H2|]. apply mem_In; exact Hm.
    + intros [base [ext [Hf [Hn Hin]]]]. rewrite Hf in Hr. rewrite rfind_app in Hr by exact Hn.
      injection Hr as <-. rewrite Hf.
      replace (skipn (S (List.length base)) (base ++ [46] ++ ext)) with ext.
      * apply mem_In in Hin. rewrite Hin; reflexivity.
      * clear. induction base as [|x b IH]; simpl; [reflexivity|]. exact IH.
  - split; [eexists; reflexivity|]. split; [discriminate|].
    intros [base [ext [Hf _]]]. exfalso.
    assert (Hin : In 46 filename) by (rewrite Hf; apply in_or_app; right; left; reflexivity).
    assert (existsb (Z.eqb 46) filename = true)
      by (apply existsb_exists; exists 46; split; [exact Hin | reflexivity]).
    congruence.
Qed.

(** X6: with no [years] parameter, the year list of
    [get_enel_spreadsheet_data] has no duplicates; it is the years from
    [report_year_start] (default 2024) to [report_year_end] (default the
    current year) when they are in order, and [2024, 2025] otherwise. *)
Theorem request_years_default_range py_int years_param start_arg end_arg now_year :
  is_empty years_param = true ->
  let a := int_or start_arg 2024 in
  let b := int_or end_arg now_year in
  let ys := request_years py_int years_param start_arg end_arg now_year in
  NoDup ys /\
  (a <= b -> forall y, In y ys <-> a <= y <= b) /\
  (b < a -> ys = [2024; 2025]).
Proof. exact (request_years_default_spec py_int years_param start_arg end_arg now_year). Qed.

(** X7: the file-name id built from a spreadsheet name has no ' ', '/' or
    '\\', has the name's length, and tells the six required spreadsheet
    names apart. *)
Theorem safe_spreadsheet_id_separates name n1 n2 :
  ~ In 32 (safe_spreadsheet_id name) /\ ~ In 47 (safe_spreadsheet_id name) /\
  ~ In 92 (safe_spreadsheet_id name) /\
  List.length (safe_spreadsheet_id name) = List.length name /\
  (In n1 ENEL_REQUIRED_SPREADSHEETS -> In n2 ENEL_REQUIRED_SPREADSHEETS ->
   safe_spreadsheet_id n1 = safe_spreadsheet_id n2 -> n1 = n2).
Proof.
  assert (Hc : forall x, In x (safe_spreadsheet_id name) -> x <> 32 /\ x <> 47 /\ x <> 92).
  { intros x H. unfold safe_spreadsheet_id in H.
    repeat (apply replace_char_In in H as [[? H]|H];
            [|simpl in H; destruct H as [<-|[]]; repeat split; discriminate]).
    repeat split; assumption. }
  split; [intros H; destruct (Hc _ H) as [? _]; auto|].
  split; [intros H; destruct (Hc _ H) as [_ [? _]]; auto|].
  split; [intros H; destruct (Hc _ H) as [_ [_ ?]]; auto|].
  split; [unfold safe_spreadsheet_id; rewrite !replace_char_length; reflexivity|].
  intros H1 H2 E. unfold ENEL_REQUIRED_SPREADSHEETS in H1, H2.
  simpl in H1, H2.
  repeat (destruct H1 as [<-|H1]); try contradiction;
  repeat (destruct H2 as [<-|H2]); try contradiction;
  try reflexivity; vm_compute in E; discriminate.
Qed.

(** X8: [list_enel_spreadsheets] lists the six required names in order; an
    entry is marked uploaded exactly when some selected row has its name, and
    its [file_name] and [uploaded_at] come from the last such row (None
    otherwise). *)
Theorem list_enel_spreadsheets_spec rows :
  exists l, list_enel_spreadsheets rows = Ok l /\
    map l_spreadsheet_name l = ENEL_REQUIRED_SPREADSHEETS /\
    forall e, In e l ->
      (l_is_uploaded e = true <->
         exists r, In r rows /\ r_spreadsheet_name r = l_spreadsheet_name e) /\
      l_file_name e = option_map r_file_name (last_row_named rows (l_spreadsheet_name e)) /\
      l_uploaded_at e =
        match last_row_named rows (l_spreadsheet_name e) with
        | Some r => r_uploaded_at r | None => None end.
Proof.
  unfold list_enel_spreadsheets. generalize ENEL_REQUIRED_SPREADSHEETS as names.
  induction names as [|n t IH]; cbn [list_entries].
  - exists []. split; [reflexivity|]. split; [reflexivity | intros _ []].
  - destruct IH as [l [Hl [Hm He]]].
    assert (Hn : exists e, listed_entry (uploaded_by_name rows) n = Ok e /\ l_spreadsheet_name e = n /\
      (l_is_uploaded e = true <-> exists r, In r rows /\ r_spreadsheet_name r = n) /\
      l_file_name e = option_map r_file_name (last_row_named rows n) /\
      l_uploaded_at e = match last_row_named rows n with Some r => r_uploaded_at r | None => None end).
    { unfold listed_entry. pose proof (uploaded_by_name_get rows n) as G.
      destruct (last_row_named rows n) as [r|] eqn:Hlr; cbn [opt_res] in G.
      - rewrite (sget_smem _ _ _ G), G. cbn [bind].
        eexists; split; [reflexivity|]. cbn.
        split; [reflexivity|]. split; [|split; reflexivity].
        split; [intros _; exists r; exact (last_row_named_Some _ _ _ Hlr) | reflexivity].
      - destruct (smem n (uploaded_by_name rows)) eqn:Hs.
        { destruct (smem_sget _ _ Hs) as [v Hv]. congruence. }
        eexists; split; [reflexivity|]. cbn.
        split; [reflexivity|]. split; [|split; reflexivity].
        split; [discriminate|]. intros [r [Hr Hrn]].
        exact (False_ind _ (last_row_named_None _ _ _ Hlr Hr Hrn)). }
    destruct Hn as [e [He1 [He2 He3]]]. rewrite He1. cbn [bind]. rewrite Hl. cbn [bind].
    exists (e :: l). split; [reflexivity|]. split; [cbn [map]; rewrite He2, Hm; reflexivity|].
    intros e' [<-|Hin]; [rewrite He2; exact He3 | exact (He e' Hin)].
Qed.

(** X9: in [get_enel_spreadsheet_data] both calls of the aggregator succeed,
    so the empty [licenca_sanitaria] fallback and the "column not found"
    [ValueError] branch are never taken: the response is the aggregator's
    dict with [licenca_sanitaria] set to the second aggregator result. *)
Theorem enel_processed_data_no_fallback lower py_int sheet status_column years :
  exists pd ls,
    process_enel_legalizacao_data lower py_int sheet status_column years = Ok pd /\
    process_enel_legalizacao_data lower py_int sheet licenca_status_column years = Ok ls /\
    enel_processed_data lower py_int sheet status_column years =
      Ok (py_dict_set pd (K "licenca_sanitaria") ls) /\
    py_get (py_dict_set pd (K "licenca_sanitaria") ls) (K "licenca_sanitaria") = Some ls.
Proof.
  destruct (process_dict lower py_int sheet status_column years) as [kvs Hp].
  destruct (process_dict lower py_int sheet licenca_status_column years) as [kvs' Hl].
  exists (PDict kvs), (PDict kvs'). split; [exact Hp|]. split; [exact Hl|].
  split; [unfold enel_processed_data; rewrite Hp, Hl; reflexivity|].
  cbn [py_dict_set py_get]. apply assoc_get_set_same. reflexivity.
Qed.

(** X10: with no [years] parameter, every bucket of the response of
    [get_enel_spreadsheet_data], and of its [licenca_sanitaria] part, has
    per-year counts adding up to its total. *)
Theorem enel_default_years_balanced lower py_int sheet status_column years_param
  start_arg end_arg now_year r :
  is_empty years_param = true ->
  enel_processed_data lower py_int sheet status_column
    (request_years py_int years_param start_arg end_arg now_year) = Ok r ->
  balanced_result r /\
  exists ls, py_get r (K "licenca_sanitaria") = Some ls /\ balanced_result ls.
Proof.
  intros He Hr.
  set (years := request_years py_int years_param start_arg end_arg now_year) in *.
  assert (Hnd : NoDup years) by exact (proj1 (request_years_default_spec py_int _ _ _ _ He)).
  destruct (process_dict lower py_int sheet status_column years) as [kvs Hp].
  destruct (process_dict lower py_int sheet licenca_status_column years) as [kvs' Hl].
  unfold enel_processed_data in Hr. rewrite Hp, Hl in Hr. injection Hr as <-.
  split.
  - apply balanced_dict_set. exact (process_balanced lower py_int sheet _ _ _ Hnd Hp).
  - exists (PDict kvs'). split.
    + cbn [py_dict_set py_get]. apply assoc_get_set_same. reflexivity.
    + exact (process_balanced lower py_int sheet _ _ _ Hnd Hl).
Qed.

(** X11: an upload accepted by [upload_enel_spreadsheet] has an allowed file
    name and a required spreadsheet name, and two accepted uploads with the
    same target file name were filed under the same spreadsheet name (given
    that [Path.suffix] is empty or starts with '.'). *)
Theorem upload_target_distinct lower sf ps h1 h2 f1 f2 n1 n2 p :
  (forall s, dot_suffix (ps s)) ->
  upload_plan lower sf ps h1 f1 n1 = Ok (UploadTo p) ->
  upload_plan lower sf ps h2 f2 n2 = Ok (UploadTo p) ->
  allowed_file lower f1 = Ok true /\
  In (form_spreadsheet_name n1) ENEL_REQUIRED_SPREADSHEETS /\
  form_spreadsheet_name n1 = form_spreadsheet_name n2.
Proof.
  intros Hs H1 H2.
  destruct (upload_plan_accepted _ _ _ _ _ _ _ Hs H1) as [_ [A1 [I1 [e1 [D1 P1]]]]].
  destruct (upload_plan_accepted _ _ _ _ _ _ _ Hs H2) as [_ [_ [I2 [e2 [D2 P2]]]]].
  split; [exact A1|]. split; [exact I1|].
  apply safe_id_required_inj; [exact I1 | exact I2|].
  rewrite P1 in P2. apply app_inv_head in P2.
  exact (app_dot_suffix_cancel _ _ _ _ (safe_id_required_no_dot _ I1)
           (safe_id_required_no_dot _ I2) D1 D2 P2).
Qed.


(** C6: for an empty dataset (no headers or no rows) the result has
    [total_demandado.percentage = 100.0], the other two percentages [0.0],
    a count of 0 for each requested year in each bucket, and an empty
    [em_andamento.subcategorias]. *)
Theorem process_empty_dataset lower py_int data status_column years :
  headers data = [] \/ values data = [] ->
  exists v, process_enel_legalizacao_data lower py_int data status_column years = Ok v /\
  py_path v ["total_demandado"; "percentage"]%string = Some (PFloat 100.0%float) /\
  py_path v ["concluidos"; "percentage"]%string = Some (PFloat 0.0%float) /\
  py_path v ["em_andamento"; "total"; "percentage"]%string = Some (PFloat 0.0%float) /\
  py_path v ["em_andamento"; "subcategorias"]%string = Some (PList []) /\
  (forall yr, In yr years ->
     year_at v ["total_demandado"]%string yr = Some (PInt 0) /\
     year_at v ["concluidos"]%string yr = Some (PInt 0) /\
     year_at v ["em_andamento"; "total"]%string yr = Some (PInt 0)).
Proof.
  intros Hempty. exists (PDict (empty_fields years)). split.
  { unfold process_enel_legalizacao_data; cbv zeta.
    destruct Hempty as [H | H]; rewrite H; [reflexivity|].
    rewrite orb_true_r; reflexivity. }
  split; [reflexivity|]. split; [reflexivity|]. split; [reflexivity|].
  split; [reflexivity|].
  intros yr Hin. unfold year_at.
  replace (py_path (PDict (empty_fields years)) (["total_demandado"%string] ++ ["years"%string]))
    with (Some (ydict_to_py (zero_years years))) by reflexivity.
  replace (py_path (PDict (empty_fields years)) (["concluidos"%string] ++ ["years"%string]))
    with (Some (ydict_to_py (zero_years years))) by reflexivity.
  replace (py_path (PDict (empty_fields years)) (["em_andamento"%string; "total"%string] ++ ["years"%string]))
    with (Some (ydict_to_py (zero_years years))) by reflexivity.
  rewrite ydict_to_py_get, zero_years_get by exact Hin.
  repeat split; reflexivity.
Qed.

(** C7: the status column is the first header equal to the requested name
    once both are stripped and lowercased, and none is found exactly when no
    header is equal in that sense (so header [" Status "] resolves for
    ["status"]); the year column is found the same way with the name
    ['ano Acionamento']. *)
Theorem find_status_column_exact lower status_column hs n :
  (find_status_column lower status_column hs = Some n <->
     (exists h, nth_error hs n = Some h /\ lower (strip h) = lower (strip status_column)) /\
     (forall j h, (j < n)%nat -> nth_error hs j = Some h ->
        lower (strip h) <> lower (strip status_column))) /\
  (find_status_column lower status_column hs = None <->
     (forall h, In h hs -> lower (strip h) <> lower (strip status_column))) /\
  find_year_column lower hs = find_status_column lower year_column_name hs /\
  find_status_column py_lower (zs "status") [zs " Status "] = Some O.
Proof.
  split; [|split; [|split]].
  - unfold find_status_column. rewrite find_column_from_some, Nat.sub_0_r.
    split; [intros [_ H]; exact H | intros H; split; [lia | exact H]].
  - apply find_column_from_none.
  - reflexivity.
  - reflexivity.
Qed.

(** C9: [process_enel_legalizacao_data] never raises (in particular no
    [IndexError] on a ragged row), reading one row never raises, and a row
    whose length does not exceed the larger of the two column indices leaves
    the loop state unchanged. *)
Theorem process_ragged_rows lower py_int data status_column years :
  (exists v, process_enel_legalizacao_data lower py_int data status_column years = Ok v) /\
  (forall s y row, exists o, read_row py_int s y years row = Ok o) /\
  (forall s y st row, (List.length row <= Nat.max s y)%nat ->
     step lower py_int s y years st row = Ok st).
Proof.
  split; [|split].
  - destruct (process_branches lower py_int data status_column years) as [v [Hp _]].
    exists v; exact Hp.
  - intros s y row. destruct (read_row_ok py_int years s y row) as [o [Ho _]].
    exists o; exact Ho.
  - intros s y st row Hlen. unfold step.
    rewrite (read_row_short py_int years s y row Hlen). reflexivity.
Qed.

(** C3 (amended): on the main path, with [E] the rows that are counted,
    [concluidos.total] is the number of rows of [E] whose normalized status
    contains ['concluído'] and [em_andamento.total.total] the number of the
    others; the subcategories are one per distinct normalized status of the
    others, with pairwise different keys, each named by the stripped status
    text of the first row of [E] with that normalized status, each with the
    number of rows of [E] with that normalized status as its total. *)
Theorem process_classifies lower py_int data status_column years s y :
  headers data <> [] -> values data <> [] ->
  find_status_column lower status_column (headers data) = Some s ->
  find_year_column lower (headers data) = Some y ->
  exists v, process_enel_legalizacao_data lower py_int data status_column years = Ok v /\
  let E := counted_rows py_int s y years (values data) in
  let Q := filter (fun q => not_concluded (fst q)) (first_occurrences lower E) in
  total_at v ["total_demandado"]%string = Some (Z.of_nat (List.length E)) /\
  total_at v ["concluidos"]%string = Some (Z.of_nat (count_status lower is_concluded E)) /\
  total_at v ["em_andamento"; "total"]%string =
    Some (Z.of_nat (count_status lower not_concluded E)) /\
  subcat_summary v =
    Some (map (fun q => (snd q, Z.of_nat (count_status lower (str_eqb (fst q)) E))) Q) /\
  NoDup (map fst Q) /\
  (forall e, In e E -> not_concluded (normalize_status lower (fst e)) = true ->
     exists q, In q Q /\ fst q = normalize_status lower (fst e)) /\
  (forall q, In q Q ->
     not_concluded (fst q) = true /\
     exists E1 e E2, E = E1 ++ e :: E2 /\ fst q = normalize_status lower (fst e) /\
       snd q = fst e /\ (forall e', In e' E1 -> normalize_status lower (fst e') <> fst q)).
Proof.
  intros Hh Hv Hs Hy.
  destruct (process_counted lower py_int data status_column years s y Hh Hv Hs Hy)
    as [v [Hp HE]].
  exists v; split; [exact Hp|]. cbv zeta in *.
  destruct HE as [Ht [Hc [He [Hsum _]]]].
  split; [exact Ht|]. split; [exact Hc|]. split; [exact He|]. split; [exact Hsum|].
  split; [apply nodup_map_filter, first_occurrences_nodup|]. split.
  - intros e Hin Hnc.
    destruct (fo_complete lower _ e Hin) as [q [Hq Hk]].
    exists q; split; [|exact Hk]. apply filter_In; split; [exact Hq|]. rewrite Hk; exact Hnc.
  - intros q Hq. apply filter_In in Hq as [Hq Hnc]. split; [exact Hnc|].
    apply fo_first; exact Hq.
Qed.

(** C8 (amended): the subcategories follow the first occurrences of their
    normalized statuses among the counted rows: when the counted rows are
    [E1 ++ a :: E2 ++ b :: E3], [a] and [b] are not concluded, [a] is the
    first counted row of its normalized status and [b] of its own, the name
    of [a]'s subcategory comes before that of [b]'s. *)
Theorem subcat_first_occurrence_order lower py_int data status_column years s y
  E1 a E2 b E3 :
  headers data <> [] -> values data <> [] ->
  find_status_column lower status_column (headers data) = Some s ->
  find_year_column lower (headers data) = Some y ->
  counted_rows py_int s y years (values data) = E1 ++ a :: E2 ++ b :: E3 ->
  not_concluded (normalize_status lower (fst a)) = true ->
  not_concluded (normalize_status lower (fst b)) = true ->
  (forall e, In e E1 -> normalize_status lower (fst e) <> normalize_status lower (fst a)) ->
  (forall e, In e (E1 ++ a :: E2) ->
     normalize_status lower (fst e) <> normalize_status lower (fst b)) ->
  exists v L1 L2 L3,
    process_enel_legalizacao_data lower py_int data status_column years = Ok v /\
    option_map (map fst) (subcat_summary v) = Some (L1 ++ fst a :: L2 ++ fst b :: L3).
Proof.
  intros Hh Hv Hs Hy HE Ha Hb Hfa Hfb.
  destruct (process_counted lower py_int data status_column years s y Hh Hv Hs Hy)
    as [v [Hp HP]].
  cbv zeta in HP. destruct HP as [_ [_ [_ [Hsum _]]]].
  exists v.
  cut (exists L1 L2 L3,
         option_map (map fst) (subcat_summary v) = Some (L1 ++ fst a :: L2 ++ fst b :: L3)).
  { intros [L1 [L2 [L3 H]]]; exists L1, L2, L3; split; [exact Hp | exact H]. }
  rewrite Hsum, HE. simpl option_map. rewrite summary_names.
  set (P := fun q : pystr * pystr => not_concluded (fst q)).
  replace (E1 ++ a :: E2 ++ b :: E3) with ((((E1 ++ [a]) ++ E2) ++ [b]) ++ E3)
    by (rewrite <- !app_assoc; reflexivity).
  destruct (fo_prefix lower (((E1 ++ [a]) ++ E2) ++ [b]) E3) as [R3 ->].
  rewrite (fo_new lower ((E1 ++ [a]) ++ E2) b).
  2: { intros e' He'. apply Hfb. rewrite <- app_assoc in He'. exact He'. }
  destruct (fo_prefix lower (E1 ++ [a]) E2) as [R2 ->].
  rewrite (fo_new lower E1 a Hfa).
  rewrite !filter_app, !map_app. simpl filter.
  replace (P (normalize_status lower (fst a), fst a)) with true by (symmetry; exact Ha).
  replace (P (normalize_status lower (fst b), fst b)) with true by (symmetry; exact Hb).
  cbn [map snd].
  exists (map snd (filter P (first_occurrences lower E1))),
    (map snd (filter P R2)), (map snd (filter P R3)).
  f_equal. rewrite <- !app_assoc. reflexivity.
Qed.

(** C4 (amended): a row is counted with year [yr] exactly when it is longer
    than both column indices, its stripped status cell is not empty, its
    stripped year cell is not empty and [int()] of it is [yr], and [yr] is a
    requested year; [int()] does not accept ["2024.0"] (the row is skipped)
    and gives [2024] for ["2024"]. *)
Theorem read_row_int_year py_int s y years row sv yr :
  (read_row py_int s y years row = Ok (Some (sv, yr)) <->
   (Nat.max s y < List.length row)%nat /\
   sv = strip (nth s row []) /\ sv <> [] /\
   strip (nth y row []) <> [] /\
   py_int (strip (nth y row [])) = Some yr /\ In yr years) /\
  py_int_model (zs "2024.0") = None /\
  py_int_model (zs "2024") = Some 2024 /\
  read_row py_int_model 0 1 [2024] [zs "Pendente"; zs "2024.0"] = Ok None.
Proof.
  split; [apply read_row_some|]. split; [reflexivity|]. split; reflexivity.
Qed.

(** C5 (amended): when there are headers and rows, a status column that is
    not found, or else a year column that is not found, gives no exception
    but the dict of the empty dataset followed by ['warning'],
    ['available_columns'] (all the headers) and ['requested_column'] (or
    ['requested_year_column']); with no headers or no rows the result is the
    dict of the empty dataset alone, which has no ['warning'], whatever the
    requested column. *)
Theorem process_missing_column lower py_int data status_column years :
  (headers data <> [] -> values data <> [] ->
   (find_status_column lower status_column (headers data) = None ->
    process_enel_legalizacao_data lower py_int data status_column years =
    Ok (PDict (empty_fields years ++
               [(K "warning", PStr (not_found_msg status_column));
                (K "available_columns", PList (map PStr (headers data)));
                (K "requested_column", PStr status_column)]))) /\
   (forall s, find_status_column lower status_column (headers data) = Some s ->
    find_year_column lower (headers data) = None ->
    process_enel_legalizacao_data lower py_int data status_column years =
    Ok (PDict (empty_fields years ++
               [(K "warning", PStr (not_found_msg year_column_name));
                (K "available_columns", PList (map PStr (headers data)));
                (K "requested_year_column", PStr year_column_name)])))) /\
  (headers data = [] \/ values data = [] ->
   process_enel_legalizacao_data lower py_int data status_column years =
   Ok (PDict (empty_fields years)) /\
   py_get (PDict (empty_fields years)) (K "warning") = None).
Proof.
  split.
  - intros Hh Hv.
    assert (Hn : is_nil (headers data) || is_nil (values data) = false).
    { destruct (headers data); [contradiction|]. destruct (values data); [contradiction|].
      reflexivity. }
    split.
    + intros Hs. unfold process_enel_legalizacao_data; cbv zeta. rewrite Hn, Hs. reflexivity.
    + intros s Hs Hy. unfold process_enel_legalizacao_data; cbv zeta.
      rewrite Hn, Hs, Hy. reflexivity.
  - intros Hnil.
    assert (Hn : is_nil (headers data) || is_nil (values data) = true).
    { destruct Hnil as [-> | ->]; [reflexivity | apply orb_true_r]. }
    split.
    + unfold process_enel_legalizacao_data; cbv zeta. rewrite Hn. reflexivity.
    + reflexivity.
Qed.

(** C2: with the year 2024 requested twice, one concluded row of 2024 is
    added twice to [concluidos.years[2024]] and one other row twice to
    [em_andamento.total.years[2024]], while both totals are 1. *)
Theorem duplicate_years_double_count :
  exists v, process dup_data (zs "Status") [2024; 2024] = Ok v /\
  year_at v ["concluidos"]%string 2024 = Some (PInt 2) /\
  total_at v ["concluidos"]%string = Some 1 /\
  year_at v ["em_andamento"; "total"]%string 2024 = Some (PInt 2) /\
  total_at v ["em_andamento"; "total"]%string = Some 1 /\
  year_at v ["total_demandado"]%string 2024 = Some (PInt 2) /\
  total_at v ["total_demandado"]%string = Some 2.
Proof. eexists; split; [reflexivity|]. repeat split; reflexivity. Qed.

(** C1, counterexample: the result on three example rows (two concluded)
    has no [cancelados] bucket. *)
Lemma no_cancelados_bucket :
  exists v, process scenario (zs "Status") [2024; 2025] = Ok v /\
  total_at v ["cancelados"]%string = None /\
  total_at v ["total_demandado"]%string = Some 3 /\
  total_at v ["concluidos"]%string = Some 2 /\
  total_at v ["em_andamento"; "total"]%string = Some 1.
Proof. eexists; split; [reflexivity|]. repeat split; reflexivity. Qed.

(** C3, witness: the hypotheses hold on three example rows (two concluded),
    whose two concluded rows are counted in [concluidos] and whose other row
    is the one subcategory. *)
Lemma process_classifies_witness :
  headers scenario <> [] /\ values scenario <> [] /\
  find_status_column py_lower (zs "Status") (headers scenario) = Some 0%nat /\
  find_year_column py_lower (headers scenario) = Some 1%nat /\
  exists v, process scenario (zs "Status") [2024; 2025] = Ok v /\
    total_at v ["concluidos"]%string = Some 2 /\
    subcat_summary v = Some [(t_em_analise, 1)].
Proof.
  split; [discriminate|]. split; [discriminate|]. split; [reflexivity|]. split; [reflexivity|].
  destruct (process_classifies py_lower py_int_model scenario (zs "Status") [2024; 2025] 0 1
              ltac:(discriminate) ltac:(discriminate) eq_refl eq_refl) as [v [Hp HE]].
  exists v. split; [exact Hp|]. cbv zeta in HE. destruct HE as [_ [Hc [_ [Hs _]]]].
  rewrite Hc, Hs. split; reflexivity.
Defined.

(** C3, counterexample: of two rows ["Pendente"] and ["PENDENTE"], the
    second is counted in a subcategory named ["Pendente"], not by its own
    text. *)
Lemma subcat_named_by_first_text :
  exists v, process (two_rows (zs "Pendente") (zs "2024") (zs "PENDENTE") (zs "2024"))
              (zs "Status") [2024] = Ok v /\
  subcat_summary v = Some [(zs "Pendente", 2)].
Proof. eexists; split; [reflexivity|]. reflexivity. Qed.

(** C4, counterexample: a row whose year cell is ["2024.0"] is not counted
    although 2024 is requested. *)
Lemma year_cell_with_decimal_skipped :
  exists v, process {| headers := [zs "Status"; zs "ano Acionamento"];
                       values := [[zs "Pendente"; zs "2024.0"]] |}
              (zs "Status") [2024] = Ok v /\
  total_at v ["total_demandado"]%string = Some 0.
Proof. eexists; split; [reflexivity|]. reflexivity. Qed.

(** C5, witness: headers and a row, and a status column ['Situacao'] that
    is not among the headers; then the same headers with no rows, where the
    result is the dict of the empty dataset. *)
Lemma process_missing_column_witness :
  let d := {| headers := [zs "Status"; zs "ano Acionamento"];
              values := [[zs "A"; zs "2024"]] |} in
  let d0 := {| headers := [zs "Status"; zs "ano Acionamento"]; values := [] |} in
  headers d <> [] /\ values d <> [] /\
  find_status_column py_lower (zs "Situacao") (headers d) = None /\
  process d (zs "Situacao") [2024] =
  Ok (PDict (empty_fields [2024] ++
             [(K "warning", PStr (not_found_msg (zs "Situacao")));
              (K "available_columns", PList (map PStr (headers d)));
              (K "requested_column", PStr (zs "Situacao"))])) /\
  process d0 (zs "Situacao") [2024] = Ok (PDict (empty_fields [2024])).
Proof.
  intros d d0. split; [discriminate|]. split; [discriminate|]. split; [reflexivity|].
  split.
  - apply (proj1 (process_missing_column py_lower py_int_model d (zs "Situacao") [2024])
             ltac:(discriminate) ltac:(discriminate)).
    reflexivity.
  - exact (proj1 (proj2 (process_missing_column py_lower py_int_model d0 (zs "Situacao") [2024])
             (or_intror eq_refl))).
Defined.

(** C5, counterexample: with no rows, a status column that is not among the
    headers gives no ['warning']. *)
Lemma missing_column_without_rows_no_warning :
  exists v, process {| headers := [zs "Status"; zs "ano Acionamento"]; values := [] |}
              (zs "Situacao") [2024] = Ok v /\
  py_get v (K "warning") = None.
Proof. eexists; split; [reflexivity|]. reflexivity. Qed.

(** C6, witness: no headers and no rows. *)
Lemma process_empty_dataset_witness :
  let d := {| headers := []; values := [] |} in
  (headers d = [] \/ values d = []) /\
  exists v, process d (zs "Status") [2024; 2025] = Ok v /\
    py_path v ["total_demandado"; "percentage"]%string = Some (PFloat 100.0%float) /\
    year_at v ["concluidos"]%string 2025 = Some (PInt 0).
Proof.
  intros d. split; [left; reflexivity|].
  destruct (process_empty_dataset py_lower py_int_model d (zs "Status") [2024; 2025]
              (or_introl eq_refl)) as [v [Hp [H1 [_ [_ [_ Hy]]]]]].
  exists v. split; [exact Hp|]. split; [exact H1|].
  apply (Hy 2025); right; left; reflexivity.
Defined.

(** C8, witness: rows ["B"] then ["A"], both of 2024. *)
Lemma subcat_first_occurrence_order_witness :
  let d := two_rows (zs "B") (zs "2024") (zs "A") (zs "2024") in
  counted_rows py_int_model 0 1 [2024] (values d) = [] ++ (zs "B", 2024) :: [] ++ [(zs "A", 2024)] /\
  exists v L1 L2 L3, process d (zs "Status") [2024] = Ok v /\
    option_map (map fst) (subcat_summary v) = Some (L1 ++ zs "B" :: L2 ++ zs "A" :: L3).
Proof.
  intros d. split; [reflexivity|].
  apply (subcat_first_occurrence_order py_lower py_int_model d (zs "Status") [2024] 0 1
           [] (zs "B", 2024) [] (zs "A", 2024) []);
    try discriminate; try reflexivity.
  - intros e [].
  - intros e [<- | []]. discriminate.
Defined.

(** C8, counterexample: ["A"] occurs first in a row of 1999, which is not
    counted; the subcategory of ["B"] comes first. *)
Lemma subcat_order_ignores_uncounted_rows :
  exists v, process {| headers := [zs "Status"; zs "ano Acionamento"];
                       values := [[zs "A"; zs "1999"]; [zs "B"; zs "2024"];
                                  [zs "A"; zs "2024"]] |}
              (zs "Status") [2024] = Ok v /\
  option_map (map fst) (subcat_summary v) = Some [zs "B"; zs "A"].
Proof. eexists; split; [reflexivity|]. reflexivity. Qed.

(** C10, witness: main values [A], [B], other values [C], [A]; the rows have
    [B], [A], [C], [D], [A]. *)
Lemma parse_status_data_follows_config_witness :
  exists v,
    parse_status_data py_int_model py_float_model status_data_example (zs "Status") [2024]
      status_cfg_example = Ok v /\
    index_of (zs "Status") (headers status_data_example) = Some 0%nat /\
    sheet_values_at v "main_statuses" = Some [zs "A"; zs "B"] /\
    sheet_values_at v "other_statuses" = Some [zs "C"].
Proof.
  destruct (parse_status_data py_int_model py_float_model status_data_example (zs "Status")
              [2024] status_cfg_example) as [v|e] eqn:Hp.
  - exists v. split; [reflexivity|]. split; [reflexivity|].
    destruct (parse_status_data_follows_config py_int_model py_float_model
                status_data_example (zs "Status") [2024] status_cfg_example v 0 Hp eq_refl)
      as [H1 [H2 _]].
    rewrite H1, H2. split; reflexivity.
  - vm_compute in Hp. discriminate.
Defined.

Lemma process_buckets_balanced_witness :
  NoDup [2024; 2025] /\
  exists v, process scenario (zs "Status") [2024; 2025] = Ok v /\ balanced_result v.
Proof.
  assert (Hnd : NoDup [2024; 2025]).
  { constructor; [simpl; intros [H|[]]; discriminate|].
    constructor; [intros []|constructor]. }
  split; [exact Hnd|].
  destruct (process scenario (zs "Status") [2024; 2025]) as [v|e] eqn:Hp.
  - exists v. split; [reflexivity|].
    exact (process_buckets_balanced py_lower py_int_model scenario (zs "Status")
             [2024; 2025] v Hnd Hp).
  - vm_compute in Hp; discriminate.
Defined.

(** X3, witness: the year 2024 and the status value [A] of the example,
    configured as main; its two rows give 2 + 1 in the 2024 column and the
    last TOTAL cell is 1. *)
Lemma parse_status_data_figures_witness :
  exists v,
    parse_status_data py_int_model py_float_model status_data_example (zs "Status") [2024]
      status_cfg_example = Ok v /\
    status_figures py_int_model 0 false status_cfg_example (headers status_data_example)
      [2024] (values status_data_example) v "main_statuses" (zs "A") /\
    status_year_sum py_int_model 0 false (year_col status_cfg_example
      (headers status_data_example) 2024) (zs "A") (values status_data_example) = 3 /\
    status_last_total py_int_model 0 false (total_col status_cfg_example
      (headers status_data_example)) (zs "A") (values status_data_example) = 1.
Proof.
  destruct (parse_status_data py_int_model py_float_model status_data_example (zs "Status")
              [2024] status_cfg_example) as [v|e] eqn:Hp.
  - exists v. split; [reflexivity|].
    split; [|split; reflexivity].
    refine (proj1 (parse_status_data_figures py_int_model py_float_model status_data_example
             (zs "Status") [2024] status_cfg_example v 0 (zs "A") _ Hp eq_refl _) _).
    + constructor; [intros []|constructor].
    + apply (proj1 (mem_In _ _)). reflexivity.
    + apply (proj1 (mem_In _ _)). reflexivity.
  - vm_compute in Hp. discriminate.
Defined.

(** X4, witness: on the example (one year column, a TOTAL column, no
    Percentual column, cells of plain digits) both parsers agree. *)
Lemma gs_parse_status_data_agrees_witness :
  gs_parse_status_data py_int_model py_float_model status_data_example (zs "Status") [2024]
    status_cfg_example =
  parse_status_data py_int_model py_float_model status_data_example (zs "Status") [2024]
    status_cfg_example.
Proof.
  apply gs_parse_status_data_agrees.
  - intros row yr ci Hr Hy E. destruct Hy as [<-|[]]. vm_compute in E.
    injection E as <-. cbn in Hr.
    repeat (destruct Hr as [<-|Hr]; [reflexivity|]). destruct Hr.
  - intros row ci Hr E. vm_compute in E. injection E as <-. cbn in Hr.
    repeat (destruct Hr as [<-|Hr]; [reflexivity|]). destruct Hr.
  - intros row ci Hr E. vm_compute in E. discriminate.
Defined.

(** X6, witness: no [years] parameter, no start, end 2026: the years 2024
    to 2026. *)
Lemma request_years_default_range_witness :
  NoDup (request_years py_int_model [] None (Some 2026) 2030) /\
  forall y, In y (request_years py_int_model [] None (Some 2026) 2030) <-> 2024 <= y <= 2026.
Proof.
  destruct (request_years_default_range py_int_model [] None (Some 2026) 2030 eq_refl)
    as [Hnd [Hin _]].
  split; [exact Hnd|]. apply Hin. cbv. discriminate.
Defined.

(** X10, witness: the two-row example with no [years] parameter and the
    range 2024 to 2025. *)
Lemma enel_default_years_balanced_witness :
  exists r,
    enel_processed_data py_lower py_int_model dup_data (zs "Status")
      (request_years py_int_model [] None (Some 2025) 2030) = Ok r /\
    balanced_result r /\
    exists ls, py_get r (K "licenca_sanitaria") = Some ls /\ balanced_result ls.
Proof.
  destruct (enel_processed_data py_lower py_int_model dup_data (zs "Status")
              (request_years py_int_model [] None (Some 2025) 2030)) as [r|e] eqn:Hr.
  - exists r. split; [reflexivity|].
    exact (enel_default_years_balanced py_lower py_int_model dup_data (zs "Status") []
             None (Some 2025) 2030 r eq_refl Hr).
  - vm_compute in Hr. discriminate.
Defined.

(** X11, witness: two uploads of 'a.xlsx' and 'b.xlsx' under the name
    'Legalização SP' (once with surrounding spaces), with [secure_filename]
    taken as the identity and [Path.suffix] as [suffix_model]. *)

Lemma upload_target_distinct_witness :
  exists p,
    upload_plan py_lower (fun s => s) suffix_model true (zs "a.xlsx")
      (Some (zs "Legaliza" ++ [231; 227] ++ zs "o SP")) = Ok (UploadTo p) /\
    upload_plan py_lower (fun s => s) suffix_model true (zs "b.xlsx")
      (Some (zs " Legaliza" ++ [231; 227] ++ zs "o SP ")) = Ok (UploadTo p) /\
    form_spreadsheet_name (Some (zs "Legaliza" ++ [231; 227] ++ zs "o SP")) =
    form_spreadsheet_name (Some (zs " Legaliza" ++ [231; 227] ++ zs "o SP ")).
Proof.
  assert (Hs : forall s, dot_suffix (suffix_model s)).
  { intros s. unfold suffix_model, dot_suffix. destruct (rfind 46 s);
      [right; eexists; reflexivity | left; reflexivity]. }
  eexists. split; [reflexivity|]. split; [reflexivity|].
  destruct (upload_target_distinct py_lower (fun s => s) suffix_model true true
              (zs "a.xlsx") (zs "b.xlsx")
              (Some (zs "Legaliza" ++ [231; 227] ++ zs "o SP"))
              (Some (zs " Legaliza" ++ [231; 227] ++ zs "o SP "))
              (zs "ENEL_Legaliza" ++ [231; 97] ++ zs "o_SP.xlsx") Hs eq_refl eq_refl) as [_ [_ E]].
  exact E.
Defined.
